(** * finplanner: the projection engine, its real-estate valuator, the
    projection cache and the Monte Carlo layer, embedded in Rocq.

    Numbers.  The Python code computes on floats; the embedding computes on
    exact rationals ([Q], compared with [==]).  Ages, calendar years, loan
    terms and payment counts are integers ([Z]); they are the exponents of
    every [**] in the source.  The owner's age handed to
    [calculate_account_growth_rate] is rational, because that function is
    plain arithmetic in the age; the engine calls it at integer ages.
    Rationals do not round, cancel or overflow.  Where that decides what
    a function returns, the two amortization functions are given a second
    time on binary64 floats (module [Binary64]), and the statements about
    the rational versions keep to inputs at which the floats do neither,
    or ask that the calls return.

    Exceptions.  A Python exception is a value [Raise e] of the result type
    [res]; a dictionary whose key may be absent (or hold [None]) is a record
    with [option] fields. *)

From Stdlib Require Import ZArith QArith Qabs Qpower Lia Lqa List Bool String.
From Stdlib Require PrimFloat Uint63.
From stdpp Require Import base option gmap strings.
Import ListNotations.

Local Open Scope Z_scope.
Local Open Scope Q_scope.

(** ** Exceptions and results *)

Inductive exn : Type :=
| KeyError
| TypeError
| ZeroDivisionError.

Inductive res (A : Type) : Type :=
| Ok (a : A)
| Raise (e : exn).

Arguments Ok {A} a.
Arguments Raise {A} e.

Definition rbind {A B : Type} (m : res A) (k : A -> res B) : res B :=
  match m with
  | Ok a => k a
  | Raise e => Raise e
  end.

Notation "'let?' x ':=' m 'in' k" := (rbind m (fun x => k))
  (at level 10, x pattern, m at level 100, k at level 200).

(** [d[k]] on a dictionary whose key [k] may be absent. *)
Definition getitem {A : Type} (f : option A) : res A :=
  match f with
  | Some a => Ok a
  | None => Raise KeyError
  end.

(** [d.get(k, default)]. *)
Definition get_default {A : Type} (f : option A) (d : A) : A :=
  match f with
  | Some a => a
  | None => d
  end.

(** ** Arithmetic of the source on rationals *)

(** Python's [a / b]. *)
Definition pydiv (a b : Q) : res Q :=
  if Qeq_bool b 0 then Raise ZeroDivisionError else Ok (a / b).

(** Python's [max(0, x)]: the first argument is kept unless the second is
    strictly greater. *)
Definition max0 (x : Q) : Q :=
  if Qle_bool x 0 then 0 else x.

Definition Qlt_bool (a b : Q) : bool := negb (Qle_bool b a).

(** Python's [b ** n] for an integer [n]. *)
Definition pypow (b : Q) (n : Z) : Q := Qpower b n.

Definition Zq (z : Z) : Q := inject_Z z.

(** ** AmortizationCalculator (models/real_estate_v2.py)

    On rationals [(1 + monthly_rate) ** n - 1] is 0 only for a rate of 0
    or a term of 0.  On the source's floats it is also 0.0 when
    [1 + monthly_rate] rounds to 1, and the power overflows for large
    rates and terms: see [Binary64] for the functions on floats. *)

Definition calculate_monthly_mortgage_payment
    (principal annual_rate : Q) (years : Z) : res Q :=
  if Qeq_bool annual_rate 0 then
    pydiv principal (Zq (years * 12))
  else
    let monthly_rate := annual_rate / 12 in
    let num_payments := (years * 12)%Z in
    pydiv (principal * (monthly_rate * pypow (1 + monthly_rate) num_payments))
          (pypow (1 + monthly_rate) num_payments - 1).

Definition calculate_mortgage_balance
    (original_principal annual_rate : Q) (term_years payments_made : Z) : res Q :=
  if Qeq_bool annual_rate 0 then
    let total_payments := (term_years * 12)%Z in
    let? paid := pydiv (original_principal * Zq payments_made) (Zq total_payments) in
    Ok (max0 (original_principal - paid))
  else
    let monthly_rate := annual_rate / 12 in
    let total_payments := (term_years * 12)%Z in
    if (payments_made >=? total_payments)%Z then Ok 0
    else
      let? remaining_balance :=
        pydiv (original_principal *
                 (pypow (1 + monthly_rate) total_payments
                  - pypow (1 + monthly_rate) payments_made))
              (pypow (1 + monthly_rate) total_payments - 1) in
      Ok (max0 remaining_balance).

(** ** Python dictionaries whose iteration order matters

    Keys in first-insertion order; assigning to a key that is present
    replaces the value in place. *)

Definition dict (V : Type) : Type := list (string * V).

Fixpoint dict_set {V : Type} (k : string) (v : V) (d : dict V) : dict V :=
  match d with
  | [] => [(k, v)]
  | (k', v') :: d' =>
      if String.eqb k k' then (k, v) :: d' else (k', v') :: dict_set k v d'
  end.

Definition dict_values {V : Type} (d : dict V) : list V := map snd d.

(** Python's [sum(xs)]: a left fold from 0. *)
Definition pysum (xs : list Q) : Q := fold_left Qplus xs 0.

(** ** RealEstateValuator (models/property_classes.py) *)

(** One entry of [scenario['real_estate']]. *)
Record PropertyData : Type := {
  pd_property_name : option string;
  pd_is_existing_property : option bool;
  pd_mortgage_rate : option Q;
  pd_mortgage_term_years : option Z;
  pd_appreciation_rate : option Q;
  pd_sale_year : option Z;
  pd_purchase_year : option Z;
  pd_purchase_price : option Q;
  pd_down_payment_percent : option Q;
  pd_current_value : option Q;
  pd_current_mortgage_balance : option Q
}.

(** The two subclasses of [Property]; [ExistingProperty] carries the two
    attributes its constructor adds. *)
Inductive PropertyKind : Type :=
| ExistingProperty (current_value current_mortgage_balance : Q)
| FutureProperty.

Record Property : Type := {
  property_name : string;
  mortgage_rate : Q;
  mortgage_term_years : Z;
  appreciation_rate : Q;
  sale_year : option Z;
  purchase_year : Z;
  purchase_price : Q;
  down_payment_percent : Q;
  kind : PropertyKind
}.

Definition create_property (property_data : PropertyData) : res Property :=
  let is_existing := get_default (pd_is_existing_property property_data) false in
  let? nm := getitem (pd_property_name property_data) in
  Ok {| property_name := nm;
        mortgage_rate := get_default (pd_mortgage_rate property_data) 4 / 100;
        mortgage_term_years := get_default (pd_mortgage_term_years property_data) 30%Z;
        appreciation_rate := get_default (pd_appreciation_rate property_data) 3 / 100;
        sale_year := pd_sale_year property_data;
        purchase_year := get_default (pd_purchase_year property_data) 2020%Z;
        purchase_price := get_default (pd_purchase_price property_data) 0;
        down_payment_percent :=
          get_default (pd_down_payment_percent property_data) 20 / 100;
        kind :=
          if is_existing then
            ExistingProperty
              (get_default (pd_current_value property_data) 0)
              (get_default (pd_current_mortgage_balance property_data) 0)
          else FutureProperty |}.

Definition is_sold_before_year (self : Property) (year : Z) : bool :=
  match sale_year self with
  | Some sy => (year >? sy)%Z
  | None => false
  end.

Definition is_sold_in_year (self : Property) (year : Z) : bool :=
  match sale_year self with
  | Some sy => (sy =? year)%Z
  | None => false
  end.

(** Every caller in the engine passes [current_year]. *)
Definition calculate_value_at_year (self : Property) (year current_year : Z) : Q :=
  match kind self with
  | ExistingProperty current_value _ =>
      let years_from_current := Z.max 0 (year - current_year) in
      current_value * pypow (1 + appreciation_rate self) years_from_current
  | FutureProperty =>
      if (year <? purchase_year self)%Z then 0
      else
        let years_owned := (year - purchase_year self)%Z in
        purchase_price self * pypow (1 + appreciation_rate self) years_owned
  end.

Definition calculate_mortgage_balance_at_year
    (self : Property) (year current_year : Z) : res Q :=
  match kind self with
  | ExistingProperty _ current_mortgage_balance =>
      if Qle_bool current_mortgage_balance 0 then Ok 0
      else
        let years_since_current := (year - current_year)%Z in
        if (years_since_current <=? 0)%Z then Ok current_mortgage_balance
        else
          let years_already_paid := (current_year - purchase_year self)%Z in
          let remaining_term_years :=
            (mortgage_term_years self - years_already_paid)%Z in
          if (remaining_term_years <=? years_since_current)%Z then Ok 0
          else
            let months_additional := (years_since_current * 12)%Z in
            calculate_mortgage_balance current_mortgage_balance
              (mortgage_rate self) remaining_term_years months_additional
  | FutureProperty =>
      if (year <? purchase_year self)%Z then Ok 0
      else
        let years_since_purchase := (year - purchase_year self)%Z in
        let mortgage_principal :=
          purchase_price self * (1 - down_payment_percent self) in
        if (years_since_purchase >=? mortgage_term_years self)%Z then Ok 0
        else
          let months_since_purchase := (years_since_purchase * 12)%Z in
          calculate_mortgage_balance mortgage_principal (mortgage_rate self)
            (mortgage_term_years self) months_since_purchase
  end.

Definition calculate_equity_at_year
    (self : Property) (year current_year : Z) : res Q :=
  if is_sold_before_year self year then Ok 0
  else
    let value := calculate_value_at_year self year current_year in
    let? balance := calculate_mortgage_balance_at_year self year current_year in
    Ok (max0 (value - balance)).

Definition closing_cost_rate : Q := 6 # 100.

Definition calculate_sale_proceeds
    (self : Property) (year current_year : Z) : res Q :=
  if negb (is_sold_in_year self year) then Ok 0
  else
    let? equity := calculate_equity_at_year self year current_year in
    Ok (equity * (1 - closing_cost_rate)).

(** [get_down_payment_in_year] exists on [FutureProperty] only. *)
Definition get_down_payment_in_year (self : Property) (year : Z) : Q :=
  if (year =? purchase_year self)%Z
  then purchase_price self * down_payment_percent self
  else 0.

(** ** Aggregator (models/real_estate_v2.py) *)

Record Impact : Type := {
  annual_expenses : Q;
  annual_income : Q;
  one_time_expenses : Q;
  property_values : dict Q;
  equity_values : dict Q;
  sale_proceeds : Q
}.

Definition empty_impact : Impact :=
  {| annual_expenses := 0; annual_income := 0; one_time_expenses := 0;
     property_values := []; equity_values := []; sale_proceeds := 0 |}.

(** The body of the loop over [properties], for one [prop_data]. *)
Definition impact_of_property
    (current_year year : Z) (result : Impact) (prop_data : PropertyData)
    : res Impact :=
  match pd_property_name prop_data with
  | None => Ok result
  | Some _ =>
    let? property_obj := create_property prop_data in
    if is_sold_before_year property_obj year then Ok result
    else
      let property_value := calculate_value_at_year property_obj year current_year in
      let? equity_value := calculate_equity_at_year property_obj year current_year in
      let? mortgage_balance :=
        calculate_mortgage_balance_at_year property_obj year current_year in
      let pv := dict_set (property_name property_obj) property_value
                  (property_values result) in
      let ev := dict_set (property_name property_obj) equity_value
                  (equity_values result) in
      let ote :=
        match kind property_obj with
        | FutureProperty =>
            one_time_expenses result + get_down_payment_in_year property_obj year
        | ExistingProperty _ _ => one_time_expenses result
        end in
      let? ae :=
        if Qlt_bool 0 mortgage_balance && negb (is_sold_in_year property_obj year)
        then
          let? monthly_payment :=
            match kind property_obj with
            | ExistingProperty _ current_mortgage_balance =>
                if Qlt_bool 0 current_mortgage_balance then
                  let years_already_paid :=
                    (current_year - purchase_year property_obj)%Z in
                  let remaining_term :=
                    Z.max 1 (mortgage_term_years property_obj - years_already_paid) in
                  calculate_monthly_mortgage_payment current_mortgage_balance
                    (mortgage_rate property_obj) remaining_term
                else
                  let mortgage_principal :=
                    purchase_price property_obj
                    * (1 - down_payment_percent property_obj) in
                  calculate_monthly_mortgage_payment mortgage_principal
                    (mortgage_rate property_obj) (mortgage_term_years property_obj)
            | FutureProperty =>
                let mortgage_principal :=
                  purchase_price property_obj
                  * (1 - down_payment_percent property_obj) in
                calculate_monthly_mortgage_payment mortgage_principal
                  (mortgage_rate property_obj) (mortgage_term_years property_obj)
            end in
          Ok (annual_expenses result + monthly_payment * 12)
        else Ok (annual_expenses result) in
      if is_sold_in_year property_obj year then
        let? proceeds := calculate_sale_proceeds property_obj year current_year in
        Ok {| annual_expenses := ae;
              annual_income := annual_income result;
              one_time_expenses := ote;
              property_values := pv;
              equity_values := dict_set (property_name property_obj) 0 ev;
              sale_proceeds := sale_proceeds result + proceeds |}
      else
        Ok {| annual_expenses := ae;
              annual_income := annual_income result;
              one_time_expenses := ote;
              property_values := pv;
              equity_values := ev;
              sale_proceeds := sale_proceeds result |}
  end.

Fixpoint impact_loop
    (current_year year : Z) (properties : list PropertyData) (result : Impact)
    : res Impact :=
  match properties with
  | [] => Ok result
  | prop_data :: rest =>
      let? result' := impact_of_property current_year year result prop_data in
      impact_loop current_year year rest result'
  end.

(** [age] is accepted and not used, as in the source. *)
Definition calculate_real_estate_impact_v2
    (properties : list PropertyData) (current_year age year : Z) : res Impact :=
  impact_loop current_year year properties empty_impact.

(** ** ProjectionCache (services/projection_cache.py)

    [_re_impact] is keyed by the string [re_<year>], one key per integer
    year; the map below is keyed by the year.  [_people_ages] and
    [_current_year] are never read by the engine and are left out. *)

Record ProjectionCache : Type := {
  _re_impact : gmap Z Impact
}.

Definition cache_clear : ProjectionCache := {| _re_impact := ∅ |}.

Definition get_real_estate_impact
    (self : ProjectionCache) (properties : list PropertyData)
    (current_year age year : Z) : res (Impact * ProjectionCache) :=
  match _re_impact self !! year with
  | Some impact => Ok (impact, self)
  | None =>
      let? impact := calculate_real_estate_impact_v2 properties current_year age year in
      Ok (impact, {| _re_impact := <[year := impact]> (_re_impact self) |})
  end.

(** ** Scenario data (the dictionaries the engine reads) *)

Record Person : Type := {
  name : string;
  current_age : Z
}.

(** An entry of [income_sources], [retirement_income] or
    [recurring_expenses].  A field is [None] when the key is absent or
    holds Python's [None]. *)
Record Item : Type := {
  person : option string;
  start_age : option Z;
  end_age : option Z;
  annual_amount : option Q;
  growth_rate : option Q
}.

(** An entry of [planned_expenses]. *)
Record Planned : Type := {
  pl_year : option Z;
  pl_amount : option Q;
  recurring_years : option Z;
  repeat_every : option Z;
  repeat_until_year : option Z
}.

(** An entry of [account_details]. *)
Record AccountDetail : Type := {
  account_type : string;
  ad_account_owner : string;
  current_balance : Q;
  ad_aggressive_rate : option Q;
  ad_conservative_rate : option Q;
  ad_transition_start_age : option Q;
  ad_transition_end_age : option Q
}.

(** Collections that the engine tests with [key in scenario and
    scenario[key]] or reads with [.get(key, [])] are lists, empty when the
    key is absent.  [accounts] is [Some] when [scenario.get('accounts')] is
    a dict (the legacy form: account name to balance). *)
Record Scenario : Type := {
  s_current_age : Z;
  max_projection_age : Z;
  s_current_year : Z;
  people : list Person;
  accounts : option (dict Q);
  account_details : list AccountDetail;
  income_sources : list Item;
  retirement_income : list Item;
  recurring_expenses : list Item;
  planned_expenses : list Planned;
  real_estate : list PropertyData
}.

(** The engine's working copy of one account: the values of
    [account_balances].  The rate and transition keys are optional because
    one of the two engines leaves them out and
    [calculate_account_growth_rate] reads them with [.get]. *)
Record AccountData : Type := {
  balance : Q;
  aggressive_rate : option Q;
  conservative_rate : option Q;
  transition_start_age : option Q;
  transition_end_age : option Q;
  account_owner : string
}.

Definition set_balance (a : AccountData) (b : Q) : AccountData :=
  {| balance := b;
     aggressive_rate := aggressive_rate a;
     conservative_rate := conservative_rate a;
     transition_start_age := transition_start_age a;
     transition_end_age := transition_end_age a;
     account_owner := account_owner a |}.

Record YearRecord : Type := {
  yr_age : Z;
  yr_year : Z;
  income : Q;
  expenses : Q;
  net_cashflow : Q;
  real_estate_sales : Q;
  portfolio_contribution : Q;
  portfolio_return_amount : Q;
  portfolio_balance : Q;
  real_estate_equity : Q;
  total_net_worth : Q
}.

(** ** ProjectionEngine (models/projection.py) *)

(** The [else] branch divides by [transition_end - transition_start], which
    is positive there: [transition_start < owner_age < transition_end]. *)
Definition calculate_account_growth_rate (account : AccountData) (owner_age : Q) : Q :=
  let aggressive_rate := get_default (aggressive_rate account) 6 in
  let conservative_rate := get_default (conservative_rate account) 6 in
  let transition_start := get_default (transition_start_age account) 50 in
  let transition_end := get_default (transition_end_age account) 65 in
  if Qle_bool owner_age transition_start then aggressive_rate / 100
  else if Qle_bool transition_end owner_age then conservative_rate / 100
  else
    let transition_progress :=
      (owner_age - transition_start) / (transition_end - transition_start) in
    (aggressive_rate + (conservative_rate - aggressive_rate) * transition_progress)
    / 100.

(** [next((p for p in people if p['name'] == who), None)]. *)
Definition find_person (people : list Person) (who : string) : option Person :=
  List.find (fun p => String.eqb (name p) who) people.

(** The age an item or an account is gated on: the named person's age that
    year when the person is found, the primary age otherwise. *)
Definition age_of
    (people : list Person) (current_year : Z) (who : string) (age year : Z) : Z :=
  if String.eqb who "Joint" then age
  else
    match find_person people who with
    | Some person_data => (current_age person_data + (year - current_year))%Z
    | None => age
    end.

(** One iteration of the loops over [income_sources] and
    [retirement_income], as a function of the running [total_income].  The
    chained comparison [start <= age <= end] reads [end_age] only when its
    first half holds.  [Raise KeyError] stands for the [KeyError] of an
    absent key and for the [TypeError] of a key that holds [None].  The
    power on rationals cannot overflow; the source's float power raises
    [OverflowError], which this loop does not catch, once the result
    exceeds the largest float. *)
Definition income_step
    (s : Scenario) (age year : Z) (total_income : Q) (income_src : Item) : res Q :=
  let income_person := get_default (person income_src) "Joint"%string in
  let income_age := age_of (people s) (s_current_year s) income_person age year in
  let? sa := getitem (start_age income_src) in
  if (sa <=? income_age)%Z then
    let? ea := getitem (end_age income_src) in
    if (income_age <=? ea)%Z then
      let years_from_start := (income_age - sa)%Z in
      let? amt := getitem (annual_amount income_src) in
      let? gr := getitem (growth_rate income_src) in
      let amount := amt * pypow (1 + gr / 100) years_from_start in
      Ok (total_income + amount)
    else Ok total_income
  else Ok total_income.

Fixpoint income_loop
    (s : Scenario) (age year : Z) (items : list Item) (total_income : Q) : res Q :=
  match items with
  | [] => Ok total_income
  | income_src :: rest =>
      let? total_income' := income_step s age year total_income income_src in
      income_loop s age year rest total_income'
  end.

Definition calculate_total_income
    (s : Scenario) (age year : Z) (cache : ProjectionCache)
    : res (Q * ProjectionCache) :=
  let? t1 := income_loop s age year (income_sources s) 0 in
  let? t2 := income_loop s age year (retirement_income s) t1 in
  match real_estate s with
  | [] => Ok (t2, cache)
  | _ =>
      let? (re_impact, cache') :=
        get_real_estate_impact cache (real_estate s) (s_current_year s) age year in
      Ok (t2 + annual_income re_impact, cache')
  end.

(** The body of the [try] in the loop over [recurring_expenses], as a
    function of the running [total_expenses]; a [continue] returns the
    total unchanged.  The inner [try] around the power, with its
    [except (ValueError, OverflowError): continue], has no counterpart
    here: the power on rationals raises neither, where the source's float
    power overflows and the item is skipped. *)
Definition expense_try
    (s : Scenario) (age year : Z) (total_expenses : Q) (expense : Item) : res Q :=
  match person expense, start_age expense, end_age expense,
        annual_amount expense, growth_rate expense with
  | Some expense_person, Some sa, Some ea, Some amt, Some growth_rate_percent =>
      let expense_age :=
        age_of (people s) (s_current_year s) expense_person age year in
      if (sa >? ea)%Z then Ok total_expenses
      else if (sa <=? expense_age)%Z && (expense_age <=? ea)%Z then
        let years_from_start := (expense_age - sa)%Z in
        let growth_rate := growth_rate_percent / 100 in
        let amount := amt * pypow (1 + growth_rate) years_from_start in
        let amount := if Qlt_bool amount 0 then 0 else amount in
        Ok (total_expenses + amount)
      else Ok total_expenses
  | _, _, _, _, _ => Ok total_expenses
  end.

(** [try: ... except Exception: continue]. *)
Definition expense_step
    (s : Scenario) (age year : Z) (total_expenses : Q) (expense : Item) : Q :=
  match expense_try s age year total_expenses expense with
  | Ok total_expenses' => total_expenses'
  | Raise _ => total_expenses
  end.

Definition recurring_loop
    (s : Scenario) (age year : Z) (items : list Item) (total_expenses : Q) : Q :=
  fold_left (expense_step s age year) items total_expenses.

(** One iteration of the loop over [planned_expenses]. *)
Definition planned_step (year : Z) (total_expenses : Q) (planned : Planned) : res Q :=
  match pl_year planned, pl_amount planned with
  | Some pyear, Some amount =>
      let t1 :=
        if (pyear =? year)%Z then total_expenses + amount
        else
          match recurring_years planned with
          | Some ry =>
              if (ry >? 1)%Z && ((pyear <=? year)%Z && (year <? pyear + ry)%Z)
              then total_expenses + amount
              else total_expenses
          | None => total_expenses
          end in
      match repeat_every planned, repeat_until_year planned with
      | Some every, Some until =>
          let years_since_first := (year - pyear)%Z in
          if (years_since_first >? 0)%Z then
            if (every =? 0)%Z then Raise ZeroDivisionError
            else if (years_since_first mod every =? 0)%Z then
              if (year <=? until)%Z then Ok (t1 + amount) else Ok t1
            else Ok t1
          else Ok t1
      | _, _ => Ok t1
      end
  | _, _ => Ok total_expenses
  end.

Fixpoint planned_loop
    (year : Z) (items : list Planned) (total_expenses : Q) : res Q :=
  match items with
  | [] => Ok total_expenses
  | planned :: rest =>
      let? total_expenses' := planned_step year total_expenses planned in
      planned_loop year rest total_expenses'
  end.

Definition calculate_total_expenses
    (s : Scenario) (age year : Z) (cache : ProjectionCache)
    : res (Q * ProjectionCache) :=
  let t1 := recurring_loop s age year (recurring_expenses s) 0 in
  let? t2 := planned_loop year (planned_expenses s) t1 in
  match real_estate s with
  | [] => Ok (t2, cache)
  | _ =>
      let? (re_impact, cache') :=
        get_real_estate_impact cache (real_estate s) (s_current_year s) age year in
      Ok (t2 + annual_expenses re_impact + one_time_expenses re_impact, cache')
  end.

(** *** Account set-up: the two forms of the scenario's accounts *)

Definition rate_005 : Q := 5 # 100.

Definition legacy_account (bal : Q) : AccountData :=
  {| balance := bal;
     aggressive_rate := Some rate_005;
     conservative_rate := Some rate_005;
     transition_start_age := Some 50;
     transition_end_age := Some 65;
     account_owner := "Joint" |}.

Definition account_key (account : AccountDetail) : string :=
  (account_type account ++ "_" ++ ad_account_owner account)%string.

Definition detailed_account (account : AccountDetail) : AccountData :=
  {| balance := current_balance account;
     aggressive_rate := Some (get_default (ad_aggressive_rate account) rate_005);
     conservative_rate := Some (get_default (ad_conservative_rate account) rate_005);
     transition_start_age := Some (get_default (ad_transition_start_age account) 50);
     transition_end_age := Some (get_default (ad_transition_end_age account) 65);
     account_owner := ad_account_owner account |}.

Definition init_account_balances (s : Scenario) : dict AccountData :=
  match accounts s with
  | Some legacy =>
      fold_left (fun d '(account_name, bal) =>
                   dict_set account_name (legacy_account bal) d) legacy []
  | None =>
      fold_left (fun d account =>
                   dict_set (account_key account) (detailed_account account) d)
                (account_details s) []
  end.

(** *** One simulated year *)

(** The growth loop: each account earns [balance * growth_rate]; the loop
    accumulates the return amounts and the post-growth balances. *)
Fixpoint growth_loop
    (people_data : list Person) (current_year age year : Z)
    (account_balances : dict AccountData) (total_return_amount total_portfolio_balance : Q)
    : dict AccountData * Q * Q :=
  match account_balances with
  | [] => ([], total_return_amount, total_portfolio_balance)
  | (account_key, account_data) :: rest =>
      let owner_age :=
        age_of people_data current_year (account_owner account_data) age year in
      let growth_rate := calculate_account_growth_rate account_data (Zq owner_age) in
      let account_return := balance account_data * growth_rate in
      let account_data' := set_balance account_data (balance account_data + account_return) in
      let '(rest', tr, tb) :=
        growth_loop people_data current_year age year rest
          (total_return_amount + account_return)
          (total_portfolio_balance + balance account_data') in
      ((account_key, account_data') :: rest', tr, tb)
  end.

(** The pro-rata branch for one account; [total_portfolio_balance > 0]
    there, so the division is defined. *)
Definition contribute (net_cashflow total_portfolio_balance : Q) (account_data : AccountData)
    : AccountData :=
  let account_proportion := balance account_data / total_portfolio_balance in
  let account_contribution := net_cashflow * account_proportion in
  let b := balance account_data + account_contribution in
  set_balance account_data (if Qlt_bool b 0 then 0 else b).

(** The cashflow distribution that follows the growth loop. *)
Definition distribute
    (net_cashflow total_portfolio_balance : Q) (account_balances : dict AccountData)
    : dict AccountData :=
  if negb (Qeq_bool net_cashflow 0) then
    if Qlt_bool 0 total_portfolio_balance then
      map (fun '(k, account_data) =>
             (k, contribute net_cashflow total_portfolio_balance account_data))
          account_balances
    else if Qlt_bool 0 net_cashflow then
      match account_balances with
      | [] => []
      | (k, first_account) :: rest =>
          (k, set_balance first_account (max0 net_cashflow)) :: rest
      end
    else account_balances
  else account_balances.

Definition total_balance (account_balances : dict AccountData) : Q :=
  pysum (map balance (dict_values account_balances)).

(** The state a run carries from year to year. *)
Record RunState : Type := {
  st_cache : ProjectionCache;
  st_accounts : dict AccountData;
  st_real_estate_equity : Q
}.

(** Income, expenses and the real-estate figures of the year: the part of
    the loop body that both engines share, up to [net_cashflow]. *)
Definition year_cashflow (s : Scenario) (age year : Z) (st : RunState)
    : res (Q * Q * Q * Q * ProjectionCache) :=
  let? (income, c1) := calculate_total_income s age year (st_cache st) in
  let? (expenses, c2) := calculate_total_expenses s age year c1 in
  match real_estate s with
  | [] => Ok (income, expenses, 0, st_real_estate_equity st, c2)
  | _ =>
      let? (re_impact, c3) :=
        get_real_estate_impact c2 (real_estate s) (s_current_year s) age year in
      Ok (income, expenses, sale_proceeds re_impact,
          pysum (dict_values (equity_values re_impact)), c3)
  end.

Definition make_record
    (age year : Z) (income expenses net_cashflow real_estate_cash_from_sales
     total_return_amount total_portfolio_balance real_estate_equity : Q) : YearRecord :=
  {| yr_age := age;
     yr_year := year;
     income := income;
     expenses := expenses;
     net_cashflow := net_cashflow - real_estate_cash_from_sales;
     real_estate_sales := real_estate_cash_from_sales;
     portfolio_contribution := net_cashflow;
     portfolio_return_amount := total_return_amount;
     portfolio_balance := total_portfolio_balance;
     real_estate_equity := real_estate_equity;
     total_net_worth := total_portfolio_balance + real_estate_equity |}.

(** The body of [for age in range(current_age, max_age + 1)]. *)
Definition project_year (s : Scenario) (st : RunState) (age : Z)
    : res (YearRecord * RunState) :=
  let year := (s_current_year s + (age - s_current_age s))%Z in
  let? (income, expenses, real_estate_cash_from_sales, real_estate_equity, cache) :=
    year_cashflow s age year st in
  let net_cashflow := income - expenses + real_estate_cash_from_sales in
  let '(grown, total_return_amount, total_portfolio_balance) :=
    growth_loop (people s) (s_current_year s) age year (st_accounts st) 0 0 in
  let accounts' := distribute net_cashflow total_portfolio_balance grown in
  let total_portfolio_balance := total_balance accounts' in
  Ok (make_record age year income expenses net_cashflow real_estate_cash_from_sales
        total_return_amount total_portfolio_balance real_estate_equity,
      {| st_cache := cache; st_accounts := accounts';
         st_real_estate_equity := real_estate_equity |}).

(** A run: the year body folded over the ages, projections in order. *)
Fixpoint run_years
    (body : RunState -> Z -> res (YearRecord * RunState))
    (ages : list Z) (st : RunState) : res (list YearRecord * RunState) :=
  match ages with
  | [] => Ok ([], st)
  | age :: rest =>
      let? (rec, st') := body st age in
      let? (recs, st'') := run_years body rest st' in
      Ok (rec :: recs, st'')
  end.

(** [range(current_age, max_age + 1)]. *)
Definition age_range (s : Scenario) : list Z :=
  seqZ (s_current_age s) (max_projection_age s + 1 - s_current_age s).

Definition initial_state (s : Scenario) : RunState :=
  {| st_cache := cache_clear;
     st_accounts := init_account_balances s;
     st_real_estate_equity := 0 |}.

Definition project_scenario (s : Scenario) : res (list YearRecord) :=
  let? (projections, _) := run_years (project_year s) (age_range s) (initial_state s) in
  Ok projections.

(** ** MonteCarloEngine (models/monte_carlo.py) *)

Definition calculate_volatility_from_return (return_rate : Q) : Q :=
  let return_pct := return_rate * 100 in
  if Qle_bool 8 return_pct then (16 # 100) + (return_pct - 8) * (1 # 100)
  else if Qle_bool 7 return_pct then (12 # 100) + (return_pct - 7) * (4 # 100)
  else if Qle_bool (55 # 10) return_pct then
    (8 # 100) + (return_pct - (55 # 10)) * (27 # 1000)
  else if Qle_bool 4 return_pct then (4 # 100) + (return_pct - 4) * (27 # 1000)
  else (2 # 100) + return_pct * (5 # 1000).

Definition get_current_account_return_rate (account : AccountData) : Q :=
  get_default (aggressive_rate account) 7.

Definition get_account_volatility
    (account : AccountData) (deterministic_rate : option Q) : Q :=
  match deterministic_rate with
  | Some r => calculate_volatility_from_return r
  | None => calculate_volatility_from_return (get_current_account_return_rate account)
  end.

(** The random stream.  [correlated i] is the [i]-th entry of the year's
    vector of standard-normal draws after the Cholesky transform; with one
    account it is the single standard-normal draw [z] behind
    [np.random.normal(mean, vol) = mean + vol * z].  Both branches of the
    source therefore return [expected + vol * correlated i] per account. *)
Fixpoint generate_correlated_returns_from
    (correlated : nat -> Q) (i : nat) (expected_returns volatilities : list Q)
    : list Q :=
  match expected_returns, volatilities with
  | expected :: es, vol :: vs =>
      (expected + vol * correlated i)
      :: generate_correlated_returns_from correlated (S i) es vs
  | _, _ => []
  end.

Definition generate_correlated_returns
    (correlated : nat -> Q) (expected_returns volatilities : list Q) : list Q :=
  generate_correlated_returns_from correlated 0 expected_returns volatilities.

Section Trial.

(** The engine's [get_account_volatility(account_data, det_rate)], kept
    as a parameter so that a trial can be run with another volatility
    (such as one forced to 0), and the year's random vectors. *)
Variable volatility_of : AccountData -> Q -> Q.
Variable noise : Z -> nat -> Q.

(** The first loop over the accounts: deterministic rates and
    volatilities, in account order. *)
Fixpoint rates_loop
    (people_data : list Person) (current_year age year : Z)
    (account_balances : dict AccountData) : list Q * list Q :=
  match account_balances with
  | [] => ([], [])
  | (_, account_data) :: rest =>
      let owner_age :=
        age_of people_data current_year (account_owner account_data) age year in
      let det_rate := calculate_account_growth_rate account_data (Zq owner_age) in
      let '(deterministic_rates, volatilities) :=
        rates_loop people_data current_year age year rest in
      (det_rate :: deterministic_rates,
       volatility_of account_data det_rate :: volatilities)
  end.

(** The second loop: each account earns [balance * stochastic_rate].  An
    account past the end of the returns cannot occur: the returns have
    one entry per account. *)
Fixpoint apply_returns
    (account_balances : dict AccountData) (stochastic_returns : list Q)
    (total_return_amount total_portfolio_balance : Q)
    : dict AccountData * Q * Q :=
  match account_balances, stochastic_returns with
  | (account_key, account_data) :: rest, stochastic_rate :: rs =>
      let account_return := balance account_data * stochastic_rate in
      let account_data' :=
        set_balance account_data (balance account_data + account_return) in
      let '(rest', tr, tb) :=
        apply_returns rest rs
          (total_return_amount + account_return)
          (total_portfolio_balance + balance account_data') in
      ((account_key, account_data') :: rest', tr, tb)
  | _, _ => (account_balances, total_return_amount, total_portfolio_balance)
  end.

Definition simulate_year (s : Scenario) (st : RunState) (age : Z)
    : res (YearRecord * RunState) :=
  let year := (s_current_year s + (age - s_current_age s))%Z in
  let? (income, expenses, real_estate_cash_from_sales, real_estate_equity, cache) :=
    year_cashflow s age year st in
  let net_cashflow := income - expenses + real_estate_cash_from_sales in
  let '(deterministic_rates, volatilities) :=
    rates_loop (people s) (s_current_year s) age year (st_accounts st) in
  let stochastic_returns :=
    generate_correlated_returns (noise age) deterministic_rates volatilities in
  let '(grown, total_return_amount, total_portfolio_balance) :=
    apply_returns (st_accounts st) stochastic_returns 0 0 in
  let accounts' := distribute net_cashflow total_portfolio_balance grown in
  let total_portfolio_balance := total_balance accounts' in
  Ok (make_record age year income expenses net_cashflow real_estate_cash_from_sales
        total_return_amount total_portfolio_balance real_estate_equity,
      {| st_cache := cache; st_accounts := accounts';
         st_real_estate_equity := real_estate_equity |}).

End Trial.

(** The trial's account set-up.  The legacy branch stores [balance],
    [aggressive_rate] and [account_owner] (and two keys that no later code
    reads); the other branch stores what the deterministic engine stores. *)
Definition mc_legacy_account (bal : Q) : AccountData :=
  {| balance := bal;
     aggressive_rate := Some rate_005;
     conservative_rate := None;
     transition_start_age := None;
     transition_end_age := None;
     account_owner := "Joint" |}.

Definition mc_init_account_balances (s : Scenario) : dict AccountData :=
  match accounts s with
  | Some legacy =>
      fold_left (fun d '(account_name, bal) =>
                   dict_set account_name (mc_legacy_account bal) d) legacy []
  | None =>
      fold_left (fun d account =>
                   dict_set (account_key account) (detailed_account account) d)
                (account_details s) []
  end.

Definition mc_initial_state (s : Scenario) : RunState :=
  {| st_cache := cache_clear;
     st_accounts := mc_init_account_balances s;
     st_real_estate_equity := 0 |}.

(** One record of a trial: the deterministic engine's columns and the
    trial's [simulation_id]. *)
Record SimRecord : Type := {
  sr_record : YearRecord;
  simulation_id : Z
}.

(** [run_single_simulation] with the volatility function and the trial's
    random stream as arguments. *)
Definition run_single_simulation_with
    (volatility_of : AccountData -> Q -> Q) (noise : Z -> nat -> Q)
    (s : Scenario) (sim_id : Z) : res (list SimRecord) :=
  let? (projections, _) :=
    run_years (simulate_year volatility_of noise s) (age_range s) (mc_initial_state s) in
  Ok (map (fun r => {| sr_record := r; simulation_id := sim_id |}) projections).

(** [MonteCarloEngine.run_single_simulation]: the volatility is the
    engine's own. *)
Definition run_single_simulation
    (noise : Z -> nat -> Q) (s : Scenario) (sim_id : Z) : res (list SimRecord) :=
  run_single_simulation_with
    (fun account_data det_rate => get_account_volatility account_data (Some det_rate))
    noise s sim_id.

(** Every account's volatility forced to 0. *)
Definition zero_volatility (account_data : AccountData) (det_rate : Q) : Q := 0.

(** ** Vocabulary of the statements *)

(** Where an age sits in the transition window, clamped to [0, 1]. *)
Definition transition_position (ts te age : Q) : Q :=
  if Qle_bool age ts then 0
  else if Qle_bool te age then 1
  else (age - ts) / (te - ts).

(** [d.get(k)] on an ordered dictionary. *)
Fixpoint dict_get {V : Type} (k : string) (d : dict V) : option V :=
  match d with
  | [] => None
  | (k', v) :: d' => if String.eqb k k' then Some v else dict_get k d'
  end.

(** [same_run c c'] : the cache [c'] is reached from [c] by calls of
    [get_real_estate_impact], with no [clear] in between.  A call that
    raises leaves the cache as it was. *)
Inductive same_run : ProjectionCache -> ProjectionCache -> Prop :=
| same_run_here (c : ProjectionCache) : same_run c c
| same_run_call (c c1 c2 : ProjectionCache) (properties : list PropertyData)
    (current_year age year : Z) (impact : Impact) :
    same_run c c1 ->
    get_real_estate_impact c1 properties current_year age year = Ok (impact, c2) ->
    same_run c c2.

(** Two properties for the examples: a house owned since 2015, sold in
    2030, and a flat to be bought in 2027. *)
Definition example_house : PropertyData :=
  {| pd_property_name := Some "House"%string;
     pd_is_existing_property := Some true;
     pd_mortgage_rate := Some 4;
     pd_mortgage_term_years := Some 30%Z;
     pd_appreciation_rate := Some 3;
     pd_sale_year := Some 2030%Z;
     pd_purchase_year := Some 2015%Z;
     pd_purchase_price := Some 300000;
     pd_down_payment_percent := Some 20;
     pd_current_value := Some 400000;
     pd_current_mortgage_balance := Some 200000 |}.

Definition example_flat : PropertyData :=
  {| pd_property_name := Some "Flat"%string;
     pd_is_existing_property := None;
     pd_mortgage_rate := Some 5;
     pd_mortgage_term_years := Some 15%Z;
     pd_appreciation_rate := None;
     pd_sale_year := None;
     pd_purchase_year := Some 2027%Z;
     pd_purchase_price := Some 150000;
     pd_down_payment_percent := None;
     pd_current_value := None;
     pd_current_mortgage_balance := None |}.

(** A cabin without a mortgage, worth 400000 in 2025 and sold in 2030. *)
Definition example_cabin : Property :=
  {| property_name := "Cabin";
     mortgage_rate := 4 / 100;
     mortgage_term_years := 30;
     appreciation_rate := 3 / 100;
     sale_year := Some 2030%Z;
     purchase_year := 2010;
     purchase_price := 300000;
     down_payment_percent := 20 / 100;
     kind := ExistingProperty 400000 0 |}.

(** The cabin as an entry of [scenario['real_estate']], and a scenario of
    one year, 2030, in which it is sold. *)
Definition example_cabin_data : PropertyData :=
  {| pd_property_name := Some "Cabin"%string;
     pd_is_existing_property := Some true;
     pd_mortgage_rate := Some 4;
     pd_mortgage_term_years := Some 30%Z;
     pd_appreciation_rate := Some 3;
     pd_sale_year := Some 2030%Z;
     pd_purchase_year := Some 2010%Z;
     pd_purchase_price := Some 300000;
     pd_down_payment_percent := Some 20;
     pd_current_value := Some 400000;
     pd_current_mortgage_balance := Some 0 |}.

Definition example_account : AccountDetail :=
  {| account_type := "401k";
     ad_account_owner := "Joint";
     current_balance := 100000;
     ad_aggressive_rate := Some 8;
     ad_conservative_rate := Some 8;
     ad_transition_start_age := Some 50;
     ad_transition_end_age := Some 60 |}.

Definition sale_scenario : Scenario :=
  {| s_current_age := 40;
     max_projection_age := 40;
     s_current_year := 2030;
     people := [];
     accounts := None;
     account_details := [example_account];
     income_sources := [];
     retirement_income := [];
     recurring_expenses := [];
     planned_expenses := [];
     real_estate := [example_cabin_data] |}.

(** Every entry of the cache is what the aggregator computes for the
    scenario's properties in the entry's year. *)
Definition cache_sound (s : Scenario) (c : ProjectionCache) : Prop :=
  forall (y : Z) (v : Impact),
    _re_impact c !! y = Some v ->
    forall age : Z,
      calculate_real_estate_impact_v2 (real_estate s) (s_current_year s) age y = Ok v.

(** What a record's [real_estate_sales] is: 0 without real estate, the
    aggregate sale proceeds of the record's year otherwise. *)
Definition sales_of_year (s : Scenario) (r : YearRecord) : Prop :=
  match real_estate s with
  | [] => real_estate_sales r = 0
  | _ =>
      exists impact,
        calculate_real_estate_impact_v2
          (real_estate s) (s_current_year s) (yr_age r) (yr_year r) = Ok impact
        /\ real_estate_sales r = sale_proceeds impact
  end.

(** What the pro-rata branch takes from an account when it floors the
    balance at 0: the amount by which the balance would have gone below 0. *)
Definition floored_of (net_cashflow total_portfolio_balance : Q) (account_data : AccountData)
    : Q :=
  let b := balance account_data
           + net_cashflow * (balance account_data / total_portfolio_balance) in
  if Qlt_bool b 0 then - b else 0.

(** The total floored amount of a distribution; nothing is floored when
    [net_cashflow] is 0, because nothing is distributed then. *)
Definition floored_amount
    (net_cashflow total_portfolio_balance : Q) (account_balances : dict AccountData) : Q :=
  if negb (Qeq_bool net_cashflow 0) then
    pysum (map (floored_of net_cashflow total_portfolio_balance)
               (dict_values account_balances))
  else 0.

(** An account whose rates are at least -100 percent. *)
Definition rates_ok (account_data : AccountData) : Prop :=
  -100 <= get_default (aggressive_rate account_data) 6 /\
  -100 <= get_default (conservative_rate account_data) 6.

Definition account_ok (account_data : AccountData) : Prop :=
  0 <= balance account_data /\ rates_ok account_data.

(** What C9 asks of a scenario: balances that are not negative and rates
    of at least -100 percent, in whichever form the accounts are given. *)
Definition scenario_accounts_ok (s : Scenario) : Prop :=
  match accounts s with
  | Some legacy => Forall (fun kv => 0 <= snd kv) legacy
  | None =>
      Forall (fun account =>
                0 <= current_balance account /\
                -100 <= get_default (ad_aggressive_rate account) rate_005 /\
                -100 <= get_default (ad_conservative_rate account) rate_005)
             (account_details s)
  end.

(** A household for the examples: Ann, 60 in 2025, a joint 401k at a
    fixed 8% and Ann's taxable account moving from 6% to 4% between the
    ages 50 and 65; a salary until 62 and living costs of 40000 a year. *)
Definition example_taxable : AccountDetail :=
  {| account_type := "Taxable";
     ad_account_owner := "Ann";
     current_balance := 300000;
     ad_aggressive_rate := Some 6;
     ad_conservative_rate := Some 4;
     ad_transition_start_age := Some 50;
     ad_transition_end_age := Some 65 |}.

Definition example_salary : Item :=
  {| person := Some "Ann"%string;
     start_age := Some 25%Z;
     end_age := Some 62%Z;
     annual_amount := Some 50000;
     growth_rate := Some 0 |}.

Definition example_living_costs : Item :=
  {| person := Some "Joint"%string;
     start_age := Some 35%Z;
     end_age := Some 95%Z;
     annual_amount := Some 40000;
     growth_rate := Some 0 |}.

Definition example_scenario : Scenario :=
  {| s_current_age := 60;
     max_projection_age := 61;
     s_current_year := 2025;
     people := [ {| name := "Ann"; current_age := 60 |} ];
     accounts := None;
     account_details := [example_account; example_taxable];
     income_sources := [example_salary];
     retirement_income := [];
     recurring_expenses := [example_living_costs];
     planned_expenses := [];
     real_estate := [] |}.

(** An item is well formed when its five required fields are present and
    its age range is not inverted. *)
Definition well_formed (item : Item) : bool :=
  match person item, start_age item, end_age item,
        annual_amount item, growth_rate item with
  | Some _, Some sa, Some ea, Some _, Some _ => (sa <=? ea)%Z
  | _, _, _, _, _ => false
  end.

(** A row whose [start_age] is missing, and the example household with
    that row among its income sources and among its recurring expenses. *)
Definition example_malformed_item : Item :=
  {| person := Some "Ann"%string;
     start_age := None;
     end_age := Some 62%Z;
     annual_amount := Some 50000;
     growth_rate := Some 0 |}.

Definition malformed_scenario : Scenario :=
  {| s_current_age := 60;
     max_projection_age := 61;
     s_current_year := 2025;
     people := [ {| name := "Ann"; current_age := 60 |} ];
     accounts := None;
     account_details := [example_account; example_taxable];
     income_sources := [example_malformed_item; example_salary];
     retirement_income := [];
     recurring_expenses := [example_malformed_item; example_living_costs];
     planned_expenses := [];
     real_estate := [] |}.

(** Two working copies of an account that agree in everything, the
    balances as rationals. *)
Definition account_equiv (a b : AccountData) : Prop :=
  balance a == balance b /\
  aggressive_rate a = aggressive_rate b /\
  conservative_rate a = conservative_rate b /\
  transition_start_age a = transition_start_age b /\
  transition_end_age a = transition_end_age b /\
  account_owner a = account_owner b.

Definition accounts_equiv (d d' : dict AccountData) : Prop :=
  Forall2 (fun x y => fst x = fst y /\ account_equiv (snd x) (snd y)) d d'.

Definition state_equiv (st st' : RunState) : Prop :=
  st_cache st = st_cache st' /\
  accounts_equiv (st_accounts st) (st_accounts st') /\
  st_real_estate_equity st = st_real_estate_equity st'.

(** Two year records with the same columns: the same age and year and
    equal amounts in the nine other columns of C1. *)
Definition same_columns (r r' : YearRecord) : Prop :=
  yr_age r = yr_age r' /\
  yr_year r = yr_year r' /\
  income r == income r' /\
  expenses r == expenses r' /\
  net_cashflow r == net_cashflow r' /\
  real_estate_sales r == real_estate_sales r' /\
  portfolio_contribution r == portfolio_contribution r' /\
  portfolio_return_amount r == portfolio_return_amount r' /\
  portfolio_balance r == portfolio_balance r' /\
  real_estate_equity r == real_estate_equity r' /\
  total_net_worth r == total_net_worth r'.

(** Two results that raise the same exception, or return related values. *)
Definition res_equiv {A B : Type} (R : A -> B -> Prop) (x : res A) (y : res B) : Prop :=
  match x, y with
  | Ok a, Ok b => R a b
  | Raise e, Raise e' => e = e'
  | _, _ => False
  end.

(** A scenario in the legacy form: one account, given by name and
    balance, and one simulated year at the age of 65. *)
Definition legacy_scenario : Scenario :=
  {| s_current_age := 65;
     max_projection_age := 65;
     s_current_year := 2025;
     people := [];
     accounts := Some [("Savings"%string, 100000)];
     account_details := [];
     income_sources := [];
     retirement_income := [];
     recurring_expenses := [];
     planned_expenses := [];
     real_estate := [] |}.

(** What the loop of the aggregator keeps true of its result. *)
Definition impact_fine (i : Impact) : Prop :=
  annual_income i = 0 /\ 0 <= sale_proceeds i /\
  Forall (fun kv => 0 <= snd kv) (equity_values i).

(** An income item whose four numeric fields are present, with an amount
    that is not negative and a growth rate of at least -100 percent. *)
Definition income_item_ok (item : Item) : Prop :=
  exists sa ea amt gr,
    start_age item = Some sa /\ end_age item = Some ea /\
    annual_amount item = Some amt /\ growth_rate item = Some gr /\
    0 <= amt /\ -100 <= gr.

(** Two year records with the same cashflow columns: every column that
    does not depend on the accounts. *)
Definition same_cashflow (r r' : YearRecord) : Prop :=
  yr_age r = yr_age r' /\
  yr_year r = yr_year r' /\
  income r = income r' /\
  expenses r = expenses r' /\
  net_cashflow r = net_cashflow r' /\
  real_estate_sales r = real_estate_sales r' /\
  portfolio_contribution r = portfolio_contribution r' /\
  real_estate_equity r = real_estate_equity r'.

(** What of the run state the cashflow of a year depends on. *)
Definition same_cashflow_state (st st' : RunState) : Prop :=
  st_cache st = st_cache st' /\
  st_real_estate_equity st = st_real_estate_equity st'.

(** ** Success metrics (models/projection.py) *)

(** The dict that [calculate_success_metrics] returns. *)
Record SuccessMetrics : Type := {
  final_balance : Q;
  years_solvent : nat;
  first_deficit_age : option Z;
  total_contributions : Q;
  total_withdrawals : Q;
  total_investment_gains : Q
}.

(** The data frame is the list of its rows; a boolean mask is a filter. *)
Definition calculate_success_metrics (projection_df : list YearRecord)
    : SuccessMetrics :=
  match projection_df with
  | [] =>
      {| final_balance := 0; years_solvent := 0; first_deficit_age := None;
         total_contributions := 0; total_withdrawals := 0;
         total_investment_gains := 0 |}
  | first :: _ =>
      let final_balance := portfolio_balance (List.last projection_df first) in
      let years_solvent :=
        length (List.filter (fun r => Qlt_bool 0 (portfolio_balance r))
                            projection_df) in
      let depleted :=
        List.filter (fun r => Qeq_bool (portfolio_balance r) 0) projection_df in
      let first_deficit_age :=
        match depleted with
        | r :: _ => Some (yr_age r)
        | [] => None
        end in
      let total_contributions :=
        pysum (map portfolio_contribution
                 (List.filter (fun r => Qlt_bool 0 (portfolio_contribution r))
                              projection_df)) in
      let total_withdrawals :=
        Qabs (pysum (map portfolio_contribution
                       (List.filter (fun r => Qlt_bool (portfolio_contribution r) 0)
                                    projection_df))) in
      let total_investment_gains :=
        pysum (map portfolio_return_amount projection_df) in
      {| final_balance := final_balance;
         years_solvent := years_solvent;
         first_deficit_age := first_deficit_age;
         total_contributions := total_contributions;
         total_withdrawals := total_withdrawals;
         total_investment_gains := total_investment_gains |}
  end.

(** ** The cache of ages (services/projection_cache.py)

    [_people_ages] is keyed by the string [<person_name>_<year>]; the
    year is an integer, whose decimal form has no underscore, so a key
    determines the name and the year: the map below is keyed by the
    pair.  A cached value is an age or Python's [None]. *)
Definition get_person_age
    (_people_ages : gmap (string * Z) (option Z))
    (person_name : string) (year : Z) (people_data : list Person)
    (current_year : Z) : option Z * gmap (string * Z) (option Z) :=
  let cache_key := (person_name, year) in
  let _people_ages' :=
    match _people_ages !! cache_key with
    | None =>
        let age :=
          match find_person people_data person_name with
          | Some person => Some (current_age person + (year - current_year))%Z
          | None => None
          end in
        <[cache_key := age]> _people_ages
    | Some _ => _people_ages
    end in
  (default None (_people_ages' !! cache_key), _people_ages').

(** ** ScenarioManager (services/scenario_manager.py) *)

(** A list comprehension [[inc for inc in all_income if keep(inc)]] whose
    condition reads a key of the row: it raises at the first row without
    the key. *)
Fixpoint income_rows (keep : Item -> res bool) (all_income : list Item)
    : res (list Item) :=
  match all_income with
  | [] => Ok []
  | inc :: rest =>
      let? b := keep inc in
      let? rest' := income_rows keep rest in
      Ok (if b then inc :: rest' else rest')
  end.

(** The split of the income table into working and retirement income. *)
Definition _convert_income_data (all_income : list Item)
    : res (list Item * list Item) :=
  let? income_sources :=
    income_rows (fun inc => let? ea := getitem (end_age inc) in Ok (ea <=? 67)%Z)
                all_income in
  let? retirement_income :=
    income_rows (fun inc => let? sa := getitem (start_age inc) in Ok (65 <=? sa)%Z)
                all_income in
  Ok (income_sources, retirement_income).

(** ** The clipped return (models/monte_carlo.py) *)

(** [np.random.normal(loc, scale)] as a function of the standard-normal
    draw [z] behind it; numpy raises [ValueError] for a negative [scale]:
    [None]. *)
Definition np_random_normal (z loc scale : Q) : option Q :=
  if Qlt_bool scale 0 then None else Some (loc + scale * z).

(** [np.clip(a, a_min, a_max)]: [minimum(a_max, maximum(a, a_min))]. *)
Definition np_clip (a a_min a_max : Q) : Q :=
  let lower := if Qlt_bool a a_min then a_min else a in
  if Qlt_bool a_max lower then a_max else lower.

Definition calculate_stochastic_return
    (z : Q) (account : AccountData) (owner_age : Z) (people_data : list Person)
    (deterministic_rate : Q) : option Q :=
  let volatility := get_account_volatility account None in
  match np_random_normal z deterministic_rate volatility with
  | Some stochastic_return => Some (np_clip stochastic_return (- (1 # 2)) 1)
  | None => None
  end.

(** An income item whose four numeric fields are present, with an amount
    that is not negative, a growth rate between -100 and 100 percent and a
    window of at most 200 years.  Within these bounds the power that the
    source computes on floats is at most [2 ** 200] and cannot overflow. *)
Definition income_item_bounded (item : Item) : Prop :=
  exists sa ea amt gr,
    start_age item = Some sa /\ end_age item = Some ea /\
    annual_amount item = Some amt /\ growth_rate item = Some gr /\
    0 <= amt /\ -100 <= gr <= 100 /\ (ea - sa <= 200)%Z.

(** ** The AmortizationCalculator on binary64 floats

    The two amortization functions once more, on the floats the source
    computes with.  [+], [-], [*] and [/] are the IEEE 754 binary64
    operations, which are Python's; [**] is the C library's [pow], which
    is not specified here and is a parameter.  The principal and the rate
    are floats, the term and the number of payments integers (below 2^63
    in absolute value, so that the conversion to a float is Python's). *)
Module Binary64.

Import PrimFloat.
Local Open Scope float_scope.

(** Python's conversion of an int that meets a float in an operation. *)
Definition of_int (n : Z) : float :=
  if (n <? 0)%Z then - of_uint63 (Uint63.of_Z (- n)) else of_uint63 (Uint63.of_Z n).

(** Python's [a / b] on floats. *)
Definition truediv (a b : float) : res float :=
  if b =? 0 then Raise ZeroDivisionError else Ok (a / b).

(** Python's [max(0, x)]: [x] is kept when [x > 0], which is false of a
    NaN. *)
Definition max0 (x : float) : float := if 0 <? x then x else 0.

Section Pow.

(** [x ** n] for a float [x] and an int [n]; it may raise. *)
Variable pow : float -> Z -> res float.

Definition calculate_monthly_mortgage_payment
    (principal annual_rate : float) (years : Z) : res float :=
  if annual_rate =? 0 then truediv principal (of_int (years * 12))
  else
    let monthly_rate := annual_rate / 12 in
    let num_payments := (years * 12)%Z in
    let? grown := pow (1 + monthly_rate) num_payments in
    let? grown' := pow (1 + monthly_rate) num_payments in
    truediv (principal * (monthly_rate * grown)) (grown' - 1).

Definition calculate_mortgage_balance
    (original_principal annual_rate : float) (term_years payments_made : Z)
    : res float :=
  if annual_rate =? 0 then
    let total_payments := (term_years * 12)%Z in
    let? paid :=
      truediv (original_principal * of_int payments_made) (of_int total_payments) in
    Ok (max0 (original_principal - paid))
  else
    let monthly_rate := annual_rate / 12 in
    let total_payments := (term_years * 12)%Z in
    if (payments_made >=? total_payments)%Z then Ok 0
    else
      let? at_end := pow (1 + monthly_rate) total_payments in
      let? at_now := pow (1 + monthly_rate) payments_made in
      let? at_end' := pow (1 + monthly_rate) total_payments in
      let? remaining_balance :=
        truediv (original_principal * (at_end - at_now)) (at_end' - 1) in
      Ok (max0 remaining_balance).

End Pow.

(** A power function that is exact where the C standard fixes [pow]:
    [pow(1, y) = 1] for every [y].  Elsewhere it multiplies [n] times,
    which is close to the library's result and not always equal to it. *)
Definition pow_of_products (x : float) (n : Z) : res float :=
  if x =? 1 then Ok 1
  else if (n <? 0)%Z then truediv 1 (Z.iter (- n) (mul x) 1)
  else Ok (Z.iter n (mul x) 1).

(** The float written [432767.64] in Python, and [2 ** -34], which Python
    prints as [5.820766091346741e-11]. *)
Definition principal_432767_64 : float := 0x1.a69fe8f5c28f6p+18.
Definition two_to_the_minus_34 : float := 0x1p-34.

(** The float written [1e-17] in Python, and [200000.0]. *)
Definition rate_1e_17 : float := 0x1.70ef54646d497p-57.
Definition principal_200000 : float := 200000.

End Binary64.

(** * Theorems *)

(** ** Booleans of the rational comparisons *)

Lemma Qle_bool_false (x y : Q) : Qle_bool x y = false <-> y < x.
Proof.
  split; intros H.
  - apply Qnot_le_lt. intros Hle. apply Qle_bool_iff in Hle. congruence.
  - destruct (Qle_bool x y) eqn:E; [|reflexivity].
    apply Qle_bool_iff in E. lra.
Qed.

Lemma Qlt_bool_true (x y : Q) : Qlt_bool x y = true <-> x < y.
Proof. unfold Qlt_bool. rewrite negb_true_iff. apply Qle_bool_false. Qed.

Lemma Qlt_bool_false (x y : Q) : Qlt_bool x y = false <-> y <= x.
Proof. unfold Qlt_bool. rewrite negb_false_iff. apply Qle_bool_iff. Qed.

Lemma Qeq_bool_false (x y : Q) : Qeq_bool x y = false <-> ~ x == y.
Proof.
  split; [apply Qeq_bool_neq|].
  intros H. destruct (Qeq_bool x y) eqn:E; [|reflexivity].
  apply Qeq_bool_iff in E. contradiction.
Qed.

(** Turn every boolean comparison in the context into its proposition. *)
Ltac qbool :=
  repeat match goal with
  | H : Qle_bool _ _ = true |- _ => apply Qle_bool_iff in H
  | H : Qle_bool _ _ = false |- _ => apply Qle_bool_false in H
  | H : Qlt_bool _ _ = true |- _ => apply Qlt_bool_true in H
  | H : Qlt_bool _ _ = false |- _ => apply Qlt_bool_false in H
  | H : Qeq_bool _ _ = true |- _ => apply Qeq_bool_iff in H
  | H : Qeq_bool _ _ = false |- _ => apply Qeq_bool_false in H
  end.

(** [lra] knows no division: write the divisions by the constants of the
    source as products. *)
Ltac qconst :=
  unfold Qdiv in *;
  change (/ 12) with (1 # 12) in *;
  change (/ 100) with (1 # 100) in *.

Lemma max0_nonneg (x : Q) : 0 <= max0 x.
Proof. unfold max0. destruct (Qle_bool x 0) eqn:E; qbool; lra. Qed.

Lemma max0_nonpos (x : Q) : x <= 0 -> max0 x = 0.
Proof.
  intros H. unfold max0. destruct (Qle_bool x 0) eqn:E; [reflexivity|].
  qbool. lra.
Qed.

Lemma pydiv_ok (a b : Q) : ~ b == 0 -> pydiv a b = Ok (a / b).
Proof.
  intros H. unfold pydiv. apply Qeq_bool_false in H. now rewrite H.
Qed.

Lemma Zq_pos (z : Z) : (0 < z)%Z -> 0 < Zq z.
Proof.
  intros H. unfold Zq. change 0 with (inject_Z 0). now rewrite <- Zlt_Qlt.
Qed.

Lemma Zq_le (a b : Z) : (a <= b)%Z -> Zq a <= Zq b.
Proof. intros H. unfold Zq. now rewrite <- Zle_Qle. Qed.

Lemma Qpos_of_nonneg_neq (r : Q) : 0 <= r -> ~ r == 0 -> 0 < r.
Proof.
  intros Hr Hne. destruct (Qle_lt_or_eq _ _ Hr) as [H|H]; [exact H|].
  symmetry in H. contradiction.
Qed.

(** ** AmortizationCalculator *)

(** With a rate that is not negative and a positive term the balance
    function divides by no zero: it returns, and what it returns is not
    negative.  Nothing is asked of the principal. *)
Lemma calculate_mortgage_balance_returns (P r : Q) (T payments_made : Z) :
  0 <= r -> (0 < T)%Z ->
  exists b, calculate_mortgage_balance P r T payments_made = Ok b /\ 0 <= b.
Proof.
  intros Hr HT. unfold calculate_mortgage_balance. cbv zeta.
  assert (HN : 0 < Zq (T * 12)) by (apply Zq_pos; lia).
  destruct (Qeq_bool r 0) eqn:Er.
  - rewrite pydiv_ok by lra. cbn [rbind].
    eexists. split; [reflexivity | apply max0_nonneg].
  - qbool. pose proof (Qpos_of_nonneg_neq r Hr Er) as Hr'.
    destruct (payments_made >=? T * 12)%Z.
    + exists 0. split; [reflexivity | lra].
    + assert (Hb : 1 < pypow (1 + r / 12) (T * 12)).
      { apply Qpower_1_lt; [qconst; lra | lia]. }
      rewrite pydiv_ok by lra. cbn [rbind].
      eexists. split; [reflexivity | apply max0_nonneg].
Qed.

(** On exact rationals.  For a principal [P >= 0], an annual rate [r >= 0] and a term of
    [T > 0] years, [calculate_mortgage_balance] returns a balance that is
    never negative, whatever the number of payments made, and that is 0 as
    soon as [payments_made >= T * 12]: at [T * 12] in particular, in the
    zero-rate straight-line case as in the amortized one. *)
Lemma mortgage_balance_amortizes_exact (P r : Q) (T payments_made : Z) :
  0 <= P -> 0 <= r -> (0 < T)%Z ->
  (exists b, calculate_mortgage_balance P r T (T * 12) = Ok b /\ b == 0) /\
  (exists b,
     calculate_mortgage_balance P r T payments_made = Ok b /\
     0 <= b /\
     ((T * 12 <= payments_made)%Z -> b == 0)).
Proof.
  intros HP Hr HT.
  assert (G : forall pm, exists b,
             calculate_mortgage_balance P r T pm = Ok b /\
             0 <= b /\ ((T * 12 <= pm)%Z -> b == 0)).
  { intros pm. unfold calculate_mortgage_balance. cbv zeta.
    assert (HN : 0 < Zq (T * 12)) by (apply Zq_pos; lia).
    destruct (Qeq_bool r 0) eqn:Er.
    - rewrite pydiv_ok by lra. cbn [rbind].
      eexists. split; [reflexivity|]. split; [apply max0_nonneg|].
      intros Hpm. rewrite max0_nonpos; [reflexivity|].
      apply Zq_le in Hpm.
      assert (P <= P * Zq pm / Zq (T * 12)).
      { apply Qle_shift_div_l; [exact HN | nra]. }
      lra.
    - qbool. pose proof (Qpos_of_nonneg_neq r Hr Er) as Hr'.
      destruct (pm >=? T * 12)%Z eqn:Epm.
      + exists 0. repeat split; lra.
      + assert (Hb : 1 < pypow (1 + r / 12) (T * 12)).
        { apply Qpower_1_lt; [qconst; lra | lia]. }
        rewrite pydiv_ok by lra. cbn [rbind].
        eexists. split; [reflexivity|]. split; [apply max0_nonneg|].
        intros Hpm. lia. }
  split.
  - destruct (G (T * 12)%Z) as (b & Hb & _ & Hz).
    exists b. split; [exact Hb | apply Hz; lia].
  - apply G.
Qed.

(** ** The age-interpolated growth rate *)

Section GrowthRate.

Variable account : AccountData.

Let agg := get_default (aggressive_rate account) 6.
Let cons := get_default (conservative_rate account) 6.
Let ts := get_default (transition_start_age account) 50.
Let te := get_default (transition_end_age account) 65.

Hypothesis window : ts < te.

Lemma inv_window : 0 < / (te - ts) /\ (te - ts) * / (te - ts) == 1.
Proof.
  split.
  - apply Qinv_lt_0_compat. lra.
  - apply Qmult_inv_r. lra.
Qed.

(** The three branches are one formula in the clamped position. *)
Lemma rate_by_position (age : Q) :
  calculate_account_growth_rate account age ==
  (agg + (cons - agg) * transition_position ts te age) * (1 # 100).
Proof.
  unfold calculate_account_growth_rate, transition_position.
  fold agg cons ts te.
  destruct (Qle_bool age ts) eqn:E1; [qconst; lra|].
  destruct (Qle_bool te age) eqn:E2; qconst; lra.
Qed.

(** The position never decreases with the age, and moves by at most
    [(b - a) / (te - ts)] between two ages. *)
Lemma position_steps (a b : Q) :
  a <= b ->
  0 <= transition_position ts te b - transition_position ts te a
  /\ transition_position ts te b - transition_position ts te a
     <= (b - a) * / (te - ts).
Proof.
  intros Hab. destruct inv_window as [Hd Hone].
  unfold transition_position, Qdiv.
  set (d := / (te - ts)) in *.
  destruct (Qle_bool a ts) eqn:A1; destruct (Qle_bool b ts) eqn:B1;
    try (destruct (Qle_bool te a) eqn:A2);
    try (destruct (Qle_bool te b) eqn:B2); qbool; try lra;
    split; nra.
Qed.

Lemma rate_lipschitz_ordered (a b : Q) :
  a <= b ->
  Qabs (calculate_account_growth_rate account a
        - calculate_account_growth_rate account b)
  <= Qabs (cons - agg) / 100 / (te - ts) * Qabs (a - b).
Proof.
  intros Hab. destruct (position_steps a b Hab) as [H0 H1].
  destruct inv_window as [Hd _].
  rewrite !rate_by_position.
  rewrite (Qabs_neg (a - b)) by lra.
  unfold Qdiv. change (/ 100) with (1 # 100).
  set (d := / (te - ts)) in *.
  set (pa := transition_position ts te a) in *.
  set (pb := transition_position ts te b) in *.
  apply Qabs_Qle_condition.
  destruct (Qlt_le_dec (cons - agg) 0) as [Hk|Hk].
  - rewrite (Qabs_neg (cons - agg)) by lra. split; nra.
  - rewrite (Qabs_pos (cons - agg)) by lra. split; nra.
Qed.

(** C3.  For an account whose transition window is [ts < te], the growth
    rate is [aggressive_rate / 100] at every age [<= ts], is
    [conservative_rate / 100] at every age [>= te], and strictly between
    them is the linear interpolation of the two rates by the fractional
    position of the age in the window.  The rate is continuous in the age
    (it moves by at most [|conservative - aggressive| / 100 / (te - ts)]
    per year of age, at the two ends of the window as inside it) and
    monotonic: it never decreases with the age when
    [aggressive <= conservative] and never increases when
    [conservative <= aggressive]. *)
Theorem growth_rate_transition :
  (forall age, age <= ts ->
     calculate_account_growth_rate account age == agg / 100) /\
  (forall age, te <= age ->
     calculate_account_growth_rate account age == cons / 100) /\
  (forall age, ts < age -> age < te ->
     calculate_account_growth_rate account age ==
     (agg + (cons - agg) * ((age - ts) / (te - ts))) / 100) /\
  (forall a b,
     Qabs (calculate_account_growth_rate account a
           - calculate_account_growth_rate account b)
     <= Qabs (cons - agg) / 100 / (te - ts) * Qabs (a - b)) /\
  (forall a b, a <= b -> agg <= cons ->
     calculate_account_growth_rate account a
     <= calculate_account_growth_rate account b) /\
  (forall a b, a <= b -> cons <= agg ->
     calculate_account_growth_rate account b
     <= calculate_account_growth_rate account a).
Proof.
  repeat split.
  - intros age H. unfold calculate_account_growth_rate. fold agg ts.
    apply Qle_bool_iff in H. now rewrite H.
  - intros age H. unfold calculate_account_growth_rate. fold agg cons ts te.
    destruct (Qle_bool age ts) eqn:E1; [qbool; lra|].
    apply Qle_bool_iff in H. now rewrite H.
  - intros age H1 H2. unfold calculate_account_growth_rate.
    fold agg cons ts te.
    apply Qle_bool_false in H1, H2. now rewrite H1, H2.
  - intros a b. destruct (Qlt_le_dec b a) as [Hba|Hab].
    + rewrite (Qabs_wd (a - b) (- (b - a))) by ring.
      rewrite (Qabs_wd (calculate_account_growth_rate account a
                        - calculate_account_growth_rate account b)
                       (- (calculate_account_growth_rate account b
                           - calculate_account_growth_rate account a))) by ring.
      rewrite !Qabs_opp. apply rate_lipschitz_ordered. lra.
    + now apply rate_lipschitz_ordered.
  - intros a b Hab Hk. destruct (position_steps a b Hab) as [H0 _].
    rewrite !rate_by_position. nra.
  - intros a b Hab Hk. destruct (position_steps a b Hab) as [H0 _].
    rewrite !rate_by_position. nra.
Qed.

End GrowthRate.

(** An account that moves from 8% to 4% between the ages 50 and 60: half
    way through the window its rate is 6%. *)
Lemma growth_rate_transition_witness :
  let account :=
    {| balance := 100000;
       aggressive_rate := Some 8; conservative_rate := Some 4;
       transition_start_age := Some 50; transition_end_age := Some 60;
       account_owner := "Joint" |} in
  50 < 60 /\ calculate_account_growth_rate account 55 == 6 / 100.
Proof.
  intros account.
  assert (W : 50 < 60) by reflexivity.
  split; [exact W|].
  destruct (growth_rate_transition account W) as (_ & _ & Hmid & _).
  rewrite (Hmid 55) by reflexivity. reflexivity.
Defined.

(** ** The volatility assumed for a mean return *)

(** C6, at the input where the code departs from it.  A mean return of
    6.99% is given a volatility of 12.023%, a mean return of 7% one of
    12%: the higher return has the lower volatility.  The slope 0.027 of
    the piece below each of the breakpoints 5.5% and 7% carries that piece
    past the value at which the next one starts. *)
Theorem volatility_drops_at_breakpoint :
  (699 # 10000) <= (7 # 100) /\
  calculate_volatility_from_return (7 # 100)
  < calculate_volatility_from_return (699 # 10000) /\
  calculate_volatility_from_return (699 # 10000) == (12023 # 100000) /\
  calculate_volatility_from_return (7 # 100) == (12 # 100).
Proof.
  repeat split; vm_compute; congruence.
Qed.

(** ** ProjectionCache *)

(** A call stores what it returns under its year. *)
Lemma get_real_estate_impact_stores c properties cy age year impact c1 :
  get_real_estate_impact c properties cy age year = Ok (impact, c1) ->
  _re_impact c1 !! year = Some impact.
Proof.
  unfold get_real_estate_impact.
  destruct (_re_impact c !! year) as [i|] eqn:E.
  - intros [= <- <-]. exact E.
  - destruct (calculate_real_estate_impact_v2 properties cy age year); [|discriminate].
    cbn. intros [= <- <-]. cbn. apply lookup_insert_eq.
Qed.

(** A call never changes an entry that is there. *)
Lemma get_real_estate_impact_keeps c properties cy age year impact c1 y v :
  get_real_estate_impact c properties cy age year = Ok (impact, c1) ->
  _re_impact c !! y = Some v ->
  _re_impact c1 !! y = Some v.
Proof.
  unfold get_real_estate_impact.
  destruct (_re_impact c !! year) as [i|] eqn:E.
  - intros [= <- <-]. trivial.
  - destruct (calculate_real_estate_impact_v2 properties cy age year); [|discriminate].
    cbn. intros [= <- <-] Hy. cbn.
    rewrite lookup_insert_ne; [exact Hy | congruence].
Qed.

Lemma same_run_keeps c c' y v :
  same_run c c' -> _re_impact c !! y = Some v -> _re_impact c' !! y = Some v.
Proof.
  induction 1 as [|c c1 c2 ps cy age year impact _ IH Hcall]; intros Hy.
  - exact Hy.
  - eapply get_real_estate_impact_keeps; [exact Hcall | now apply IH].
Qed.

(** C10.  Between two clears the cache answers by the year alone: once a
    call for [year] has returned [impact], every later call of the same
    run for that [year] returns [impact] again and leaves the cache as it
    is, whatever properties, current year and age it is given. *)
Theorem cache_memoizes_on_year
    (c c1 c2 : ProjectionCache) (properties properties' : list PropertyData)
    (current_year current_year' age age' year : Z) (impact : Impact) :
  get_real_estate_impact c properties current_year age year = Ok (impact, c1) ->
  same_run c1 c2 ->
  get_real_estate_impact c2 properties' current_year' age' year = Ok (impact, c2).
Proof.
  intros Hfirst Hrun.
  apply get_real_estate_impact_stores in Hfirst.
  apply (same_run_keeps _ _ _ _ Hrun) in Hfirst.
  unfold get_real_estate_impact. now rewrite Hfirst.
Qed.

(** A first call with no property stores the empty impact for 2030; a
    second call for 2030 that does pass a property gets the empty impact. *)
Lemma cache_memoizes_on_year_witness :
  let c1 := {| _re_impact := <[2030%Z := empty_impact]> ∅ |} in
  get_real_estate_impact cache_clear [] 2025 40 2030 = Ok (empty_impact, c1) /\
  same_run c1 c1 /\
  get_real_estate_impact c1 [example_house] 2026 41 2030 = Ok (empty_impact, c1).
Proof.
  intros c1.
  assert (H1 : get_real_estate_impact cache_clear [] 2025 40 2030
               = Ok (empty_impact, c1)) by reflexivity.
  assert (H2 : same_run c1 c1) by apply same_run_here.
  split; [exact H1|]. split; [exact H2|].
  exact (cache_memoizes_on_year cache_clear c1 c1 [] [example_house]
           2025 2026 40 41 2030 empty_impact H1 H2).
Defined.

(** ** RealEstateValuator *)

Lemma dict_get_set_eq {V : Type} (k : string) (v : V) (d : dict V) :
  dict_get k (dict_set k v d) = Some v.
Proof.
  induction d as [|[k' v'] d IH]; cbn.
  - now rewrite String.eqb_refl.
  - destruct (String.eqb k k') eqn:E; cbn; rewrite ?String.eqb_refl, ?E; auto.
Qed.

(** ** The columns of a year record *)

(** A run keeps an invariant of its state and gives every record a
    property, when each year does. *)
Lemma run_years_invariant
    (body : RunState -> Z -> res (YearRecord * RunState))
    (I : RunState -> Prop) (P : YearRecord -> Prop) :
  (forall st age r st', I st -> body st age = Ok (r, st') -> P r /\ I st') ->
  forall ages st recs st',
    I st -> run_years body ages st = Ok (recs, st') -> Forall P recs /\ I st'.
Proof.
  intros Hbody. induction ages as [|age ages IH]; intros st recs st' Hst; cbn.
  - intros [= <- <-]. split; [constructor | exact Hst].
  - destruct (body st age) as [[r st1]|] eqn:Eb; cbn [rbind]; [|discriminate].
    destruct (Hbody _ _ _ _ Hst Eb) as [Hr Hst1].
    destruct (run_years body ages st1) as [[recs1 st2]|] eqn:Er; cbn [rbind];
      [|discriminate].
    intros [= <- <-]. destruct (IH _ _ _ Hst1 Er) as [Hrecs Hst2].
    split; [constructor; assumption | exact Hst2].
Qed.

Lemma cache_sound_clear (s : Scenario) : cache_sound s cache_clear.
Proof. intros y v H. cbn in H. rewrite lookup_empty in H. discriminate. Qed.

Lemma get_real_estate_impact_sound (s : Scenario) c age year impact c' :
  cache_sound s c ->
  get_real_estate_impact c (real_estate s) (s_current_year s) age year
  = Ok (impact, c') ->
  cache_sound s c' /\
  calculate_real_estate_impact_v2 (real_estate s) (s_current_year s) age year
  = Ok impact.
Proof.
  intros Hc. unfold get_real_estate_impact.
  destruct (_re_impact c !! year) as [i|] eqn:E.
  - intros [= <- <-]. split; [exact Hc | now apply Hc].
  - destruct (calculate_real_estate_impact_v2 (real_estate s) (s_current_year s)
                age year) as [i|] eqn:Ei; cbn [rbind]; [|discriminate].
    intros [= <- <-]. split; [|reflexivity].
    intros y v. cbn. destruct (decide (year = y)) as [->|Hne].
    + rewrite lookup_insert_eq. intros [= <-] age'. exact Ei.
    + rewrite lookup_insert_ne by exact Hne. apply Hc.
Qed.

Lemma calculate_total_income_sound (s : Scenario) age year c total c' :
  cache_sound s c ->
  calculate_total_income s age year c = Ok (total, c') -> cache_sound s c'.
Proof.
  intros Hc. unfold calculate_total_income.
  destruct (income_loop s age year (income_sources s) 0); cbn [rbind]; [|discriminate].
  destruct (income_loop s age year (retirement_income s) a); cbn [rbind];
    [|discriminate].
  destruct (real_estate s) eqn:Ere.
  - now intros [= _ <-].
  - rewrite <- Ere.
    destruct (get_real_estate_impact c (real_estate s) (s_current_year s) age year)
      as [[i c1]|] eqn:Eg; cbn [rbind]; [|discriminate].
    intros [= _ <-]. eapply get_real_estate_impact_sound; eassumption.
Qed.

Lemma calculate_total_expenses_sound (s : Scenario) age year c total c' :
  cache_sound s c ->
  calculate_total_expenses s age year c = Ok (total, c') -> cache_sound s c'.
Proof.
  intros Hc. unfold calculate_total_expenses. cbv zeta.
  destruct (planned_loop year (planned_expenses s) _); cbn [rbind]; [|discriminate].
  destruct (real_estate s) eqn:Ere.
  - now intros [= _ <-].
  - rewrite <- Ere.
    destruct (get_real_estate_impact c (real_estate s) (s_current_year s) age year)
      as [[i c1]|] eqn:Eg; cbn [rbind]; [|discriminate].
    intros [= _ <-]. eapply get_real_estate_impact_sound; eassumption.
Qed.

(** The shared first half of a year: the cache stays sound and the sale
    cash is the aggregate sale proceeds of the year. *)
Lemma year_cashflow_sound (s : Scenario) age year st inc exp sales eq c' :
  cache_sound s (st_cache st) ->
  year_cashflow s age year st = Ok (inc, exp, sales, eq, c') ->
  cache_sound s c' /\
  match real_estate s with
  | [] => sales = 0
  | _ => exists impact,
           calculate_real_estate_impact_v2
             (real_estate s) (s_current_year s) age year = Ok impact
           /\ sales = sale_proceeds impact
  end.
Proof.
  intros Hc. unfold year_cashflow.
  destruct (calculate_total_income s age year (st_cache st)) as [[i c1]|] eqn:Ei;
    cbn [rbind]; [|discriminate].
  pose proof (calculate_total_income_sound _ _ _ _ _ _ Hc Ei) as Hc1.
  destruct (calculate_total_expenses s age year c1) as [[e c2]|] eqn:Ee;
    cbn [rbind]; [|discriminate].
  pose proof (calculate_total_expenses_sound _ _ _ _ _ _ Hc1 Ee) as Hc2.
  destruct (real_estate s) eqn:Ere.
  - intros [= <- <- <- <- <-]. split; [exact Hc2 | reflexivity].
  - rewrite <- Ere in *.
    destruct (get_real_estate_impact c2 (real_estate s) (s_current_year s) age year)
      as [[im c3]|] eqn:Eg; cbn [rbind]; [|discriminate].
    intros [= <- <- <- <- <-].
    destruct (get_real_estate_impact_sound _ _ _ _ _ _ Hc2 Eg) as [Hc3 Him].
    split; [exact Hc3|]. rewrite Ere. rewrite <- Ere. eauto.
Qed.

(** C5, as the code has it.  In every record that [project_scenario]
    emits, [net_cashflow] is income minus expenses: the sale cash that the
    year's cashflow included is subtracted again when the record is built.
    The column that is income - expenses + real-estate sale cash is
    [portfolio_contribution], and [real_estate_sales] is the aggregate sale
    proceeds of the record's year. *)
Theorem emitted_cashflow_columns (s : Scenario) (recs : list YearRecord) :
  project_scenario s = Ok recs ->
  Forall (fun r =>
            net_cashflow r == income r - expenses r /\
            portfolio_contribution r = income r - expenses r + real_estate_sales r /\
            sales_of_year s r) recs.
Proof.
  unfold project_scenario.
  destruct (run_years (project_year s) (age_range s) (initial_state s))
    as [[projections st']|] eqn:Er; cbn [rbind]; [|discriminate].
  intros [= <-].
  refine (proj1 (run_years_invariant (project_year s)
                   (fun st => cache_sound s (st_cache st)) _ _
                   (age_range s) (initial_state s) projections st'
                   (cache_sound_clear s) Er)).
  intros st age r st1 Hc. unfold project_year. cbv zeta.
  destruct (year_cashflow s age _ st) as [[[[[inc exp] sales] eq] c1]|] eqn:Ey;
    cbn [rbind]; [|discriminate].
  destruct (year_cashflow_sound _ _ _ _ _ _ _ _ _ Hc Ey) as [Hc1 Hs].
  destruct (growth_loop _ _ _ _ _ _ _) as [[grown tr] tb].
  intros [= <- <-]. cbn. split; [|exact Hc1].
  split; [ring|]. split; [reflexivity|].
  unfold sales_of_year. cbn. exact Hs.
Qed.

(** The year in which the cabin is sold. *)
Lemma emitted_cashflow_columns_witness :
  exists recs,
    project_scenario sale_scenario = Ok recs /\
    Forall (fun r =>
              net_cashflow r == income r - expenses r /\
              portfolio_contribution r = income r - expenses r + real_estate_sales r /\
              sales_of_year sale_scenario r) recs.
Proof.
  eexists. split.
  - vm_compute. reflexivity.
  - apply (emitted_cashflow_columns sale_scenario). vm_compute. reflexivity.
Defined.

(** C5 as stated fails when a property is sold: in 2030 the sale brings
    376000, income and expenses are 0, and the record's [net_cashflow] is
    0, not 376000. *)
Lemma sale_cash_not_in_net_cashflow :
  exists r,
    project_scenario sale_scenario = Ok [r] /\
    real_estate_sales r == 376000 /\
    net_cashflow r == 0 /\
    ~ net_cashflow r == income r - expenses r + real_estate_sales r.
Proof.
  eexists. split; [vm_compute; reflexivity|].
  repeat split; vm_compute; congruence.
Qed.

(** ** The cashflow distribution *)

Lemma fold_left_Qplus (xs : list Q) (a : Q) :
  fold_left Qplus xs a == a + pysum xs.
Proof.
  unfold pysum. revert a. induction xs as [|x xs IH]; intros a; cbn.
  - ring.
  - rewrite (IH (a + x)), (IH (0 + x)). ring.
Qed.

Lemma pysum_cons (x : Q) (xs : list Q) : pysum (x :: xs) == x + pysum xs.
Proof. unfold pysum at 1. cbn. rewrite fold_left_Qplus. ring. Qed.

Lemma pysum_nil : pysum [] = 0.
Proof. reflexivity. Qed.

Lemma pysum_nonneg (xs : list Q) : Forall (fun x => 0 <= x) xs -> 0 <= pysum xs.
Proof.
  induction 1 as [|x xs Hx _ IH]; [rewrite pysum_nil; lra|].
  rewrite pysum_cons. lra.
Qed.

Lemma dict_values_map {V W : Type} (f : V -> W) (d : dict V) :
  dict_values (map (fun '(k, v) => (k, f v)) d) = map f (dict_values d).
Proof.
  unfold dict_values. induction d as [|[k v] d IH]; cbn; [reflexivity|].
  now rewrite IH.
Qed.

(** The growth loop adds the post-growth balances to its running total. *)
Lemma growth_loop_total people cy age year d tr0 tb0 grown tr tb :
  growth_loop people cy age year d tr0 tb0 = (grown, tr, tb) ->
  tb == tb0 + total_balance grown.
Proof.
  revert tr0 tb0 grown tr tb.
  induction d as [|[k a] d IH]; intros tr0 tb0 grown tr tb; cbn [growth_loop].
  - intros [= <- <- <-]. unfold total_balance. cbn. ring.
  - cbv zeta.
    destruct (growth_loop people cy age year d _ _) as [[g1 tr1] tb1] eqn:E.
    intros [= <- <- <-]. apply IH in E. rewrite E.
    unfold total_balance, dict_values. cbn [map snd].
    rewrite pysum_cons. ring.
Qed.

Lemma contribute_balance (c T : Q) (a : AccountData) :
  balance (contribute c T a)
  == balance a + c * (balance a / T) + floored_of c T a.
Proof.
  unfold contribute, floored_of. cbn.
  destruct (Qlt_bool _ 0); ring.
Qed.

Lemma floored_of_nonneg (c T : Q) (a : AccountData) : 0 <= floored_of c T a.
Proof.
  unfold floored_of. cbv zeta.
  destruct (Qlt_bool _ 0) eqn:E; qbool; lra.
Qed.

Lemma floored_of_zero (c T : Q) (a : AccountData) :
  0 <= balance a + c * (balance a / T) -> floored_of c T a = 0.
Proof.
  intros H. unfold floored_of. cbv zeta.
  destruct (Qlt_bool _ 0) eqn:E; [qbool; lra | reflexivity].
Qed.

Lemma pro_rata_sum (c T : Q) (l : list AccountData) :
  ~ T == 0 ->
  pysum (map balance (map (contribute c T) l))
  == pysum (map balance l) + c * (pysum (map balance l) / T)
     + pysum (map (floored_of c T) l).
Proof.
  intros HT. induction l as [|a l IH]; cbn [map].
  - rewrite !pysum_nil. field. exact HT.
  - rewrite !pysum_cons, IH, contribute_balance. field. exact HT.
Qed.

(** C4.  In a year of [project_scenario] whose summed post-growth balance
    is positive, the balances after the distribution of [net_cashflow] sum
    to the sum before it plus [net_cashflow] plus the total floored
    amount: the amounts by which accounts would have gone below 0 and were
    set to 0 instead.  That amount is never negative, and when no account
    would go below 0 the sum after is exactly the sum before plus
    [net_cashflow]. *)
Theorem distribution_conserves
    (people_data : list Person) (current_year age year : Z)
    (account_balances grown : dict AccountData)
    (total_return_amount total_portfolio_balance net_cashflow : Q) :
  growth_loop people_data current_year age year account_balances 0 0
  = (grown, total_return_amount, total_portfolio_balance) ->
  0 < total_portfolio_balance ->
  total_portfolio_balance == total_balance grown /\
  total_balance (distribute net_cashflow total_portfolio_balance grown)
  == total_balance grown + net_cashflow
     + floored_amount net_cashflow total_portfolio_balance grown /\
  0 <= floored_amount net_cashflow total_portfolio_balance grown /\
  (Forall (fun a => 0 <= balance a
                         + net_cashflow * (balance a / total_portfolio_balance))
          (dict_values grown) ->
   total_balance (distribute net_cashflow total_portfolio_balance grown)
   == total_balance grown + net_cashflow).
Proof.
  intros Hg HT. apply growth_loop_total in Hg.
  assert (HS : total_portfolio_balance == total_balance grown)
    by (rewrite Hg; ring).
  set (T := total_portfolio_balance) in *. set (c := net_cashflow).
  assert (Hsum : total_balance (distribute c T grown)
                 == total_balance grown + c + floored_amount c T grown).
  { unfold distribute, floored_amount.
    destruct (Qeq_bool c 0) eqn:Ec; cbn [negb]; qbool.
    - rewrite Ec. ring.
    - apply Qlt_bool_true in HT. rewrite HT. apply Qlt_bool_true in HT.
      unfold total_balance in *. rewrite dict_values_map.
      rewrite pro_rata_sum by lra. rewrite <- HS. field. lra. }
  assert (Hnn : 0 <= floored_amount c T grown).
  { unfold floored_amount. destruct (negb (Qeq_bool c 0)); [|lra].
    apply pysum_nonneg. apply Forall_map, Forall_forall. intros a _.
    apply floored_of_nonneg. }
  split; [exact HS|]. split; [exact Hsum|]. split; [exact Hnn|].
  intros Hall. rewrite Hsum.
  assert (Hz : floored_amount c T grown == 0).
  { unfold floored_amount. destruct (negb (Qeq_bool c 0)); [|reflexivity].
    induction Hall as [|a l Ha _ IH]; [reflexivity|].
    cbn [map]. rewrite pysum_cons, IH, (floored_of_zero _ _ _ Ha). ring. }
  rewrite Hz. ring.
Qed.

(** The example household in 2025, asked for a million: both accounts are
    floored. *)
Lemma distribution_conserves_witness :
  exists grown tr tb,
    growth_loop (people example_scenario) 2025 60 2025
      (init_account_balances example_scenario) 0 0 = (grown, tr, tb) /\
    0 < tb /\
    tb == total_balance grown /\
    total_balance (distribute (-1000000) tb grown)
    == total_balance grown + -1000000 + floored_amount (-1000000) tb grown /\
    0 <= floored_amount (-1000000) tb grown /\
    (Forall (fun a => 0 <= balance a + -1000000 * (balance a / tb))
            (dict_values grown) ->
     total_balance (distribute (-1000000) tb grown)
     == total_balance grown + -1000000).
Proof.
  do 3 eexists.
  split; [vm_compute; reflexivity|].
  split; [reflexivity|].
  eapply (distribution_conserves (people example_scenario) 2025 60 2025
            (init_account_balances example_scenario)).
  - vm_compute. reflexivity.
  - reflexivity.
Defined.

(** ** Balances are never negative *)

(** With both rates at least -100 percent the growth rate is at least -1
    at every age. *)
Lemma growth_rate_lower (a : AccountData) (age : Q) :
  rates_ok a -> -1 <= calculate_account_growth_rate a age.
Proof.
  intros [Hagg Hcons]. unfold calculate_account_growth_rate. cbv zeta.
  set (agg := get_default (aggressive_rate a) 6) in *.
  set (cons := get_default (conservative_rate a) 6) in *.
  set (ts := get_default (transition_start_age a) 50).
  set (te := get_default (transition_end_age a) 65).
  destruct (Qle_bool age ts) eqn:E1; [qconst; lra|].
  destruct (Qle_bool te age) eqn:E2; [qconst; lra|].
  qbool.
  assert (Hd : 0 < / (te - ts)) by (apply Qinv_lt_0_compat; lra).
  assert (Hone : (te - ts) * / (te - ts) == 1) by (apply Qmult_inv_r; lra).
  qconst. set (d := / (te - ts)) in *.
  assert (Hp0 : 0 <= (age - ts) * d) by nra.
  assert (Hp1 : (age - ts) * d <= 1) by nra.
  set (p := (age - ts) * d) in *.
  nra.
Qed.

Lemma set_balance_ok (a : AccountData) (b : Q) :
  rates_ok a -> 0 <= b -> account_ok (set_balance a b).
Proof. intros Hr Hb. split; [exact Hb | exact Hr]. Qed.

Lemma growth_loop_ok people cy age year d tr0 tb0 grown tr tb :
  Forall account_ok (dict_values d) ->
  growth_loop people cy age year d tr0 tb0 = (grown, tr, tb) ->
  Forall account_ok (dict_values grown).
Proof.
  revert tr0 tb0 grown tr tb.
  induction d as [|[k a] d IH]; intros tr0 tb0 grown tr tb Hd; cbn [growth_loop].
  - intros [= <- <- <-]. constructor.
  - cbv zeta.
    destruct (growth_loop people cy age year d _ _) as [[g1 tr1] tb1] eqn:E.
    intros [= <- <- <-]. unfold dict_values in *. cbn [map snd] in *.
    inversion Hd as [|? ? [Hb Hr] Hd']; subst.
    constructor; [|eapply IH; eassumption].
    apply set_balance_ok; [exact Hr|].
    pose proof (growth_rate_lower a
                  (Zq (age_of people cy (account_owner a) age year)) Hr) as Hl.
    nra.
Qed.

Lemma contribute_ok (c T : Q) (a : AccountData) :
  account_ok a -> account_ok (contribute c T a).
Proof.
  intros [_ Hr]. unfold contribute. cbv zeta.
  apply set_balance_ok; [exact Hr|].
  destruct (Qlt_bool _ 0) eqn:E; qbool; lra.
Qed.

Lemma distribute_ok (c T : Q) (d : dict AccountData) :
  Forall account_ok (dict_values d) ->
  Forall account_ok (dict_values (distribute c T d)).
Proof.
  intros Hd. unfold distribute.
  destruct (negb (Qeq_bool c 0)); [|exact Hd].
  destruct (Qlt_bool 0 T).
  - rewrite dict_values_map. apply Forall_map.
    eapply Forall_impl; [exact Hd|]. intros a Ha. now apply contribute_ok.
  - destruct (Qlt_bool 0 c); [|exact Hd].
    destruct d as [|[k a] d]; [exact Hd|].
    unfold dict_values in *. cbn [map snd] in *.
    inversion Hd as [|? ? [_ Hr] Hd']; subst.
    constructor; [|exact Hd'].
    apply set_balance_ok; [exact Hr | apply max0_nonneg].
Qed.

Lemma total_balance_nonneg (d : dict AccountData) :
  Forall account_ok (dict_values d) -> 0 <= total_balance d.
Proof.
  intros Hd. unfold total_balance. apply pysum_nonneg, Forall_map.
  eapply Forall_impl; [exact Hd|]. now intros a [Hb _].
Qed.

(** Assigning an account that is fine to a key keeps a dictionary of
    accounts that are fine. *)
Lemma dict_set_ok (k : string) (a : AccountData) (d : dict AccountData) :
  account_ok a -> Forall account_ok (dict_values d) ->
  Forall account_ok (dict_values (dict_set k a d)).
Proof.
  intros Ha. unfold dict_values.
  induction d as [|[k' a'] d IH]; cbn [dict_set map snd]; intros Hd.
  - constructor; [exact Ha | constructor].
  - inversion Hd as [|? ? Ha' Hd']; subst.
    destruct (String.eqb k k'); cbn [map snd]; constructor; auto.
Qed.

Lemma init_account_balances_ok (s : Scenario) :
  scenario_accounts_ok s ->
  Forall account_ok (dict_values (init_account_balances s)).
Proof.
  unfold scenario_accounts_ok, init_account_balances.
  destruct (accounts s) as [legacy|].
  - intros H.
    assert (G : forall d, Forall account_ok (dict_values d) ->
                Forall account_ok
                  (dict_values
                     (fold_left (fun d '(account_name, bal) =>
                                   dict_set account_name (legacy_account bal) d)
                                legacy d))).
    { induction H as [|[k b] l Hb _ IH]; intros d Hd; cbn [fold_left]; [exact Hd|].
      apply IH, dict_set_ok; [|exact Hd].
      split; [exact Hb|]. split; cbn; unfold rate_005; lra. }
    apply G. constructor.
  - intros H.
    assert (G : forall d, Forall account_ok (dict_values d) ->
                Forall account_ok
                  (dict_values
                     (fold_left (fun d account =>
                                   dict_set (account_key account)
                                            (detailed_account account) d)
                                (account_details s) d))).
    { induction H as [|a l (Hb & Hagg & Hcons) _ IH]; intros d Hd;
        cbn [fold_left]; [exact Hd|].
      apply IH, dict_set_ok; [|exact Hd].
      split; [exact Hb|]. split; cbn; assumption. }
    apply G. constructor.
Qed.

(** One year keeps the accounts fine and emits a balance that is not
    negative. *)
Lemma project_year_ok (s : Scenario) st age r st' :
  Forall account_ok (dict_values (st_accounts st)) ->
  project_year s st age = Ok (r, st') ->
  0 <= portfolio_balance r /\ Forall account_ok (dict_values (st_accounts st')).
Proof.
  intros Hst. unfold project_year. cbv zeta.
  destruct (year_cashflow s age _ st) as [[[[[inc exp] sales] eq] c1]|];
    cbn [rbind]; [|discriminate].
  destruct (growth_loop _ _ _ _ _ _ _) as [[grown tr] tb] eqn:Eg.
  intros [= <- <-]. cbn.
  pose proof (growth_loop_ok _ _ _ _ _ _ _ _ _ _ Hst Eg) as Hg.
  pose proof (distribute_ok (inc - exp + sales) tb grown Hg) as Hd.
  split; [now apply total_balance_nonneg | exact Hd].
Qed.

(** C9.  For a scenario whose initial balances are not negative and whose
    aggressive and conservative rates are at least -100 percent, every
    account balance is at least 0 at the end of every simulated year,
    however many years have been run, and every emitted
    [portfolio_balance] is at least 0. *)
Theorem balances_never_negative (s : Scenario) :
  scenario_accounts_ok s ->
  (forall ages recs st',
     run_years (project_year s) ages (initial_state s) = Ok (recs, st') ->
     Forall (fun a => 0 <= balance a) (dict_values (st_accounts st')) /\
     Forall (fun r => 0 <= portfolio_balance r) recs) /\
  (forall recs,
     project_scenario s = Ok recs ->
     Forall (fun r => 0 <= portfolio_balance r) recs).
Proof.
  intros Hs.
  assert (G : forall ages recs st',
             run_years (project_year s) ages (initial_state s) = Ok (recs, st') ->
             Forall (fun r => 0 <= portfolio_balance r) recs /\
             Forall account_ok (dict_values (st_accounts st'))).
  { intros ages recs st' Hrun.
    apply (run_years_invariant (project_year s)
             (fun st => Forall account_ok (dict_values (st_accounts st)))
             (fun r => 0 <= portfolio_balance r)) with (3 := Hrun).
    - intros st age r st1 Hst Hy. eapply project_year_ok; eassumption.
    - cbn. now apply init_account_balances_ok. }
  split.
  - intros ages recs st' Hrun. destruct (G _ _ _ Hrun) as [Hr Ha].
    split; [|exact Hr]. eapply Forall_impl; [exact Ha|]. now intros a [Hb _].
  - intros recs. unfold project_scenario.
    destruct (run_years (project_year s) (age_range s) (initial_state s))
      as [[projections st']|] eqn:Er; cbn [rbind]; [|discriminate].
    intros [= <-]. now destruct (G _ _ _ Er).
Qed.

(** The example household at 60 and at 61. *)
Lemma balances_never_negative_witness :
  scenario_accounts_ok example_scenario /\
  exists recs,
    project_scenario example_scenario = Ok recs /\
    length recs = 2%nat /\
    Forall (fun r => 0 <= portfolio_balance r) recs.
Proof.
  assert (Hs : scenario_accounts_ok example_scenario).
  { repeat constructor; cbn; discriminate. }
  split; [exact Hs|].
  destruct (balances_never_negative example_scenario Hs) as [_ Hproj].
  eexists. split; [vm_compute; reflexivity|].
  split; [reflexivity|].
  apply Hproj. vm_compute. reflexivity.
Defined.

(** ** Malformed income and expense items *)

(** The expense loop leaves the total as it is at a malformed item. *)
Lemma expense_step_malformed (s : Scenario) (age year : Z) (total : Q) (item : Item) :
  well_formed item = false -> expense_step s age year total item = total.
Proof.
  unfold well_formed, expense_step, expense_try.
  destruct (person item), (start_age item) as [sa|], (end_age item) as [ea|],
    (annual_amount item), (growth_rate item); try reflexivity.
  intros H. replace (sa >? ea)%Z with true; [reflexivity|].
  symmetry. apply Z.gtb_lt. apply Z.leb_gt in H. lia.
Qed.

(** It never raises, and its total is the total over the well-formed
    items alone. *)
Lemma recurring_loop_skips_malformed
    (s : Scenario) (age year : Z) (items : list Item) (total : Q) :
  recurring_loop s age year items total
  = recurring_loop s age year (List.filter well_formed items) total.
Proof.
  unfold recurring_loop. revert total.
  induction items as [|item items IH]; intros total; [reflexivity|].
  cbn [fold_left List.filter]. destruct (well_formed item) eqn:E.
  - cbn [fold_left]. apply IH.
  - rewrite expense_step_malformed by exact E. apply IH.
Qed.

(** The income loop skips an item whose fields are all there and whose age
    range is inverted: the chained comparison is false at every age. *)
Lemma income_step_inverted (s : Scenario) (age year : Z) (total : Q) (item : Item)
    (sa ea : Z) (amt gr : Q) :
  start_age item = Some sa -> end_age item = Some ea ->
  annual_amount item = Some amt -> growth_rate item = Some gr ->
  (ea < sa)%Z ->
  income_step s age year total item = Ok total.
Proof.
  intros Hs He Ha Hg Hinv. unfold income_step. cbv zeta.
  rewrite Hs, He. cbn [getitem rbind].
  destruct (sa <=? _)%Z eqn:E1; [|reflexivity].
  destruct (_ <=? ea)%Z eqn:E2; [|reflexivity].
  apply Z.leb_le in E1, E2. lia.
Qed.

(** C7, at the input where the code departs from it.  A row without
    [start_age] among the income sources makes [calculate_total_income]
    raise, and the run with it; the same row among the recurring expenses
    is skipped by [calculate_total_expenses], which returns the 40000 of
    the remaining item.  The defensive skip of the expense loop (the test
    for missing fields, the [try]) has no counterpart in the income loop. *)
Theorem income_raises_on_missing_field :
  well_formed example_malformed_item = false /\
  calculate_total_income malformed_scenario 60 2025 cache_clear = Raise KeyError /\
  project_scenario malformed_scenario = Raise KeyError /\
  (exists total,
     calculate_total_expenses malformed_scenario 60 2025 cache_clear
     = Ok (total, cache_clear) /\ total == 40000).
Proof.
  split; [reflexivity|]. split; [reflexivity|]. split; [reflexivity|].
  eexists. split; [vm_compute; reflexivity | reflexivity].
Qed.

(** ** A trial without volatility *)

Lemma account_equiv_refl (a : AccountData) : account_equiv a a.
Proof. repeat split; reflexivity. Qed.

Lemma accounts_equiv_refl (d : dict AccountData) : accounts_equiv d d.
Proof.
  induction d as [|x d IH]; constructor; [|exact IH].
  split; [reflexivity | apply account_equiv_refl].
Qed.

(** The growth rate reads no balance. *)
Lemma growth_rate_equiv (a b : AccountData) (age : Q) :
  account_equiv a b ->
  calculate_account_growth_rate a age = calculate_account_growth_rate b age.
Proof.
  intros (_ & H1 & H2 & H3 & H4 & _). unfold calculate_account_growth_rate.
  now rewrite H1, H2, H3, H4.
Qed.

Lemma set_balance_equiv (a b : AccountData) (x y : Q) :
  account_equiv a b -> x == y -> account_equiv (set_balance a x) (set_balance b y).
Proof.
  intros (_ & H1 & H2 & H3 & H4 & H5) Hxy. repeat split; cbn; assumption.
Qed.

(** With every volatility at 0 the two loops of a trial do to the accounts
    what the growth loop of the deterministic engine does, whatever the
    random stream. *)
Lemma zero_volatility_growth
    (noise : nat -> Q) (people_data : list Person) (cy age year : Z)
    (d d' : dict AccountData) :
  accounts_equiv d d' ->
  forall (i : nat) (tr tb tr' tb' : Q),
    tr == tr' -> tb == tb' ->
    let rv := rates_loop zero_volatility people_data cy age year d in
    let X := apply_returns d
               (generate_correlated_returns_from noise i (fst rv) (snd rv)) tr tb in
    let Y := growth_loop people_data cy age year d' tr' tb' in
    accounts_equiv (fst (fst X)) (fst (fst Y)) /\
    snd (fst X) == snd (fst Y) /\ snd X == snd Y.
Proof.
  induction 1 as [|[k a] [k' b] d d' [Hk Hab] Hd IH]; intros i tr tb tr' tb' Htr Htb.
  - cbn. repeat split; [constructor | exact Htr | exact Htb].
  - cbn [fst snd] in Hk, Hab. subst k'.
    cbn [rates_loop growth_loop]. cbv zeta.
    destruct (rates_loop zero_volatility people_data cy age year d)
      as [rates vols] eqn:Erv.
    cbn [fst snd generate_correlated_returns_from apply_returns].
    pose proof Hab as (Hbal & _ & _ & _ & _ & Hown).
    rewrite <- (growth_rate_equiv a b _ Hab), <- Hown.
    set (rate := calculate_account_growth_rate a
                   (Zq (age_of people_data cy (account_owner a) age year))).
    unfold zero_volatility.
    set (srate := rate + 0 * noise i).
    assert (Hs : srate == rate) by (unfold srate; ring).
    clearbody srate. clearbody rate.
    specialize (IH (S i) (tr + balance a * srate)
                  (tb + balance (set_balance a (balance a + balance a * srate)))
                  (tr' + balance b * rate)
                  (tb' + balance (set_balance b (balance b + balance b * rate)))).
    cbv zeta in IH. cbn [fst snd] in IH.
    destruct (apply_returns d _ _ _) as [[g1 r1] b1].
    destruct (growth_loop people_data cy age year d' _ _) as [[g2 r2] b2].
    cbn [fst snd] in *.
    destruct IH as (Hg & Hr & Hb).
    + rewrite Hs, Htr, Hbal. reflexivity.
    + cbn [balance set_balance]. rewrite Hs, Htb, Hbal. reflexivity.
    + repeat split; try assumption.
      constructor; [|exact Hg]. split; [reflexivity|]. cbn [snd].
      apply set_balance_equiv; [exact Hab|]. rewrite Hs, Hbal. reflexivity.
Qed.

Lemma Qeq_bool_equiv (x x' y y' : Q) :
  x == x' -> y == y' -> Qeq_bool x y = Qeq_bool x' y'.
Proof.
  intros Hx Hy.
  destruct (Qeq_bool x y) eqn:E1, (Qeq_bool x' y') eqn:E2; try reflexivity;
    qbool; exfalso; [apply E2 | apply E1]; lra.
Qed.

Lemma Qle_bool_equiv (x x' y y' : Q) :
  x == x' -> y == y' -> Qle_bool x y = Qle_bool x' y'.
Proof.
  intros Hx Hy.
  destruct (Qle_bool x y) eqn:E1, (Qle_bool x' y') eqn:E2; try reflexivity;
    qbool; lra.
Qed.

Lemma Qlt_bool_equiv (x x' y y' : Q) :
  x == x' -> y == y' -> Qlt_bool x y = Qlt_bool x' y'.
Proof. intros Hx Hy. unfold Qlt_bool. now rewrite (Qle_bool_equiv y y' x x'). Qed.

Lemma max0_equiv (x y : Q) : x == y -> max0 x == max0 y.
Proof.
  intros H. unfold max0. rewrite (Qle_bool_equiv x y 0 0 H (Qeq_refl 0)).
  destruct (Qle_bool y 0); [reflexivity | exact H].
Qed.

Lemma contribute_equiv (c c' T T' : Q) (a b : AccountData) :
  c == c' -> T == T' -> account_equiv a b ->
  account_equiv (contribute c T a) (contribute c' T' b).
Proof.
  intros Hc HT Hab. pose proof Hab as (Hbal & _).
  unfold contribute. cbv zeta. apply set_balance_equiv; [exact Hab|].
  assert (E : balance a + c * (balance a / T)
              == balance b + c' * (balance b / T'))
    by (rewrite Hc, HT, Hbal; reflexivity).
  rewrite (Qlt_bool_equiv _ _ 0 0 E (Qeq_refl 0)).
  destruct (Qlt_bool _ 0); [reflexivity | exact E].
Qed.

Lemma distribute_equiv (c c' T T' : Q) (d d' : dict AccountData) :
  c == c' -> T == T' -> accounts_equiv d d' ->
  accounts_equiv (distribute c T d) (distribute c' T' d').
Proof.
  intros Hc HT Hd. unfold distribute.
  rewrite (Qeq_bool_equiv c c' 0 0 Hc (Qeq_refl 0)).
  destruct (negb (Qeq_bool c' 0)); [|exact Hd].
  rewrite (Qlt_bool_equiv 0 0 T T' (Qeq_refl 0) HT).
  destruct (Qlt_bool 0 T').
  - induction Hd as [|[k a] [k' b] d d' [Hk Hab] _ IH]; cbn [map]; constructor;
      [|exact IH].
    cbn [fst snd] in *. split; [exact Hk | now apply contribute_equiv].
  - rewrite (Qlt_bool_equiv 0 0 c c' (Qeq_refl 0) Hc).
    destruct (Qlt_bool 0 c'); [|exact Hd].
    destruct Hd as [|[k a] [k' b] d d' [Hk Hab] Hd]; constructor; [|exact Hd].
    cbn [fst snd] in *. split; [exact Hk|].
    apply set_balance_equiv; [exact Hab | now apply max0_equiv].
Qed.

Lemma total_balance_equiv (d d' : dict AccountData) :
  accounts_equiv d d' -> total_balance d == total_balance d'.
Proof.
  unfold total_balance, dict_values.
  induction 1 as [|[k a] [k' b] d d' [_ (Hbal & _)] _ IH]; [reflexivity|].
  cbn [map snd] in *. rewrite !pysum_cons, IH, Hbal. reflexivity.
Qed.

Lemma make_record_equiv (age year : Z) (inc exp nc sales tr tr' tb tb' eq : Q) :
  tr == tr' -> tb == tb' ->
  same_columns (make_record age year inc exp nc sales tr tb eq)
               (make_record age year inc exp nc sales tr' tb' eq).
Proof.
  intros Htr Htb. unfold same_columns, make_record. cbn.
  repeat split; try reflexivity; try assumption. now rewrite Htb.
Qed.

(** One year of a trial with every volatility at 0 against one year of
    the deterministic engine, from states that agree. *)
Lemma zero_volatility_year
    (noise : Z -> nat -> Q) (s : Scenario) (st st' : RunState) (age : Z) :
  state_equiv st st' ->
  res_equiv (fun x y => same_columns (fst x) (fst y) /\ state_equiv (snd x) (snd y))
            (simulate_year zero_volatility noise s st age)
            (project_year s st' age).
Proof.
  intros (Hc & Ha & He). unfold simulate_year, project_year, year_cashflow.
  rewrite Hc, He. cbv zeta.
  destruct (calculate_total_income s age _ (st_cache st')) as [[inc c1]|];
    cbn [rbind]; [|reflexivity].
  destruct (calculate_total_expenses s age _ c1) as [[exp c2]|];
    cbn [rbind]; [|reflexivity].
  assert (G : forall sales eq c3,
    res_equiv (fun x y => same_columns (fst x) (fst y) /\ state_equiv (snd x) (snd y))
      (let net_cashflow := inc - exp + sales in
       let '(deterministic_rates, volatilities) :=
         rates_loop zero_volatility (people s) (s_current_year s) age
           (s_current_year s + (age - s_current_age s)) (st_accounts st) in
       let stochastic_returns :=
         generate_correlated_returns (noise age) deterministic_rates volatilities in
       let '(grown, total_return_amount, total_portfolio_balance) :=
         apply_returns (st_accounts st) stochastic_returns 0 0 in
       let accounts' := distribute net_cashflow total_portfolio_balance grown in
       let total_portfolio_balance := total_balance accounts' in
       Ok (make_record age (s_current_year s + (age - s_current_age s)) inc exp
             net_cashflow sales total_return_amount total_portfolio_balance eq,
           {| st_cache := c3; st_accounts := accounts';
              st_real_estate_equity := eq |}))
      (let net_cashflow := inc - exp + sales in
       let '(grown, total_return_amount, total_portfolio_balance) :=
         growth_loop (people s) (s_current_year s) age
           (s_current_year s + (age - s_current_age s)) (st_accounts st') 0 0 in
       let accounts' := distribute net_cashflow total_portfolio_balance grown in
       let total_portfolio_balance := total_balance accounts' in
       Ok (make_record age (s_current_year s + (age - s_current_age s)) inc exp
             net_cashflow sales total_return_amount total_portfolio_balance eq,
           {| st_cache := c3; st_accounts := accounts';
              st_real_estate_equity := eq |}))).
  { intros sales eq c3. cbv zeta.
    pose proof (zero_volatility_growth (noise age) (people s) (s_current_year s) age
                  (s_current_year s + (age - s_current_age s))
                  (st_accounts st) (st_accounts st') Ha 0%nat 0 0 0 0
                  (Qeq_refl 0) (Qeq_refl 0)) as H.
    cbv zeta in H. unfold generate_correlated_returns.
    destruct (rates_loop zero_volatility _ _ _ _ _) as [rates vols].
    cbn [fst snd] in H.
    destruct (apply_returns _ _ _ _) as [[g1 r1] b1].
    destruct (growth_loop _ _ _ _ _ _ _) as [[g2 r2] b2].
    cbn [fst snd] in H. destruct H as (Hg & Hr & Hb).
    pose proof (distribute_equiv (inc - exp + sales) (inc - exp + sales) b1 b2
                  g1 g2 (Qeq_refl _) Hb Hg) as Hd.
    cbn [res_equiv fst snd]. split.
    - apply make_record_equiv; [exact Hr | now apply total_balance_equiv].
    - repeat split; cbn; [exact Hd]. }
  destruct (real_estate s).
  - cbn [rbind]. apply G.
  - destruct (get_real_estate_impact c2 _ _ _ _) as [[im c3]|]; cbn [rbind];
      [apply G | reflexivity].
Qed.

Lemma state_equiv_refl (st : RunState) : state_equiv st st.
Proof. repeat split. apply accounts_equiv_refl. Qed.

(** A whole trial with every volatility at 0 against a whole
    deterministic run, from states that agree: both raise the same
    exception, or both return, with the same columns year by year. *)
Lemma zero_volatility_run
    (noise : Z -> nat -> Q) (s : Scenario) (ages : list Z) :
  forall st st' : RunState,
    state_equiv st st' ->
    res_equiv (fun x y => Forall2 same_columns (fst x) (fst y)
                          /\ state_equiv (snd x) (snd y))
              (run_years (simulate_year zero_volatility noise s) ages st)
              (run_years (project_year s) ages st').
Proof.
  induction ages as [|age ages IH]; intros st st' Hst; cbn [run_years].
  - cbn. split; [constructor | exact Hst].
  - pose proof (zero_volatility_year noise s st st' age Hst) as Hy.
    destruct (simulate_year zero_volatility noise s st age) as [[r1 st1]|e1];
      destruct (project_year s st' age) as [[r2 st2]|e2]; cbn in Hy;
      try contradiction; cbn [rbind]; [|exact Hy].
    destruct Hy as [Hr Hst1]. specialize (IH st1 st2 Hst1).
    destruct (run_years (simulate_year zero_volatility noise s) ages st1)
      as [[rs1 st1']|e1];
      destruct (run_years (project_year s) ages st2) as [[rs2 st2']|e2];
      cbn in IH; try contradiction; cbn [rbind]; [|exact IH].
    destruct IH as [Hrs Hst']. cbn. split; [constructor; assumption | exact Hst'].
Qed.

(** For a scenario whose accounts are given as [account_details], a trial
    with every volatility forced to 0 reproduces the deterministic run:
    both raise the same exception, or both return and their records have
    the same columns, year by year, whatever the random stream and the
    trial's id. *)
Lemma zero_volatility_reproduces_projection
    (noise : Z -> nat -> Q) (s : Scenario) (sim_id : Z) :
  accounts s = None ->
  res_equiv (fun sims recs => Forall2 same_columns (map sr_record sims) recs)
            (run_single_simulation_with zero_volatility noise s sim_id)
            (project_scenario s).
Proof.
  intros Hacc. unfold run_single_simulation_with, project_scenario.
  assert (Hinit : state_equiv (mc_initial_state s) (initial_state s)).
  { unfold mc_initial_state, initial_state, mc_init_account_balances,
      init_account_balances. rewrite Hacc. apply state_equiv_refl. }
  pose proof (zero_volatility_run noise s (age_range s) _ _ Hinit) as H.
  destruct (run_years (simulate_year zero_volatility noise s) _ _) as [[rs1 st1]|e1];
    destruct (run_years (project_year s) _ _) as [[rs2 st2]|e2];
    cbn in H; try contradiction; cbn [rbind res_equiv]; [|exact H].
  destruct H as [H _]. rewrite map_map. cbn [sr_record]. now rewrite map_id.
Qed.

(** C1, at the input where the code departs from it.  A scenario in the
    legacy form, one account of 100000 and one year at the age of 65: the
    deterministic run earns 50 (both rates 0.05 percent), the trial with
    every volatility forced to 0 earns 6000, whatever its random stream.
    The trial's set-up stores no [conservative_rate] and no transition
    ages for a legacy account, so [calculate_account_growth_rate] falls
    back on its own defaults (6 percent from the age of 65); the
    deterministic set-up stores them.  For scenarios given as
    [account_details] the two agree
    ([zero_volatility_reproduces_projection]). *)
Theorem legacy_accounts_trial_departs (noise : Z -> nat -> Q) :
  exists r m,
    project_scenario legacy_scenario = Ok [r] /\
    run_single_simulation_with zero_volatility noise legacy_scenario 0 = Ok [m] /\
    portfolio_return_amount r == 50 /\
    portfolio_return_amount (sr_record m) == 6000 /\
    ~ same_columns r (sr_record m).
Proof.
  pose proof (zero_volatility_run noise legacy_scenario (age_range legacy_scenario)
                _ _ (state_equiv_refl (mc_initial_state legacy_scenario))) as H.
  unfold run_single_simulation_with.
  destruct (run_years (simulate_year zero_volatility noise legacy_scenario) _ _)
    as [[rs1 st1]|e1].
  2:{ exfalso. revert H. vm_compute. trivial. }
  assert (E : exists r0 st0,
             run_years (project_year legacy_scenario) (age_range legacy_scenario)
               (mc_initial_state legacy_scenario) = Ok ([r0], st0)
             /\ portfolio_return_amount r0 == 6000).
  { do 2 eexists. split; [vm_compute; reflexivity | reflexivity]. }
  destruct E as (r0 & st0 & E & Hr0). rewrite E in H. cbn in H.
  destruct H as [H _].
  inversion H as [|m r0' rs1' l' Hm Hnil]; subst. inversion Hnil; subst.
  eexists. exists {| sr_record := m; simulation_id := 0 |}.
  split; [vm_compute; reflexivity|]. split; [reflexivity|].
  assert (Hm6 : portfolio_return_amount m == 6000).
  { destruct Hm as (_ & _ & _ & _ & _ & _ & _ & Hret & _).
    rewrite Hret. exact Hr0. }
  split; [reflexivity|]. split; [exact Hm6|].
  intros (_ & _ & _ & _ & _ & _ & _ & Hret & _). cbn [sr_record] in Hret.
  rewrite Hm6 in Hret. revert Hret. vm_compute. discriminate.
Qed.

(** ** More of the AmortizationCalculator *)

Lemma max0_id (x : Q) : 0 <= x -> max0 x == x.
Proof.
  intros H. unfold max0. destruct (Qle_bool x 0) eqn:E; [|reflexivity].
  qbool. lra.
Qed.

Lemma max0_mono (x y : Q) : x <= y -> max0 x <= max0 y.
Proof.
  intros H. unfold max0.
  destruct (Qle_bool x 0) eqn:E1, (Qle_bool y 0) eqn:E2; qbool; lra.
Qed.

Lemma pypow_succ (q : Q) (k : Z) :
  ~ q == 0 -> pypow q (k + 1) == pypow q k * q.
Proof.
  intros H. unfold pypow. rewrite Qpower_plus by exact H.
  now rewrite Qpower_1_r.
Qed.

(** Compound growth over [n] payments is at most [n] times the last
    payment's worth of interest: [q^n - 1 <= n * (q - 1) * q^n]. *)
Lemma pypow_growth_bound (q : Q) (n : nat) :
  1 <= q -> pypow q (Z.of_nat n) - 1 <= Zq (Z.of_nat n) * (q - 1) * pypow q (Z.of_nat n).
Proof.
  intros Hq. induction n as [|n IH].
  - change (pypow q (Z.of_nat 0)) with 1. change (Zq (Z.of_nat 0)) with 0. lra.
  - rewrite Nat2Z.inj_succ. unfold Z.succ.
    rewrite pypow_succ by lra.
    unfold Zq in *. rewrite inject_Z_plus.
    assert (H1 : 1 <= pypow q (Z.of_nat n)) by (apply Qpower_1_le; [exact Hq | lia]).
    assert (H0 : 0 <= inject_Z (Z.of_nat n)).
    { change 0 with (inject_Z 0). rewrite <- Zle_Qle. lia. }
    set (A := pypow q (Z.of_nat n)) in *.
    set (N := inject_Z (Z.of_nat n)) in *.
    change (inject_Z 1) with 1.
    assert (HX : 0 <= N * (q - 1) * A) by (apply Qmult_le_0_compat; nra).
    assert (HY : 0 <= (q - 1) * A) by nra.
    assert (H2 : N * (q - 1) * A * 1 <= N * (q - 1) * A * q)
      by (apply Qmult_le_l_compat || nra).
    assert (H3 : (q - 1) * A * 1 <= (q - 1) * A * q) by nra.
    lra.
Qed.

(** On exact rationals.  For a principal that is not negative, a rate that is not
    negative and a positive number of years the monthly payment is
    defined and not negative; it covers at least the first month's
    interest, and the payments of the whole term add up to at least the
    principal: to exactly the principal when the rate is 0. *)
Lemma monthly_payment_exact (principal annual_rate : Q) (years : Z) :
  0 <= principal -> 0 <= annual_rate -> (0 < years)%Z ->
  exists payment,
    calculate_monthly_mortgage_payment principal annual_rate years = Ok payment /\
    0 <= payment /\
    principal * (annual_rate / 12) <= payment /\
    principal <= payment * Zq (years * 12) /\
    (annual_rate == 0 -> payment * Zq (years * 12) == principal).
Proof.
  intros HP Hr Hy. unfold calculate_monthly_mortgage_payment. cbv zeta.
  assert (HN : 0 < Zq (years * 12)) by (apply Zq_pos; lia).
  destruct (Qeq_bool annual_rate 0) eqn:Er; qbool.
  - rewrite pydiv_ok by lra. eexists. split; [reflexivity|].
    assert (E : principal / Zq (years * 12) * Zq (years * 12) == principal)
      by (field; lra).
    assert (Hpos : 0 <= principal / Zq (years * 12))
      by (apply Qle_shift_div_l; [exact HN | lra]).
    repeat split; try lra.
    rewrite Er. unfold Qdiv at 1. lra.
  - pose proof (Qpos_of_nonneg_neq _ Hr Er) as Hr'.
    set (m := annual_rate / 12).
    assert (Hm : 0 < m) by (unfold m; qconst; lra).
    assert (HA : 1 < pypow (1 + m) (years * 12))
      by (apply Qpower_1_lt; [lra | lia]).
    rewrite pydiv_ok by lra. eexists. split; [reflexivity|].
    pose proof (pypow_growth_bound (1 + m) (Z.to_nat (years * 12))) as HB.
    rewrite Z2Nat.id in HB by lia. specialize (HB ltac:(lra)).
    set (A := pypow (1 + m) (years * 12)) in *.
    set (N := Zq (years * 12)) in *.
    assert (Hd : 0 < / (A - 1)) by (apply Qinv_lt_0_compat; lra).
    assert (Hone : (A - 1) * / (A - 1) == 1) by (apply Qmult_inv_r; lra).
    unfold Qdiv. set (d := / (A - 1)) in *.
    assert (HmA : 0 < m * A) by nra.
    assert (Hd1 : 1 <= A * d) by nra.
    assert (HPm : 0 <= principal * m) by nra.
    repeat split.
    + assert (0 <= principal * (m * A)) by nra. nra.
    + assert (principal * m * 1 <= principal * m * (A * d)) by nra. nra.
    + assert (HB' : (A - 1) * d <= N * (1 + m - 1) * A * d) by nra.
      assert (HB2 : 1 <= N * m * A * d) by nra.
      assert (principal * 1 <= principal * (N * m * A * d)) by nra. nra.
    + intros H0. exfalso. apply Er. exact H0.
Qed.

(** On exact rationals.  The balance function follows the schedule of the payment
    function: before the end of the term, the balance after one more
    payment is the balance before it, plus one month of interest, minus
    the monthly payment. *)
Lemma payment_schedule_exact
    (principal annual_rate : Q) (term_years k : Z) :
  0 <= principal -> 0 <= annual_rate -> (0 < term_years)%Z ->
  (0 <= k < term_years * 12)%Z ->
  exists payment before after,
    calculate_monthly_mortgage_payment principal annual_rate term_years = Ok payment /\
    calculate_mortgage_balance principal annual_rate term_years k = Ok before /\
    calculate_mortgage_balance principal annual_rate term_years (k + 1) = Ok after /\
    after == before * (1 + annual_rate / 12) - payment.
Proof.
  intros HP Hr HT Hk.
  unfold calculate_monthly_mortgage_payment, calculate_mortgage_balance. cbv zeta.
  assert (HN : 0 < Zq (term_years * 12)) by (apply Zq_pos; lia).
  assert (Hk0 : 0 <= Zq k).
  { unfold Zq. change 0 with (inject_Z 0). rewrite <- Zle_Qle. lia. }
  assert (Hk1 : Zq (k + 1) == Zq k + 1).
  { unfold Zq. rewrite inject_Z_plus. reflexivity. }
  assert (HkN : Zq k + 1 <= Zq (term_years * 12)).
  { rewrite <- Hk1. apply Zq_le. lia. }
  destruct (Qeq_bool annual_rate 0) eqn:Er; qbool.
  - rewrite !pydiv_ok by lra. cbn [rbind].
    do 3 eexists. repeat split.
    set (N := Zq (term_years * 12)) in *.
    assert (Hd : 0 < / N) by (apply Qinv_lt_0_compat; lra).
    assert (Hone : N * / N == 1) by (apply Qmult_inv_r; lra).
    rewrite !max0_id.
    + rewrite Er, Hk1. field. lra.
    + unfold Qdiv. set (d := / N) in *.
      assert (Zq k * d <= 1) by nra.
      assert (principal * (Zq k * d) <= principal * 1) by nra. nra.
    + unfold Qdiv. rewrite Hk1. set (d := / N) in *.
      assert ((Zq k + 1) * d <= 1) by nra.
      assert (principal * ((Zq k + 1) * d) <= principal * 1) by nra. nra.
  - pose proof (Qpos_of_nonneg_neq _ Hr Er) as Hr'.
    set (m := annual_rate / 12).
    assert (Hm : 0 < m) by (unfold m; qconst; lra).
    assert (HA : 1 < pypow (1 + m) (term_years * 12))
      by (apply Qpower_1_lt; [lra | lia]).
    assert (HB : pypow (1 + m) k <= pypow (1 + m) (term_years * 12))
      by (apply Qpower_le_compat_l; [lia | lra]).
    assert (HB1 : 1 <= pypow (1 + m) k) by (apply Qpower_1_le; [lra | lia]).
    assert (HC : pypow (1 + m) (k + 1) <= pypow (1 + m) (term_years * 12))
      by (apply Qpower_le_compat_l; [lia | lra]).
    assert (HS : pypow (1 + m) (k + 1) == pypow (1 + m) k * (1 + m))
      by (apply pypow_succ; lra).
    replace (k >=? term_years * 12)%Z with false
      by (symmetry; rewrite Z.geb_leb; apply Z.leb_gt; lia).
    rewrite !pydiv_ok by lra. cbn [rbind].
    set (A := pypow (1 + m) (term_years * 12)) in *.
    set (B := pypow (1 + m) k) in *.
    assert (Hd : 0 < / (A - 1)) by (apply Qinv_lt_0_compat; lra).
    assert (Hone : (A - 1) * / (A - 1) == 1) by (apply Qmult_inv_r; lra).
    assert (Hbefore : 0 <= principal * (A - B) / (A - 1)).
    { unfold Qdiv. set (d := / (A - 1)) in *.
      assert (0 <= principal * (A - B)) by nra. nra. }
    destruct (k + 1 >=? term_years * 12)%Z eqn:Ek.
    + do 3 eexists. repeat split.
      assert (Ek' : (k + 1 = term_years * 12)%Z) by (rewrite Z.geb_leb in Ek; apply Z.leb_le in Ek; lia).
      rewrite max0_id by exact Hbefore.
      assert (HAB : A == B * (1 + m)).
      { unfold A. rewrite <- Ek'. exact HS. }
      field_simplify_eq; [|lra]. rewrite HAB. ring.
    + cbn [rbind]. do 3 eexists. repeat split.
      set (C := pypow (1 + m) (k + 1)) in *.
      assert (Hafter : 0 <= principal * (A - C) / (A - 1)).
      { unfold Qdiv. set (d := / (A - 1)) in *.
        assert (0 <= principal * (A - C)) by nra. nra. }
      rewrite !max0_id by assumption.
      field_simplify_eq; [|lra]. rewrite HS. ring.
Qed.

(** On exact rationals.  Under the same conditions the balance before any payment is
    the principal, and the balance never rises with the number of
    payments made. *)
Lemma balance_starts_and_falls_exact
    (principal annual_rate : Q) (term_years k1 k2 : Z) :
  0 <= principal -> 0 <= annual_rate -> (0 < term_years)%Z -> (k1 <= k2)%Z ->
  exists b0 b1 b2,
    calculate_mortgage_balance principal annual_rate term_years 0 = Ok b0 /\
    calculate_mortgage_balance principal annual_rate term_years k1 = Ok b1 /\
    calculate_mortgage_balance principal annual_rate term_years k2 = Ok b2 /\
    b0 == principal /\ b2 <= b1.
Proof.
  intros HP Hr HT Hk.
  unfold calculate_mortgage_balance. cbv zeta.
  assert (HN : 0 < Zq (term_years * 12)) by (apply Zq_pos; lia).
  pose proof (Zq_le _ _ Hk) as HkQ.
  destruct (Qeq_bool annual_rate 0) eqn:Er; qbool.
  - rewrite !pydiv_ok by lra. cbn [rbind].
    do 3 eexists. repeat split.
    + rewrite max0_id; [|change (Zq 0) with 0; unfold Qdiv; lra].
      change (Zq 0) with 0. unfold Qdiv. ring.
    + apply max0_mono. unfold Qdiv.
      set (N := Zq (term_years * 12)) in *.
      assert (Hd : 0 < / N) by (apply Qinv_lt_0_compat; lra).
      set (d := / N) in *.
      assert (principal * Zq k1 <= principal * Zq k2) by nra. nra.
  - pose proof (Qpos_of_nonneg_neq _ Hr Er) as Hr'.
    set (m := annual_rate / 12).
    assert (Hm : 0 < m) by (unfold m; qconst; lra).
    assert (HA : 1 < pypow (1 + m) (term_years * 12))
      by (apply Qpower_1_lt; [lra | lia]).
    assert (HB : pypow (1 + m) k1 <= pypow (1 + m) k2)
      by (apply Qpower_le_compat_l; [lia | lra]).
    replace (0 >=? term_years * 12)%Z with false
      by (symmetry; rewrite Z.geb_leb; apply Z.leb_gt; lia).
    rewrite !pydiv_ok by lra. cbn [rbind].
    set (A := pypow (1 + m) (term_years * 12)) in *.
    assert (Hd : 0 < / (A - 1)) by (apply Qinv_lt_0_compat; lra).
    assert (Hone : (A - 1) * / (A - 1) == 1) by (apply Qmult_inv_r; lra).
    assert (H0 : max0 (principal * (A - pypow (1 + m) 0) / (A - 1)) == principal).
    { change (pypow (1 + m) 0) with 1. rewrite max0_id.
      - field. lra.
      - unfold Qdiv. set (d := / (A - 1)) in *. nra. }
    assert (Hmono : principal * (A - pypow (1 + m) k2) / (A - 1)
                    <= principal * (A - pypow (1 + m) k1) / (A - 1)).
    { unfold Qdiv. set (d := / (A - 1)) in *.
      assert (principal * (A - pypow (1 + m) k2)
              <= principal * (A - pypow (1 + m) k1)) by nra.
      nra. }
    destruct (k1 >=? term_years * 12)%Z eqn:E1;
      destruct (k2 >=? term_years * 12)%Z eqn:E2; cbn [rbind];
      do 3 eexists; (repeat split; [exact H0|]).
    + lra.
    + rewrite Z.geb_leb in E1. apply Z.leb_le in E1.
      rewrite Z.geb_leb in E2. apply Z.leb_gt in E2. lia.
    + apply max0_nonneg.
    + now apply max0_mono.
Qed.

(** ** More of the RealEstateValuator *)

(** X4.  With an appreciation rate and a base value that are not
    negative, the value of a property is never negative and never falls
    from one year to a later one.  An owned property is worth its
    [current_value] up to the current year; a future property is worth
    nothing before its purchase year and its purchase price in it. *)
Theorem property_value_never_falls (p : Property) (y1 y2 cy : Z) :
  0 <= appreciation_rate p ->
  match kind p with
  | ExistingProperty current_value _ => 0 <= current_value
  | FutureProperty => 0 <= purchase_price p
  end ->
  (y1 <= y2)%Z ->
  0 <= calculate_value_at_year p y1 cy /\
  calculate_value_at_year p y1 cy <= calculate_value_at_year p y2 cy /\
  match kind p with
  | ExistingProperty current_value _ =>
      (y1 <= cy)%Z -> calculate_value_at_year p y1 cy == current_value
  | FutureProperty =>
      ((y1 < purchase_year p)%Z -> calculate_value_at_year p y1 cy == 0) /\
      calculate_value_at_year p (purchase_year p) cy == purchase_price p
  end.
Proof.
  intros Ha Hbase Hy. unfold calculate_value_at_year. cbv zeta.
  set (q := 1 + appreciation_rate p).
  assert (Hq : 1 <= q) by (unfold q; lra).
  destruct (kind p) as [cv cmb|].
  - assert (H1 : 1 <= pypow q (Z.max 0 (y1 - cy)))
      by (apply Qpower_1_le; [exact Hq | lia]).
    assert (H2 : pypow q (Z.max 0 (y1 - cy)) <= pypow q (Z.max 0 (y2 - cy)))
      by (apply Qpower_le_compat_l; [lia | exact Hq]).
    repeat split.
    + nra.
    + nra.
    + intros Hle. replace (Z.max 0 (y1 - cy)) with 0%Z by lia.
      change (pypow q 0) with 1. ring.
  - assert (Hp : forall y, (purchase_year p <= y)%Z ->
                 1 <= pypow q (y - purchase_year p))
      by (intros y Hle; apply Qpower_1_le; [exact Hq | lia]).
    repeat split.
    + destruct (y1 <? purchase_year p)%Z eqn:E1; [lra|].
      apply Z.ltb_ge in E1. specialize (Hp y1 E1). nra.
    + destruct (y1 <? purchase_year p)%Z eqn:E1;
        destruct (y2 <? purchase_year p)%Z eqn:E2;
        try apply Z.ltb_ge in E1; try apply Z.ltb_ge in E2;
        try apply Z.ltb_lt in E1; try apply Z.ltb_lt in E2; try lia.
      * lra.
      * specialize (Hp y2 E2). nra.
      * assert (H2 : pypow q (y1 - purchase_year p) <= pypow q (y2 - purchase_year p))
          by (apply Qpower_le_compat_l; [lia | exact Hq]).
        nra.
    + intros Hlt. apply Z.ltb_lt in Hlt. now rewrite Hlt.
    + rewrite Z.ltb_irrefl, Z.sub_diag. change (pypow q 0) with 1. ring.
Qed.

(** The cabin from 2026 to 2029. *)
Lemma property_value_never_falls_witness :
  0 <= appreciation_rate example_cabin /\ 0 <= 400000 /\ (2026 <= 2029)%Z /\
  calculate_value_at_year example_cabin 2026 2025
  <= calculate_value_at_year example_cabin 2029 2025.
Proof.
  assert (H1 : 0 <= appreciation_rate example_cabin) by (vm_compute; discriminate).
  assert (H2 : 0 <= 400000) by (vm_compute; discriminate).
  assert (H3 : (2026 <= 2029)%Z) by lia.
  split; [exact H1|]. split; [exact H2|]. split; [exact H3|].
  exact (proj1 (proj2 (property_value_never_falls example_cabin 2026 2029 2025
                         H1 H2 H3))).
Defined.

(** Two balances of one loan, the later one after at least as many
    payments: the later is the smaller, and none exceeds the principal
    once payments are counted from 0. *)
Lemma mortgage_balance_ordered (P r : Q) (T k1 k2 : Z) (b1 b2 : Q) :
  0 <= P -> 0 <= r -> (0 < T)%Z -> (0 <= k1 <= k2)%Z ->
  calculate_mortgage_balance P r T k1 = Ok b1 ->
  calculate_mortgage_balance P r T k2 = Ok b2 ->
  0 <= b2 /\ b2 <= b1 /\ b1 <= P.
Proof.
  intros HP Hr HT Hk. unfold calculate_mortgage_balance. cbv zeta.
  assert (HN : 0 < Zq (T * 12)) by (apply Zq_pos; lia).
  assert (Hk1 : 0 <= Zq k1).
  { unfold Zq. change 0 with (inject_Z 0). rewrite <- Zle_Qle. lia. }
  assert (HkQ : Zq k1 <= Zq k2) by (apply Zq_le; lia).
  destruct (Qeq_bool r 0) eqn:Er; qbool.
  - rewrite !pydiv_ok by lra. cbn [rbind]. intros [= <-] [= <-].
    set (N := Zq (T * 12)) in *.
    assert (Hd : 0 < / N) by (apply Qinv_lt_0_compat; lra).
    split; [apply max0_nonneg|]. split.
    + apply max0_mono. unfold Qdiv. set (d := / N) in *.
      assert (P * Zq k1 <= P * Zq k2) by nra. nra.
    + assert (H : P - P * Zq k1 / N <= P).
      { unfold Qdiv. set (d := / N) in *. assert (0 <= P * Zq k1) by nra. nra. }
      unfold max0. destruct (Qle_bool _ 0); lra.
  - pose proof (Qpos_of_nonneg_neq _ Hr Er) as Hr'.
    set (m := r / 12).
    assert (Hm : 0 < m) by (unfold m; qconst; lra).
    assert (HA : 1 < pypow (1 + m) (T * 12)) by (apply Qpower_1_lt; [lra | lia]).
    assert (HB : pypow (1 + m) k1 <= pypow (1 + m) k2)
      by (apply Qpower_le_compat_l; [lia | lra]).
    assert (HB1 : 1 <= pypow (1 + m) k1) by (apply Qpower_1_le; [lra | lia]).
    rewrite !pydiv_ok by lra.
    set (A := pypow (1 + m) (T * 12)) in *.
    assert (Hd : 0 < / (A - 1)) by (apply Qinv_lt_0_compat; lra).
    assert (Hone : (A - 1) * / (A - 1) == 1) by (apply Qmult_inv_r; lra).
    assert (Hmono : P * (A - pypow (1 + m) k2) / (A - 1)
                    <= P * (A - pypow (1 + m) k1) / (A - 1)).
    { unfold Qdiv. set (d := / (A - 1)) in *.
      assert (P * (A - pypow (1 + m) k2) <= P * (A - pypow (1 + m) k1)) by nra.
      nra. }
    assert (Hle : P * (A - pypow (1 + m) k1) / (A - 1) <= P).
    { unfold Qdiv. set (d := / (A - 1)) in *.
      assert (P * (A - pypow (1 + m) k1) <= P * (A - 1)) by nra.
      assert (P * (A - pypow (1 + m) k1) * d <= P * (A - 1) * d) by nra.
      nra. }
    assert (Hmax : max0 (P * (A - pypow (1 + m) k1) / (A - 1)) <= P).
    { unfold max0. destruct (Qle_bool _ 0); lra. }
    destruct (k1 >=? T * 12)%Z eqn:E1; destruct (k2 >=? T * 12)%Z eqn:E2;
      cbn [rbind]; intros [= <-] [= <-].
    + lra.
    + rewrite Z.geb_leb in E1. apply Z.leb_le in E1.
      rewrite Z.geb_leb in E2. apply Z.leb_gt in E2. lia.
    + split; [lra|]. split; [apply max0_nonneg | exact Hmax].
    + split; [apply max0_nonneg|]. split; [now apply max0_mono | exact Hmax].
Qed.

(** On exact rationals.  With a mortgage rate and a loan principal that are not negative,
    the mortgage balance of a property is computed in every year, is never
    negative and never rises from one year to a later one (for a future
    property: from its purchase year on). *)
Lemma property_mortgage_exact (p : Property) (y1 y2 cy : Z) :
  0 <= mortgage_rate p ->
  match kind p with
  | ExistingProperty _ _ => True
  | FutureProperty =>
      0 <= purchase_price p * (1 - down_payment_percent p) /\
      (purchase_year p <= y1)%Z
  end ->
  (y1 <= y2)%Z ->
  exists b1 b2,
    calculate_mortgage_balance_at_year p y1 cy = Ok b1 /\
    calculate_mortgage_balance_at_year p y2 cy = Ok b2 /\
    0 <= b2 /\ b2 <= b1.
Proof.
  intros Hr Hk Hy. unfold calculate_mortgage_balance_at_year. cbv zeta.
  destruct (kind p) as [cv cmb|].
  - destruct (Qle_bool cmb 0) eqn:Ec; [exists 0, 0; repeat split; lra|].
    qbool.
    set (rem := (mortgage_term_years p - (cy - purchase_year p))%Z).
    destruct (y1 - cy <=? 0)%Z eqn:A1; destruct (y2 - cy <=? 0)%Z eqn:A2;
      try apply Z.leb_le in A1; try apply Z.leb_gt in A1;
      try apply Z.leb_le in A2; try apply Z.leb_gt in A2; try lia.
    + exists cmb, cmb. repeat split; lra.
    + destruct (rem <=? y2 - cy)%Z eqn:B2.
      * exists cmb, 0. repeat split; lra.
      * apply Z.leb_gt in B2.
        destruct (calculate_mortgage_balance_returns cmb (mortgage_rate p) rem
                    ((y2 - cy) * 12) Hr ltac:(lia)) as (b2 & Hb2 & _).
        destruct (calculate_mortgage_balance_returns cmb (mortgage_rate p) rem
                    0 Hr ltac:(lia)) as (b0 & Hb0 & _).
        destruct (mortgage_balance_ordered cmb (mortgage_rate p) rem 0
                    ((y2 - cy) * 12) b0 b2 ltac:(lra) Hr ltac:(lia) ltac:(lia)
                    Hb0 Hb2) as (H1 & H2 & H3).
        exists cmb, b2. repeat split; [exact Hb2 | lra | lra].
    + destruct (rem <=? y1 - cy)%Z eqn:B1; destruct (rem <=? y2 - cy)%Z eqn:B2;
        try apply Z.leb_le in B1; try apply Z.leb_gt in B1;
        try apply Z.leb_le in B2; try apply Z.leb_gt in B2; try lia.
      * exists 0, 0. repeat split; lra.
      * destruct (calculate_mortgage_balance_returns cmb (mortgage_rate p) rem
                    ((y1 - cy) * 12) Hr ltac:(lia)) as (b1 & Hb1 & Hn1).
        exists b1, 0. repeat split; [exact Hb1 | lra | exact Hn1].
      * destruct (calculate_mortgage_balance_returns cmb (mortgage_rate p) rem
                    ((y1 - cy) * 12) Hr ltac:(lia)) as (b1 & Hb1 & _).
        destruct (calculate_mortgage_balance_returns cmb (mortgage_rate p) rem
                    ((y2 - cy) * 12) Hr ltac:(lia)) as (b2 & Hb2 & _).
        destruct (mortgage_balance_ordered cmb (mortgage_rate p) rem
                    ((y1 - cy) * 12) ((y2 - cy) * 12) b1 b2 ltac:(lra) Hr
                    ltac:(lia) ltac:(lia) Hb1 Hb2) as (H1 & H2 & _).
        exists b1, b2. repeat split; assumption.
  - destruct Hk as [HP Hpy].
    set (P := purchase_price p * (1 - down_payment_percent p)) in *.
    replace (y1 <? purchase_year p)%Z with false by (symmetry; apply Z.ltb_ge; lia).
    replace (y2 <? purchase_year p)%Z with false by (symmetry; apply Z.ltb_ge; lia).
    destruct (y1 - purchase_year p >=? mortgage_term_years p)%Z eqn:B1;
      destruct (y2 - purchase_year p >=? mortgage_term_years p)%Z eqn:B2;
      rewrite Z.geb_leb in B1, B2;
      try apply Z.leb_le in B1; try apply Z.leb_gt in B1;
      try apply Z.leb_le in B2; try apply Z.leb_gt in B2; try lia.
    + exists 0, 0. repeat split; lra.
    + destruct (calculate_mortgage_balance_returns P (mortgage_rate p)
                  (mortgage_term_years p) ((y1 - purchase_year p) * 12) Hr
                  ltac:(lia)) as (b1 & Hb1 & Hn1).
      exists b1, 0. repeat split; [exact Hb1 | lra | exact Hn1].
    + destruct (calculate_mortgage_balance_returns P (mortgage_rate p)
                  (mortgage_term_years p) ((y1 - purchase_year p) * 12) Hr
                  ltac:(lia)) as (b1 & Hb1 & _).
      destruct (calculate_mortgage_balance_returns P (mortgage_rate p)
                  (mortgage_term_years p) ((y2 - purchase_year p) * 12) Hr
                  ltac:(lia)) as (b2 & Hb2 & _).
      destruct (mortgage_balance_ordered P (mortgage_rate p) (mortgage_term_years p)
                  ((y1 - purchase_year p) * 12) ((y2 - purchase_year p) * 12)
                  b1 b2 HP Hr ltac:(lia) ltac:(lia) Hb1 Hb2) as (H1 & H2 & _).
      exists b1, b2. repeat split; assumption.
Qed.

(** ** The aggregator *)

Lemma equity_at_year_nonneg (p : Property) (year cy : Z) (e : Q) :
  calculate_equity_at_year p year cy = Ok e -> 0 <= e.
Proof.
  unfold calculate_equity_at_year.
  destruct (is_sold_before_year p year); [intros [= <-]; lra|].
  destruct (calculate_mortgage_balance_at_year p year cy); cbn [rbind];
    [|discriminate].
  intros [= <-]. apply max0_nonneg.
Qed.

Lemma sale_proceeds_nonneg (p : Property) (year cy : Z) (sp : Q) :
  calculate_sale_proceeds p year cy = Ok sp -> 0 <= sp.
Proof.
  unfold calculate_sale_proceeds.
  destruct (negb (is_sold_in_year p year)); [intros [= <-]; lra|].
  destruct (calculate_equity_at_year p year cy) as [e|] eqn:Ee; cbn [rbind];
    [|discriminate].
  apply equity_at_year_nonneg in Ee. intros [= <-].
  unfold closing_cost_rate. nra.
Qed.

Lemma dict_set_Forall {V : Type} (P : string * V -> Prop) (k : string) (v : V)
    (d : dict V) :
  P (k, v) -> Forall P d -> Forall P (dict_set k v d).
Proof.
  intros Hv. induction 1 as [|[k' v'] d Hx Hd IH]; cbn [dict_set].
  - constructor; [exact Hv | constructor].
  - destruct (String.eqb k k'); constructor; auto.
Qed.

Lemma impact_of_property_fine (cy year : Z) (result result' : Impact)
    (prop_data : PropertyData) :
  impact_fine result ->
  impact_of_property cy year result prop_data = Ok result' ->
  impact_fine result'.
Proof.
  intros (Hi & Hs & He). unfold impact_of_property.
  destruct (pd_property_name prop_data); [|intros [= <-]; repeat split; assumption].
  destruct (create_property prop_data) as [p|]; cbn [rbind]; [|discriminate].
  destruct (is_sold_before_year p year);
    [intros [= <-]; repeat split; assumption|].
  destruct (calculate_equity_at_year p year cy) as [ev|] eqn:Ee; cbn [rbind];
    [|discriminate].
  apply equity_at_year_nonneg in Ee.
  destruct (calculate_mortgage_balance_at_year p year cy) as [mb|]; cbn [rbind];
    [|discriminate].
  cbv zeta.
  match goal with
  | |- rbind ?ae _ = _ -> _ => destruct ae as [ae'|]; cbn [rbind]; [|discriminate]
  end.
  assert (Hev : Forall (fun kv => 0 <= snd kv)
                  (dict_set (property_name p) ev (equity_values result)))
    by (apply dict_set_Forall; [exact Ee | exact He]).
  destruct (is_sold_in_year p year).
  - destruct (calculate_sale_proceeds p year cy) as [sp|] eqn:Es; cbn [rbind];
      [|discriminate].
    apply sale_proceeds_nonneg in Es. intros [= <-].
    unfold impact_fine. cbn [annual_income sale_proceeds equity_values].
    repeat split; [exact Hi | lra |].
    apply dict_set_Forall; [cbn [snd]; lra | exact Hev].
  - intros [= <-]. unfold impact_fine.
    cbn [annual_income sale_proceeds equity_values]. repeat split; assumption.
Qed.

(** X6.  Whatever the properties, the aggregate the engine gets for a
    year has no rental income ([annual_income] is 0: no property variant
    ever adds to it), sale proceeds that are not negative and no negative
    equity. *)
Theorem real_estate_impact_invariants
    (properties : list PropertyData) (cy age year : Z) (impact : Impact) :
  calculate_real_estate_impact_v2 properties cy age year = Ok impact ->
  annual_income impact = 0 /\
  0 <= sale_proceeds impact /\
  Forall (fun kv => 0 <= snd kv) (equity_values impact).
Proof.
  unfold calculate_real_estate_impact_v2.
  assert (G : forall result, impact_fine result ->
              impact_loop cy year properties result = Ok impact ->
              impact_fine impact).
  { induction properties as [|pd l IH]; intros result Hr; cbn [impact_loop].
    - now intros [= <-].
    - destruct (impact_of_property cy year result pd) as [r1|] eqn:E1;
        cbn [rbind]; [|discriminate].
      apply IH. eapply impact_of_property_fine; eassumption. }
  apply G. unfold impact_fine, empty_impact.
  cbn [annual_income sale_proceeds equity_values].
  repeat split; [lra | constructor].
Qed.

(** The cabin in 2030, the year of its sale. *)
Lemma real_estate_impact_invariants_witness :
  exists impact,
    calculate_real_estate_impact_v2 [example_cabin_data] 2025 45 2030 = Ok impact /\
    annual_income impact = 0 /\
    0 <= sale_proceeds impact /\
    Forall (fun kv => 0 <= snd kv) (equity_values impact).
Proof.
  destruct (calculate_real_estate_impact_v2 [example_cabin_data] 2025 45 2030)
    as [impact|e] eqn:E.
  - exists impact. split; [reflexivity|].
    exact (real_estate_impact_invariants _ _ _ _ _ E).
  - exfalso. revert E. vm_compute. discriminate.
Defined.

Lemma impact_loop_app (cy year : Z) (l1 l2 : list PropertyData) (result : Impact) :
  impact_loop cy year (l1 ++ l2) result
  = rbind (impact_loop cy year l1 result) (impact_loop cy year l2).
Proof.
  revert result. induction l1 as [|pd l1 IH]; intros result; cbn [app impact_loop].
  - reflexivity.
  - destruct (impact_of_property cy year result pd); cbn [rbind];
      [apply IH | reflexivity].
Qed.

(** X7.  Sold is terminal: in every year after its sale year a property
    changes nothing in the aggregate, whatever its other fields are; the
    aggregate is the one of the list without it. *)
Theorem sold_property_drops_out
    (l1 l2 : list PropertyData) (prop_data : PropertyData)
    (sy cy age year : Z) :
  pd_sale_year prop_data = Some sy -> (sy < year)%Z ->
  calculate_real_estate_impact_v2 (l1 ++ prop_data :: l2) cy age year
  = calculate_real_estate_impact_v2 (l1 ++ l2) cy age year.
Proof.
  intros Hsy Hlt. unfold calculate_real_estate_impact_v2.
  rewrite !impact_loop_app.
  destruct (impact_loop cy year l1 empty_impact) as [r1|]; cbn [rbind];
    [|reflexivity].
  cbn [impact_loop].
  assert (E : impact_of_property cy year r1 prop_data = Ok r1).
  { unfold impact_of_property.
    destruct (pd_property_name prop_data) as [nm|] eqn:En; [|reflexivity].
    unfold create_property. rewrite En. cbn [getitem rbind].
    unfold is_sold_before_year. cbn [sale_year]. rewrite Hsy.
    replace (year >? sy)%Z with true; [reflexivity|].
    symmetry. apply Z.gtb_lt. lia. }
  rewrite E. reflexivity.
Qed.

(** The cabin, sold in 2030, next to the flat in 2031. *)
Lemma sold_property_drops_out_witness :
  pd_sale_year example_cabin_data = Some 2030%Z /\ (2030 < 2031)%Z /\
  calculate_real_estate_impact_v2 ([example_flat] ++ example_cabin_data :: [])
    2025 46 2031
  = calculate_real_estate_impact_v2 ([example_flat] ++ []) 2025 46 2031.
Proof.
  assert (H1 : pd_sale_year example_cabin_data = Some 2030%Z) by reflexivity.
  assert (H2 : (2030 < 2031)%Z) by lia.
  split; [exact H1|]. split; [exact H2|].
  exact (sold_property_drops_out [example_flat] [] example_cabin_data
           2030 2025 46 2031 H1 H2).
Defined.

(** ** More of the expenses *)

(** X9.  The one exception of the planned-expense loop: an item raises
    [ZeroDivisionError] exactly when it has a year and an amount, a
    [repeat_every] of 0 together with a [repeat_until_year], and the year
    asked for is after the item's year.  In every other case the item
    returns a total. *)
Theorem planned_step_raises_iff (year : Z) (total : Q) (planned : Planned) :
  (exists e, planned_step year total planned = Raise e) <->
  (exists pyear amount until,
     pl_year planned = Some pyear /\ pl_amount planned = Some amount /\
     repeat_every planned = Some 0%Z /\ repeat_until_year planned = Some until /\
     (pyear < year)%Z).
Proof.
  unfold planned_step. split.
  - intros [e He].
    destruct (pl_year planned) as [py|]; [|discriminate].
    destruct (pl_amount planned) as [a|]; [|discriminate].
    cbv zeta in He.
    destruct (repeat_every planned) as [ev|]; [|discriminate].
    destruct (repeat_until_year planned) as [u|]; [|discriminate].
    destruct (year - py >? 0)%Z eqn:E1; [|discriminate].
    destruct (ev =? 0)%Z eqn:E2.
    + apply Z.eqb_eq in E2. subst ev. apply Z.gtb_lt in E1.
      exists py, a, u. repeat split; try reflexivity. lia.
    + destruct ((year - py) mod ev =? 0)%Z; [|discriminate].
      destruct (year <=? u)%Z; discriminate.
  - intros (py & a & u & -> & -> & -> & -> & Hlt). cbv zeta.
    replace (year - py >? 0)%Z with true by (symmetry; apply Z.gtb_lt; lia).
    cbn. eauto.
Qed.

(** An item that repeats every 0 years, asked for the year after its own. *)
Lemma planned_step_raises_iff_witness :
  exists e,
    planned_step 2031 0
      {| pl_year := Some 2030%Z; pl_amount := Some 1000;
         recurring_years := None; repeat_every := Some 0%Z;
         repeat_until_year := Some 2040%Z |} = Raise e.
Proof.
  apply (proj2 (planned_step_raises_iff 2031 0 _)).
  exists 2030%Z, 1000, 2040%Z. repeat split.
Defined.

(** X10.  An item that is both inside its window of recurring years and
    on its repeat schedule is charged twice in that year. *)
Theorem planned_step_charges_twice
    (year pyear ry every until : Z) (total amount : Q) (planned : Planned) :
  pl_year planned = Some pyear -> pl_amount planned = Some amount ->
  recurring_years planned = Some ry -> repeat_every planned = Some every ->
  repeat_until_year planned = Some until ->
  (pyear < year < pyear + ry)%Z -> (0 < every)%Z ->
  ((year - pyear) mod every = 0)%Z -> (year <= until)%Z ->
  planned_step year total planned = Ok (total + amount + amount).
Proof.
  intros Hy Ha Hry He Hun Hwin Hev Hmod Hu. unfold planned_step.
  rewrite Hy, Ha, Hry, He, Hun.
  cbv zeta.
  replace (pyear =? year)%Z with false by (symmetry; apply Z.eqb_neq; lia).
  replace (ry >? 1)%Z with true by (symmetry; apply Z.gtb_lt; lia).
  replace (pyear <=? year)%Z with true by (symmetry; apply Z.leb_le; lia).
  replace (year <? pyear + ry)%Z with true by (symmetry; apply Z.ltb_lt; lia).
  replace (year - pyear >? 0)%Z with true by (symmetry; apply Z.gtb_lt; lia).
  replace (every =? 0)%Z with false by (symmetry; apply Z.eqb_neq; lia).
  rewrite Hmod. cbn [andb Z.eqb].
  replace (year <=? until)%Z with true by (symmetry; apply Z.leb_le; lia).
  reflexivity.
Qed.

(** A cost of 1000 for the five years from 2030, repeated every second
    year until 2040: in 2032 it is charged twice. *)
Lemma planned_step_charges_twice_witness :
  planned_step 2032 0
    {| pl_year := Some 2030%Z; pl_amount := Some 1000;
       recurring_years := Some 5%Z; repeat_every := Some 2%Z;
       repeat_until_year := Some 2040%Z |} = Ok (0 + 1000 + 1000).
Proof.
  apply (planned_step_charges_twice 2032 2030 5 2 2040 0 1000);
    try reflexivity; lia.
Defined.

Lemma expense_step_grows (s : Scenario) (age year : Z) (total : Q) (item : Item) :
  total <= expense_step s age year total item.
Proof.
  unfold expense_step, expense_try.
  destruct (person item), (start_age item) as [sa|], (end_age item) as [ea|],
    (annual_amount item) as [amt|], (growth_rate item) as [gr|]; try lra.
  cbv zeta. destruct (sa >? ea)%Z; [lra|].
  destruct (_ && _); [|lra].
  destruct (Qlt_bool _ 0) eqn:E; qbool; lra.
Qed.

(** X11.  The loop over the recurring expenses never raises and never
    lowers the running total: each item adds an amount that is not
    negative (a negative amount is replaced by 0) or is skipped. *)
Theorem recurring_loop_never_lowers
    (s : Scenario) (age year : Z) (items : list Item) (total : Q) :
  total <= recurring_loop s age year items total.
Proof.
  unfold recurring_loop. revert total.
  induction items as [|item items IH]; intros total; cbn [fold_left]; [lra|].
  pose proof (expense_step_grows s age year total item).
  pose proof (IH (expense_step s age year total item)). lra.
Qed.

(** ** More of the projection engine *)

Lemma income_step_ok (s : Scenario) (age year : Z) (total : Q) (item : Item) :
  income_item_ok item -> 0 <= total ->
  exists total', income_step s age year total item = Ok total' /\ 0 <= total'.
Proof.
  intros (sa & ea & amt & gr & Hs & He & Ha & Hg & Hamt & Hgr) Ht.
  unfold income_step. cbv zeta. rewrite Hs, He, Ha, Hg. cbn [getitem rbind].
  destruct (sa <=? _)%Z; [|eauto].
  destruct (_ <=? ea)%Z; cbn [rbind]; [|eauto].
  eexists. split; [reflexivity|].
  assert (0 <= pypow (1 + gr / 100) (age_of (people s) (s_current_year s)
                                       (get_default (person item) "Joint"%string)
                                       age year - sa))
    by (apply Qpower_0_le; qconst; lra).
  nra.
Qed.

Lemma income_loop_ok (s : Scenario) (age year : Z) (items : list Item) (total : Q) :
  Forall income_item_ok items -> 0 <= total ->
  exists total', income_loop s age year items total = Ok total' /\ 0 <= total'.
Proof.
  intros Hall. revert total.
  induction Hall as [|item items Hi _ IH]; intros total Ht; cbn [income_loop];
    [eauto|].
  destruct (income_step_ok s age year total item Hi Ht) as (t1 & -> & Ht1).
  cbn [rbind]. now apply IH.
Qed.

(** The records of a run carry the ages of the run, in order, when every
    year's record carries its age. *)
Lemma run_years_ages
    (body : RunState -> Z -> res (YearRecord * RunState)) :
  (forall st age r st', body st age = Ok (r, st') -> yr_age r = age) ->
  forall ages st recs st',
    run_years body ages st = Ok (recs, st') -> map yr_age recs = ages.
Proof.
  intros Hbody. induction ages as [|age ages IH]; intros st recs st'; cbn [run_years].
  - now intros [= <- <-].
  - destruct (body st age) as [[r st1]|] eqn:Eb; cbn [rbind]; [|discriminate].
    destruct (run_years body ages st1) as [[recs1 st2]|] eqn:Er; cbn [rbind];
      [|discriminate].
    intros [= <- <-]. cbn [map]. f_equal; [eapply Hbody | eapply IH]; eassumption.
Qed.

(** X13.  A projection that returns has exactly one record per age from
    [current_age] to [max_projection_age], in order (none when
    [max_projection_age < current_age]); each record's year is the
    current year plus the years elapsed, and its net worth is its
    portfolio balance plus its real-estate equity. *)
Theorem projection_has_one_record_per_age (s : Scenario) (recs : list YearRecord) :
  project_scenario s = Ok recs ->
  map yr_age recs = age_range s /\
  length recs = Z.to_nat (max_projection_age s + 1 - s_current_age s) /\
  Forall (fun r =>
            yr_year r = (s_current_year s + (yr_age r - s_current_age s))%Z /\
            total_net_worth r = portfolio_balance r + real_estate_equity r) recs.
Proof.
  unfold project_scenario.
  destruct (run_years (project_year s) (age_range s) (initial_state s))
    as [[projections st']|] eqn:Er; cbn [rbind]; [|discriminate].
  intros [= <-].
  assert (Hages : map yr_age projections = age_range s).
  { apply (run_years_ages (project_year s)) with (2 := Er).
    intros st age r st1. unfold project_year. cbv zeta.
    destruct (year_cashflow s age _ st) as [[[[[inc exp] sales] eq] c1]|];
      cbn [rbind]; [|discriminate].
    destruct (growth_loop _ _ _ _ _ _ _) as [[grown tr] tb].
    now intros [= <- _]. }
  split; [exact Hages|]. split.
  - rewrite <- (length_map yr_age), Hages. unfold age_range. apply length_seqZ.
  - refine (proj1 (run_years_invariant (project_year s) (fun _ => True) _ _
                     (age_range s) (initial_state s) projections st' I Er)).
    intros st age r st1 _. unfold project_year. cbv zeta.
    destruct (year_cashflow s age _ st) as [[[[[inc exp] sales] eq] c1]|];
      cbn [rbind]; [|discriminate].
    destruct (growth_loop _ _ _ _ _ _ _) as [[grown tr] tb].
    intros [= <- _]. cbn. repeat split.
Qed.

(** The legacy scenario: one record, for the age of 65. *)
Lemma projection_has_one_record_per_age_witness :
  exists recs,
    project_scenario legacy_scenario = Ok recs /\
    map yr_age recs = [65]%Z.
Proof.
  destruct (project_scenario legacy_scenario) as [recs|e] eqn:E.
  - exists recs. split; [reflexivity|].
    exact (proj1 (projection_has_one_record_per_age legacy_scenario recs E)).
  - exfalso. revert E. vm_compute. discriminate.
Defined.

(** The growth loop adds to its two running totals the returns and the
    post-growth balances; the balances grow by the returns. *)
Lemma growth_loop_accounts people cy age year d tr0 tb0 grown tr tb :
  growth_loop people cy age year d tr0 tb0 = (grown, tr, tb) ->
  tb - tb0 == total_balance d + (tr - tr0).
Proof.
  revert tr0 tb0 grown tr tb.
  induction d as [|[k a] d IH]; intros tr0 tb0 grown tr tb; cbn [growth_loop].
  - intros [= <- <- <-]. unfold total_balance. cbn. ring.
  - cbv zeta.
    destruct (growth_loop people cy age year d _ _) as [[g1 tr1] tb1] eqn:E.
    intros [= <- <- <-]. apply IH in E.
    unfold total_balance, dict_values in *. cbn [map snd balance set_balance] in *.
    rewrite pysum_cons.
    set (ret := balance a * _) in *. lra.
Qed.

Lemma pysum_zero_of_nonneg (xs : list Q) :
  Forall (fun x => 0 <= x) xs -> pysum xs <= 0 -> Forall (fun x => x == 0) xs.
Proof.
  induction 1 as [|x xs Hx Hxs IH]; [constructor|].
  rewrite pysum_cons. intros Hsum.
  pose proof (pysum_nonneg xs Hxs).
  constructor; [lra | apply IH; lra].
Qed.

(** The distribution of a cashflow over accounts that are fine and not
    empty: the total moves by the cashflow at least, and by exactly the
    cashflow when it is not negative. *)
Lemma distribute_total (c T : Q) (d : dict AccountData) :
  Forall account_ok (dict_values d) -> d <> [] -> T == total_balance d ->
  total_balance d + c <= total_balance (distribute c T d) /\
  (0 <= c -> total_balance (distribute c T d) == total_balance d + c).
Proof.
  intros Hok Hne HT. unfold distribute.
  destruct (Qeq_bool c 0) eqn:Ec; cbn [negb]; qbool.
  - split; [lra | intros _; lra].
  - destruct (Qlt_bool 0 T) eqn:ET; qbool.
    + unfold total_balance in *. rewrite dict_values_map.
      rewrite pro_rata_sum by lra.
      assert (Hf : 0 <= pysum (map (floored_of c T) (dict_values d))).
      { apply pysum_nonneg, Forall_map, Forall_forall. intros a _.
        apply floored_of_nonneg. }
      assert (E : c * (pysum (map balance (dict_values d)) / T) == c).
      { rewrite <- HT. field. lra. }
      split; [lra|]. intros Hc.
      assert (Hz : pysum (map (floored_of c T) (dict_values d)) == 0).
      { clear Hf E HT Hne. induction Hok as [|a l [Ha _] _ IH]; [reflexivity|].
        cbn [map]. rewrite pysum_cons, IH, floored_of_zero; [ring|].
        assert (Hd : 0 < / T) by (apply Qinv_lt_0_compat; lra).
        unfold Qdiv. set (dd := / T) in *.
        assert (0 <= balance a * dd) by nra. nra. }
      lra.
    + assert (Hall : Forall (fun x => x == 0) (map balance (dict_values d))).
      { apply pysum_zero_of_nonneg.
        - apply Forall_map. eapply Forall_impl; [exact Hok|]. now intros a [Hb _].
        - unfold total_balance in HT. lra. }
      destruct (Qlt_bool 0 c) eqn:Ecp; qbool.
      * destruct d as [|[k a] d]; [contradiction|].
        unfold total_balance, dict_values in *. cbn [map snd balance set_balance] in *.
        inversion Hall as [|? ? Ha0 _]; subst.
        rewrite !pysum_cons. rewrite max0_id by lra.
        split; [lra | intros _; lra].
      * split; [lra | intros Hc; exfalso; apply Ec; lra].
Qed.

(** X14.  The accounting of one projected year, for accounts that are
    fine (balances not negative, rates at least -100 percent) and not
    empty: the emitted portfolio balance is at least last year's total
    plus the year's return amount plus the year's contribution, and it is
    exactly that sum when the contribution is not negative.  (With a
    negative contribution the difference is what the flooring at 0 left
    unpaid.) *)
Theorem year_accounting_identity
    (s : Scenario) (st st' : RunState) (age : Z) (r : YearRecord) :
  Forall account_ok (dict_values (st_accounts st)) ->
  st_accounts st <> [] ->
  project_year s st age = Ok (r, st') ->
  total_balance (st_accounts st) + portfolio_return_amount r
  + portfolio_contribution r <= portfolio_balance r /\
  (0 <= portfolio_contribution r ->
   portfolio_balance r ==
   total_balance (st_accounts st) + portfolio_return_amount r
   + portfolio_contribution r).
Proof.
  intros Hok Hne. unfold project_year. cbv zeta.
  destruct (year_cashflow s age _ st) as [[[[[inc exp] sales] eq] c1]|];
    cbn [rbind]; [|discriminate].
  destruct (growth_loop _ _ _ _ _ _ _) as [[grown tr] tb] eqn:Eg.
  intros [= <- _].
  cbn [portfolio_balance portfolio_return_amount portfolio_contribution make_record].
  pose proof (growth_loop_accounts _ _ _ _ _ _ _ _ _ _ Eg) as Hacc.
  pose proof (growth_loop_total _ _ _ _ _ _ _ _ _ _ Eg) as Htot.
  pose proof (growth_loop_ok _ _ _ _ _ _ _ _ _ _ Hok Eg) as Hgok.
  assert (Hgne : grown <> []).
  { destruct (st_accounts st) as [|[k a] d]; [contradiction|].
    cbn [growth_loop] in Eg. cbv zeta in Eg.
    destruct (growth_loop _ _ _ _ d _ _) as [[g1 tr1] tb1].
    injection Eg as <- _ _. discriminate. }
  destruct (distribute_total (inc - exp + sales) tb grown Hgok Hgne ltac:(lra))
    as [Hle Heq].
  split; [lra|]. intros Hc. rewrite (Heq Hc). lra.
Qed.

(** The legacy scenario's only year. *)
Lemma year_accounting_identity_witness :
  exists r st',
    project_year legacy_scenario (initial_state legacy_scenario) 65 = Ok (r, st') /\
    portfolio_balance r ==
    total_balance (st_accounts (initial_state legacy_scenario))
    + portfolio_return_amount r + portfolio_contribution r.
Proof.
  assert (Hok : Forall account_ok
                  (dict_values (st_accounts (initial_state legacy_scenario)))).
  { repeat constructor; cbn; discriminate. }
  assert (Hne : st_accounts (initial_state legacy_scenario) <> [])
    by discriminate.
  destruct (project_year legacy_scenario (initial_state legacy_scenario) 65)
    as [[r st']|e] eqn:E.
  - exists r, st'. split; [reflexivity|].
    destruct (year_accounting_identity _ _ _ _ _ Hok Hne E) as [_ Heq].
    apply Heq. revert E. vm_compute. intros [= <- _]. discriminate.
  - exfalso. revert E. vm_compute. discriminate.
Defined.

(** X15.  A scenario without any account has a portfolio balance and a
    return amount of 0 in every year, whatever its cashflow: a surplus
    with no account to receive it is dropped. *)
Theorem no_account_no_balance (s : Scenario) (recs : list YearRecord) :
  accounts s = None -> account_details s = [] ->
  project_scenario s = Ok recs ->
  Forall (fun r => portfolio_balance r = 0 /\ portfolio_return_amount r = 0) recs.
Proof.
  intros Ha Hd. unfold project_scenario.
  destruct (run_years (project_year s) (age_range s) (initial_state s))
    as [[projections st']|] eqn:Er; cbn [rbind]; [|discriminate].
  intros [= <-].
  refine (proj1 (run_years_invariant (project_year s)
                   (fun st => st_accounts st = []) _ _
                   (age_range s) (initial_state s) projections st' _ Er)).
  - intros st age r st1 Hst. unfold project_year. cbv zeta. rewrite Hst.
    destruct (year_cashflow s age _ st) as [[[[[inc exp] sales] eq] c1]|];
      cbn [rbind growth_loop]; [|discriminate].
    assert (E : distribute (inc - exp + sales) 0 [] = []).
    { unfold distribute. destruct (negb _); [|reflexivity].
      destruct (Qlt_bool 0 0); [reflexivity|].
      destruct (Qlt_bool 0 _); reflexivity. }
    rewrite E. intros [= <- <-]. cbn. repeat split.
  - unfold initial_state, init_account_balances. rewrite Ha, Hd. reflexivity.
Qed.

(** A household with a salary, living costs and no account. *)
Lemma no_account_no_balance_witness :
  let s :=
    {| s_current_age := 60; max_projection_age := 61; s_current_year := 2025;
       people := []; accounts := None; account_details := [];
       income_sources := [example_salary]; retirement_income := [];
       recurring_expenses := [example_living_costs]; planned_expenses := [];
       real_estate := [] |} in
  exists recs,
    project_scenario s = Ok recs /\
    Forall (fun r => portfolio_balance r = 0 /\ portfolio_return_amount r = 0) recs /\
    Forall (fun r => portfolio_contribution r == 10000) recs.
Proof.
  intros s.
  destruct (project_scenario s) as [recs|e] eqn:E.
  - exists recs. split; [reflexivity|].
    split; [exact (no_account_no_balance s recs eq_refl eq_refl E)|].
    revert E. vm_compute. intros [= <-]. repeat constructor.
  - exfalso. revert E. vm_compute. discriminate.
Defined.

Lemma dict_get_set_ne {V : Type} (k k' : string) (v : V) (d : dict V) :
  String.eqb k' k = false ->
  dict_get k' (dict_set k v d) = dict_get k' d.
Proof.
  intros Hne. induction d as [|[k0 v0] d IH]; cbn [dict_set dict_get].
  - now rewrite Hne.
  - destruct (String.eqb k k0) eqn:E; cbn [dict_get].
    + apply String.eqb_eq in E. subst k0. now rewrite Hne.
    + now rewrite IH.
Qed.

Lemma dict_set_keys {V : Type} (k x : string) (v : V) (d : dict V) :
  In x (map fst (dict_set k v d)) -> x = k \/ In x (map fst d).
Proof.
  induction d as [|[k0 v0] d IH]; cbn [dict_set map fst In].
  - intros [<-|[]]. now left.
  - destruct (String.eqb k k0) eqn:E; cbn [map fst In].
    + intros [<-|H]; [now left | now right; right].
    + intros [<-|H]; [now right; left|].
      destruct (IH H) as [->|H']; [now left | now right; right].
Qed.

Lemma dict_set_NoDup {V : Type} (k : string) (v : V) (d : dict V) :
  List.NoDup (map fst d) -> List.NoDup (map fst (dict_set k v d)).
Proof.
  induction d as [|[k0 v0] d IH]; cbn [dict_set map fst]; intros Hd.
  - constructor; [intros [] | constructor].
  - inversion Hd as [|? ? Hnin Hd']; subst.
    destruct (String.eqb k k0) eqn:E; cbn [map fst].
    + apply String.eqb_eq in E. subst k0. constructor; assumption.
    + constructor; [|now apply IH].
      intros Hin. destruct (dict_set_keys _ _ _ _ Hin) as [->|H]; [|contradiction].
      now rewrite String.eqb_refl in E.
Qed.

Lemma find_snoc {A : Type} (f : A -> bool) (l : list A) (a : A) :
  List.find f (l ++ [a])
  = match List.find f l with
    | Some x => Some x
    | None => if f a then Some a else None
    end.
Proof.
  induction l as [|x l IH]; cbn [app List.find]; [reflexivity|].
  destruct (f x); [reflexivity | exact IH].
Qed.

(** X16.  The working accounts are keyed by type and owner: the keys are
    distinct, and when several entries of [account_details] share a key
    the entry kept under it is the last of them; the earlier ones (and
    their balances) are dropped. *)
Theorem account_balances_last_wins (s : Scenario) :
  accounts s = None ->
  List.NoDup (map fst (init_account_balances s)) /\
  forall k,
    dict_get k (init_account_balances s)
    = option_map detailed_account
        (List.find (fun a => String.eqb k (account_key a))
                   (rev (account_details s))).
Proof.
  intros Ha. unfold init_account_balances. rewrite Ha.
  set (step := fun (d : dict AccountData) (account : AccountDetail) =>
                 dict_set (account_key account) (detailed_account account) d).
  assert (G : forall l d,
            (List.NoDup (map fst d) -> List.NoDup (map fst (fold_left step l d))) /\
            forall k,
              dict_get k (fold_left step l d)
              = match List.find (fun a => String.eqb k (account_key a)) (rev l) with
                | Some a => Some (detailed_account a)
                | None => dict_get k d
                end).
  { induction l as [|a l IH]; intros d; cbn [fold_left rev].
    - split; [trivial | reflexivity].
    - destruct (IH (step d a)) as [IH1 IH2]. split.
      + intros Hd. apply IH1. unfold step. now apply dict_set_NoDup.
      + intros k. rewrite IH2, find_snoc.
        destruct (List.find _ (rev l)); [reflexivity|].
        unfold step. destruct (String.eqb k (account_key a)) eqn:E.
        * apply String.eqb_eq in E. subst k. apply dict_get_set_eq.
        * now apply dict_get_set_ne. }
  destruct (G (account_details s) []) as [G1 G2]. split.
  - apply G1. constructor.
  - intros k. rewrite G2. destruct (List.find _ _); reflexivity.
Qed.

(** Two 401k accounts of the same owner, 100000 and then 5000: the
    working copy under their key holds 5000. *)
Lemma account_balances_last_wins_witness :
  let second :=
    {| account_type := "401k"; ad_account_owner := "Joint";
       current_balance := 5000;
       ad_aggressive_rate := None; ad_conservative_rate := None;
       ad_transition_start_age := None; ad_transition_end_age := None |} in
  let s :=
    {| s_current_age := 60; max_projection_age := 61; s_current_year := 2025;
       people := []; accounts := None;
       account_details := [example_account; second];
       income_sources := []; retirement_income := [];
       recurring_expenses := []; planned_expenses := []; real_estate := [] |} in
  accounts s = None /\
  dict_get "401k_Joint" (init_account_balances s) = Some (detailed_account second).
Proof.
  intros second s.
  assert (H : accounts s = None) by reflexivity.
  split; [exact H|].
  rewrite (proj2 (account_balances_last_wins s H) "401k_Joint"%string).
  reflexivity.
Defined.

(** ** Trials against the deterministic run *)

Lemma trial_year_cashflow
    (volatility_of : AccountData -> Q -> Q) (noise : Z -> nat -> Q)
    (s : Scenario) (st st' : RunState) (age : Z) :
  same_cashflow_state st st' ->
  res_equiv (fun x y => same_cashflow (fst x) (fst y)
                        /\ same_cashflow_state (snd x) (snd y))
            (simulate_year volatility_of noise s st age)
            (project_year s st' age).
Proof.
  intros [Hc He]. unfold simulate_year, project_year, year_cashflow.
  rewrite Hc, He. cbv zeta.
  destruct (calculate_total_income s age _ (st_cache st')) as [[inc c1]|];
    cbn [rbind]; [|reflexivity].
  destruct (calculate_total_expenses s age _ c1) as [[exp c2]|];
    cbn [rbind]; [|reflexivity].
  destruct (rates_loop volatility_of _ _ _ _ _) as [rates vols].
  destruct (real_estate s).
  - cbn [rbind].
    destruct (apply_returns _ _ _ _) as [[g1 r1] b1].
    destruct (growth_loop _ _ _ _ _ _ _) as [[g2 r2] b2].
    cbn. repeat split.
  - destruct (get_real_estate_impact c2 _ _ _ _) as [[im c3]|]; cbn [rbind];
      [|reflexivity].
    destruct (apply_returns _ _ _ _) as [[g1 r1] b1].
    destruct (growth_loop _ _ _ _ _ _ _) as [[g2 r2] b2].
    cbn. repeat split.
Qed.

Lemma trial_run_cashflow
    (volatility_of : AccountData -> Q -> Q) (noise : Z -> nat -> Q)
    (s : Scenario) (ages : list Z) :
  forall st st' : RunState,
    same_cashflow_state st st' ->
    res_equiv (fun x y => Forall2 same_cashflow (fst x) (fst y)
                          /\ same_cashflow_state (snd x) (snd y))
              (run_years (simulate_year volatility_of noise s) ages st)
              (run_years (project_year s) ages st').
Proof.
  induction ages as [|age ages IH]; intros st st' Hst; cbn [run_years].
  - cbn. split; [constructor | exact Hst].
  - pose proof (trial_year_cashflow volatility_of noise s st st' age Hst) as Hy.
    destruct (simulate_year volatility_of noise s st age) as [[r1 st1]|e1];
      destruct (project_year s st' age) as [[r2 st2]|e2]; cbn in Hy;
      try contradiction; cbn [rbind]; [|exact Hy].
    destruct Hy as [Hr Hst1]. specialize (IH st1 st2 Hst1).
    destruct (run_years (simulate_year volatility_of noise s) ages st1)
      as [[rs1 st1']|e1];
      destruct (run_years (project_year s) ages st2) as [[rs2 st2']|e2];
      cbn in IH; try contradiction; cbn [rbind]; [|exact IH].
    destruct IH as [Hrs Hst']. cbn. split; [constructor; assumption | exact Hst'].
Qed.

(** A trial and the deterministic run raise together, with the same
    exception of the cashflow code, and agree on the cashflow columns
    when they return. *)
Lemma trial_cashflow_equiv
    (volatility_of : AccountData -> Q -> Q) (noise : Z -> nat -> Q)
    (s : Scenario) (sim_id : Z) :
  res_equiv (fun sims recs => Forall2 same_cashflow (map sr_record sims) recs)
            (run_single_simulation_with volatility_of noise s sim_id)
            (project_scenario s).
Proof.
  unfold run_single_simulation_with, project_scenario.
  assert (Hinit : same_cashflow_state (mc_initial_state s) (initial_state s))
    by (split; reflexivity).
  pose proof (trial_run_cashflow volatility_of noise s (age_range s) _ _ Hinit) as H.
  destruct (run_years (simulate_year volatility_of noise s) _ _) as [[rs1 st1]|e1];
    destruct (run_years (project_year s) _ _) as [[rs2 st2]|e2];
    cbn in H; try contradiction; cbn [rbind res_equiv]; [|exact H].
  destruct H as [H _]. rewrite map_map. cbn [sr_record]. now rewrite map_id.
Qed.

(** X17.  Randomness touches returns and balances only.  For every
    scenario, every volatility and every random stream, when a trial
    returns, the deterministic run of the same scenario returns too, and
    their records agree year by year on age, year, income, expenses, net
    cashflow, real-estate sales, portfolio contribution and real-estate
    equity. *)
Theorem trial_cashflow_is_deterministic
    (volatility_of : AccountData -> Q -> Q) (noise : Z -> nat -> Q)
    (s : Scenario) (sim_id : Z) (sims : list SimRecord) :
  run_single_simulation_with volatility_of noise s sim_id = Ok sims ->
  exists recs,
    project_scenario s = Ok recs /\
    Forall2 same_cashflow (map sr_record sims) recs.
Proof.
  intros Hrun.
  pose proof (trial_cashflow_equiv volatility_of noise s sim_id) as H.
  rewrite Hrun in H.
  destruct (project_scenario s) as [recs|e]; cbn in H; [|contradiction].
  exists recs. split; [reflexivity | exact H].
Qed.

(** The sale scenario, with the engine's own volatility and every draw
    at one standard deviation below the mean. *)
Lemma trial_cashflow_is_deterministic_witness :
  exists sims recs,
    run_single_simulation (fun _ _ => -1) sale_scenario 3 = Ok sims /\
    project_scenario sale_scenario = Ok recs /\
    Forall2 same_cashflow (map sr_record sims) recs.
Proof.
  destruct (run_single_simulation (fun _ _ => -1) sale_scenario 3)
    as [sims|e] eqn:E.
  - destruct (trial_cashflow_is_deterministic _ _ _ _ _ E) as (recs & Hp & Hc).
    exists sims, recs. split; [reflexivity|]. split; assumption.
  - exfalso. revert E. vm_compute. discriminate.
Defined.

(** X18.  A trial that returns has one record per age of the run, in
    order, each stamped with the trial's id. *)
Theorem trial_records_are_stamped
    (volatility_of : AccountData -> Q -> Q) (noise : Z -> nat -> Q)
    (s : Scenario) (sim_id : Z) (sims : list SimRecord) :
  run_single_simulation_with volatility_of noise s sim_id = Ok sims ->
  map (fun m => yr_age (sr_record m)) sims = age_range s /\
  Forall (fun m => simulation_id m = sim_id) sims.
Proof.
  unfold run_single_simulation_with.
  destruct (run_years (simulate_year volatility_of noise s) (age_range s)
              (mc_initial_state s)) as [[projections st']|] eqn:Er;
    cbn [rbind]; [|discriminate].
  intros [= <-]. split.
  - rewrite map_map. cbn [sr_record].
    apply (run_years_ages (simulate_year volatility_of noise s)) with (2 := Er).
    intros st age r st1. unfold simulate_year. cbv zeta.
    destruct (year_cashflow s age _ st) as [[[[[inc exp] sales] eq] c1]|];
      cbn [rbind]; [|discriminate].
    destruct (rates_loop _ _ _ _ _ _) as [rates vols].
    destruct (apply_returns _ _ _ _) as [[g1 r1] b1].
    now intros [= <- _].
  - apply Forall_map, Forall_forall. intros r _. reflexivity.
Qed.

(** The legacy scenario, trial 7, with the engine's own volatility. *)
Lemma trial_records_are_stamped_witness :
  exists sims,
    run_single_simulation (fun _ _ => 1) legacy_scenario 7 = Ok sims /\
    map (fun m => yr_age (sr_record m)) sims = age_range legacy_scenario /\
    Forall (fun m => simulation_id m = 7%Z) sims.
Proof.
  destruct (run_single_simulation (fun _ _ => 1) legacy_scenario 7)
    as [sims|e] eqn:E.
  - exists sims. split; [reflexivity|].
    exact (trial_records_are_stamped _ _ _ _ _ E).
  - exfalso. revert E. vm_compute. discriminate.
Defined.

(** X19.  The assumed volatility is at least 2 percent for a mean return
    that is not negative, and it is non-decreasing up to a tolerance of
    0.05 percentage points: a higher mean return never gets a volatility
    lower by more than 0.0005. *)
Theorem volatility_nearly_monotone (r1 r2 : Q) :
  r1 <= r2 ->
  calculate_volatility_from_return r1
  <= calculate_volatility_from_return r2 + (5 # 10000) /\
  (0 <= r1 -> (2 # 100) <= calculate_volatility_from_return r1).
Proof.
  intros H. unfold calculate_volatility_from_return. cbv zeta. split.
  - destruct (Qle_bool 8 (r1 * 100)) eqn:A1;
      [|destruct (Qle_bool 7 (r1 * 100)) eqn:A2;
        [|destruct (Qle_bool (55 # 10) (r1 * 100)) eqn:A3;
          [|destruct (Qle_bool 4 (r1 * 100)) eqn:A4]]];
      (destruct (Qle_bool 8 (r2 * 100)) eqn:B1;
        [|destruct (Qle_bool 7 (r2 * 100)) eqn:B2;
          [|destruct (Qle_bool (55 # 10) (r2 * 100)) eqn:B3;
            [|destruct (Qle_bool 4 (r2 * 100)) eqn:B4]]]);
      qbool; lra.
  - intros H0.
    destruct (Qle_bool 8 (r1 * 100)) eqn:A1;
      [|destruct (Qle_bool 7 (r1 * 100)) eqn:A2;
        [|destruct (Qle_bool (55 # 10) (r1 * 100)) eqn:A3;
          [|destruct (Qle_bool 4 (r1 * 100)) eqn:A4]]];
      qbool; lra.
Qed.

(** Mean returns of 6.99 and 7 percent. *)
Lemma volatility_nearly_monotone_witness :
  (699 # 10000) <= (7 # 100) /\
  calculate_volatility_from_return (699 # 10000)
  <= calculate_volatility_from_return (7 # 100) + (5 # 10000).
Proof.
  assert (H : (699 # 10000) <= (7 # 100)) by (vm_compute; discriminate).
  split; [exact H|].
  exact (proj1 (volatility_nearly_monotone _ _ H)).
Defined.

(** ** Success metrics, the cache of ages, the income split and the clipped return *)

(** The positive and the negative entries of a list split its sum. *)
Lemma pysum_split_by_sign {A : Type} (f : A -> Q) (l : list A) :
  0 <= pysum (map f (List.filter (fun r => Qlt_bool 0 (f r)) l)) /\
  pysum (map f (List.filter (fun r => Qlt_bool (f r) 0) l)) <= 0 /\
  pysum (map f (List.filter (fun r => Qlt_bool 0 (f r)) l))
  + pysum (map f (List.filter (fun r => Qlt_bool (f r) 0) l))
  == pysum (map f l).
Proof.
  induction l as [|x l (IH1 & IH2 & IH3)]; cbn [List.filter map].
  - rewrite pysum_nil. repeat split; lra.
  - destruct (Qlt_bool 0 (f x)) eqn:E1; destruct (Qlt_bool (f x) 0) eqn:E2;
      qbool; cbn [map]; rewrite ?pysum_cons; repeat split; lra.
Qed.

(** X20.  The metrics split the yearly contributions by sign and lose
    nothing: [total_contributions] and [total_withdrawals] are not
    negative, and their difference is the sum of the
    [portfolio_contribution] column. *)
Theorem success_metrics_split_contributions (projection_df : list YearRecord) :
  0 <= total_contributions (calculate_success_metrics projection_df) /\
  0 <= total_withdrawals (calculate_success_metrics projection_df) /\
  total_contributions (calculate_success_metrics projection_df)
  - total_withdrawals (calculate_success_metrics projection_df)
  == pysum (map portfolio_contribution projection_df).
Proof.
  destruct projection_df as [|first rest].
  - cbn. repeat split; lra.
  - unfold calculate_success_metrics.
    cbn [total_contributions total_withdrawals].
    destruct (pysum_split_by_sign portfolio_contribution (first :: rest))
      as (H1 & H2 & H3).
    split; [exact H1|]. split; [apply Qabs_nonneg|].
    rewrite (Qabs_neg _ H2). lra.
Qed.

(** Every emitted balance of the deterministic run is at least 0 when the
    scenario's accounts are fine. *)
Lemma projection_balances_nonneg (s : Scenario) (recs : list YearRecord) :
  scenario_accounts_ok s -> project_scenario s = Ok recs ->
  Forall (fun r => 0 <= portfolio_balance r) recs.
Proof.
  intros Hs. unfold project_scenario.
  destruct (run_years (project_year s) (age_range s) (initial_state s))
    as [[projections st']|] eqn:Er; cbn [rbind]; [|discriminate].
  intros [= <-].
  assert (G : Forall (fun r => 0 <= portfolio_balance r) projections /\
              Forall account_ok (dict_values (st_accounts st'))).
  { apply (run_years_invariant (project_year s)
             (fun st => Forall account_ok (dict_values (st_accounts st)))
             (fun r => 0 <= portfolio_balance r)) with (3 := Er).
    - intros st age r st1 Hst Hy. eapply project_year_ok; eassumption.
    - cbn. now apply init_account_balances_ok. }
  exact (proj1 G).
Qed.

(** Rows with a balance that is not negative are solvent or depleted. *)
Lemma solvent_or_depleted (l : list YearRecord) :
  Forall (fun r => 0 <= portfolio_balance r) l ->
  (length (List.filter (fun r => Qlt_bool 0 (portfolio_balance r)) l)
   + length (List.filter (fun r => Qeq_bool (portfolio_balance r) 0) l)
   = length l)%nat.
Proof.
  induction 1 as [|r l Hr _ IH]; cbn [List.filter length]; [reflexivity|].
  destruct (Qlt_bool 0 (portfolio_balance r)) eqn:E1;
    destruct (Qeq_bool (portfolio_balance r) 0) eqn:E2; qbool;
    cbn [length]; try lia; exfalso; lra.
Qed.

(** X21.  The metrics of a deterministic projection whose accounts are
    fine: the solvent years are at most the projected years, and there is
    no first deficit age exactly when every projected year is solvent. *)
Theorem projection_solvency_metrics (s : Scenario) (recs : list YearRecord) :
  scenario_accounts_ok s -> project_scenario s = Ok recs ->
  (years_solvent (calculate_success_metrics recs) <= length recs)%nat /\
  (first_deficit_age (calculate_success_metrics recs) = None <->
   years_solvent (calculate_success_metrics recs) = length recs).
Proof.
  intros Hs Hp.
  pose proof (projection_balances_nonneg s recs Hs Hp) as Hnn.
  pose proof (solvent_or_depleted recs Hnn) as Hsum.
  destruct recs as [|first rest]; [cbn; split; [lia | tauto]|].
  unfold calculate_success_metrics. cbn [years_solvent first_deficit_age].
  destruct (List.filter (fun r => Qeq_bool (portfolio_balance r) 0) (first :: rest))
    as [|d ds] eqn:Ed; cbn [length] in Hsum |- *.
  - split; [lia|]. split; [intros _; lia | reflexivity].
  - split; [lia|]. split; [discriminate | intros H; exfalso; lia].
Qed.

(** The legacy scenario: one projected year, solvent. *)
Lemma projection_solvency_metrics_witness :
  scenario_accounts_ok legacy_scenario /\
  exists recs,
    project_scenario legacy_scenario = Ok recs /\
    (first_deficit_age (calculate_success_metrics recs) = None <->
     years_solvent (calculate_success_metrics recs) = length recs).
Proof.
  assert (Hs : scenario_accounts_ok legacy_scenario).
  { repeat constructor; cbn; discriminate. }
  split; [exact Hs|].
  destruct (project_scenario legacy_scenario) as [recs|e] eqn:E.
  - exists recs. split; [reflexivity|].
    exact (proj2 (projection_solvency_metrics legacy_scenario recs Hs E)).
  - exfalso. revert E. vm_compute. discriminate.
Defined.

(** X22.  The cache of ages answers a (name, year) pair once and for
    all: a call only adds to the cache, and after a call has answered,
    every later call for the same name and year returns the same answer
    and leaves the cache alone, whatever people and current year it is
    given.  The answer [None] for an unknown name is frozen too. *)
Theorem get_person_age_memoizes
    (c c1 : gmap (string * Z) (option Z)) (person_name : string) (year : Z)
    (people_data : list Person) (current_year : Z) (v : option Z) :
  get_person_age c person_name year people_data current_year = (v, c1) ->
  c ⊆ c1 /\
  forall c2 people_data' current_year',
    c1 ⊆ c2 ->
    get_person_age c2 person_name year people_data' current_year' = (v, c2).
Proof.
  unfold get_person_age. cbv zeta.
  destruct (c !! (person_name, year)) as [age|] eqn:E.
  - rewrite E. cbn [default]. intros [= <- <-]. split; [reflexivity|].
    intros c2 people_data' current_year' Hsub.
    rewrite (lookup_weaken _ _ _ _ E Hsub). cbn [default].
    now rewrite (lookup_weaken _ _ _ _ E Hsub).
  - rewrite lookup_insert_eq. cbn [default]. intros [= <- <-].
    split; [now apply insert_subseteq|].
    intros c2 people_data' current_year' Hsub.
    assert (E2 : c2 !! (person_name, year)
                 = Some match find_person people_data person_name with
                        | Some person =>
                            Some (current_age person + (year - current_year))%Z
                        | None => None
                        end).
    { eapply lookup_weaken; [apply lookup_insert_eq | exact Hsub]. }
    rewrite E2. cbn [default]. now rewrite E2.
Qed.

(** Asked for Ann before she is among the people, then after. *)
Lemma get_person_age_memoizes_witness :
  get_person_age (snd (get_person_age ∅ "Ann" 2030 [] 2025)) "Ann" 2030
    [{| name := "Ann"; current_age := 40 |}] 2025
  = (None, snd (get_person_age ∅ "Ann" 2030 [] 2025)).
Proof.
  assert (H : get_person_age ∅ "Ann" 2030 [] 2025
              = (None, snd (get_person_age ∅ "Ann" 2030 [] 2025)))
    by reflexivity.
  exact (proj2 (get_person_age_memoizes _ _ _ _ _ _ _ H) _ _ _ (reflexivity _)).
Defined.

(** X23.  The split of the income table is not a partition.  For a table
    of one row that is due at the age asked for: when the row starts at
    65 or later and ends at 67 or earlier it lands in both lists and the
    total income counts it twice; when it starts before 65 and ends after
    67 it lands in neither and the total income is 0. *)
Theorem split_row_counted_twice_or_never
    (s : Scenario) (inc : Item) (sa ea : Z) (amt gr : Q) (age year : Z)
    (cache : ProjectionCache) :
  start_age inc = Some sa -> end_age inc = Some ea ->
  annual_amount inc = Some amt -> growth_rate inc = Some gr ->
  _convert_income_data [inc] = Ok (income_sources s, retirement_income s) ->
  real_estate s = [] ->
  (sa <= age_of (people s) (s_current_year s)
           (get_default (person inc) "Joint"%string) age year <= ea)%Z ->
  ((65 <= sa)%Z -> (ea <= 67)%Z ->
   calculate_total_income s age year cache
   = Ok (0 + amt * pypow (1 + gr / 100)
                 (age_of (people s) (s_current_year s)
                    (get_default (person inc) "Joint"%string) age year - sa)
           + amt * pypow (1 + gr / 100)
                 (age_of (people s) (s_current_year s)
                    (get_default (person inc) "Joint"%string) age year - sa),
         cache)) /\
  ((sa < 65)%Z -> (67 < ea)%Z ->
   calculate_total_income s age year cache = Ok (0, cache)).
Proof.
  intros Hsa Hea Hamt Hgr Hconv Hre Hage.
  unfold _convert_income_data in Hconv. cbn [income_rows] in Hconv.
  rewrite Hsa, Hea in Hconv. cbn [getitem rbind] in Hconv.
  split; intros H1 H2.
  - replace (ea <=? 67)%Z with true in Hconv by (symmetry; apply Z.leb_le; lia).
    replace (65 <=? sa)%Z with true in Hconv by (symmetry; apply Z.leb_le; lia).
    injection Hconv as Hs1 Hs2.
    unfold calculate_total_income. rewrite <- Hs1, <- Hs2, Hre.
    cbn [income_loop]. unfold income_step. cbv zeta.
    rewrite Hsa, Hea, Hamt, Hgr. cbn [getitem rbind].
    destruct Hage as [Hlo Hhi].
    apply Z.leb_le in Hlo. apply Z.leb_le in Hhi.
    rewrite Hlo, Hhi. cbn [rbind]. reflexivity.
  - replace (ea <=? 67)%Z with false in Hconv by (symmetry; apply Z.leb_gt; lia).
    replace (65 <=? sa)%Z with false in Hconv by (symmetry; apply Z.leb_gt; lia).
    injection Hconv as Hs1 Hs2.
    unfold calculate_total_income. rewrite <- Hs1, <- Hs2, Hre.
    reflexivity.
Qed.

(** A pension of 20000 from 65 to 67, asked for at 66. *)
Lemma split_row_counted_twice_or_never_witness :
  let pension :=
    {| person := None; start_age := Some 65%Z; end_age := Some 67%Z;
       annual_amount := Some 20000; growth_rate := Some 0 |} in
  let s :=
    {| s_current_age := 66; max_projection_age := 66; s_current_year := 2025;
       people := []; accounts := None; account_details := [];
       income_sources := [pension]; retirement_income := [pension];
       recurring_expenses := []; planned_expenses := []; real_estate := [] |} in
  _convert_income_data [pension] = Ok (income_sources s, retirement_income s) /\
  exists total,
    calculate_total_income s 66 2025 cache_clear = Ok (total, cache_clear) /\
    total == 40000.
Proof.
  intros pension s.
  assert (Hc : _convert_income_data [pension]
               = Ok (income_sources s, retirement_income s)) by reflexivity.
  assert (Hage : (65 <= age_of (people s) (s_current_year s)
                          (get_default (person pension) "Joint"%string) 66 2025
                  <= 67)%Z) by (vm_compute; split; discriminate).
  split; [exact Hc|].
  eexists. split.
  - exact (proj1 (split_row_counted_twice_or_never s pension 65 67 20000 0 66 2025
                    cache_clear eq_refl eq_refl eq_refl eq_refl Hc eq_refl Hage)
             ltac:(lia) ltac:(lia)).
  - vm_compute. reflexivity.
Defined.

(** X24.  A trial does not clip its returns.  With one account of
    positive balance, a cashflow of the year that is not positive, a
    volatility that is not negative and a draw that puts the year's
    return below -100 percent, the year's record carries a negative
    portfolio balance. *)
Theorem trial_balance_can_turn_negative
    (volatility_of : AccountData -> Q -> Q) (noise : Z -> nat -> Q)
    (s : Scenario) (st : RunState) (age : Z) (k : string) (a : AccountData)
    (inc exp sales eq : Q) (c : ProjectionCache) :
  st_accounts st = [(k, a)] -> 0 < balance a ->
  year_cashflow s age (s_current_year s + (age - s_current_age s))%Z st
  = Ok (inc, exp, sales, eq, c) ->
  inc - exp + sales <= 0 ->
  0 <= volatility_of a
         (calculate_account_growth_rate a
            (Zq (age_of (people s) (s_current_year s) (account_owner a) age
                   (s_current_year s + (age - s_current_age s))%Z))) ->
  calculate_account_growth_rate a
    (Zq (age_of (people s) (s_current_year s) (account_owner a) age
           (s_current_year s + (age - s_current_age s))%Z))
  + volatility_of a
      (calculate_account_growth_rate a
         (Zq (age_of (people s) (s_current_year s) (account_owner a) age
                (s_current_year s + (age - s_current_age s))%Z)))
    * noise age 0%nat < -1 ->
  exists r st',
    simulate_year volatility_of noise s st age = Ok (r, st') /\
    portfolio_balance r < 0.
Proof.
  intros Hacc Hb Hcf Hnet _ Hret.
  unfold simulate_year. cbv zeta. rewrite Hcf. cbn [rbind]. rewrite Hacc.
  cbn [rates_loop generate_correlated_returns generate_correlated_returns_from
       apply_returns].
  set (ret := calculate_account_growth_rate a _ + _ * noise age 0%nat) in *.
  clearbody ret.
  do 2 eexists. split; [reflexivity|].
  cbn [portfolio_balance make_record].
  assert (Hneg : balance a + balance a * ret < 0) by nra.
  unfold distribute.
  destruct (Qeq_bool (inc - exp + sales) 0) eqn:E0; cbn [negb].
  - unfold total_balance, dict_values. cbn [map snd balance set_balance].
    rewrite pysum_cons, pysum_nil. lra.
  - cbn [balance set_balance].
    replace (Qlt_bool 0 (0 + (balance a + balance a * ret))) with false
      by (symmetry; apply Qlt_bool_false; lra).
    replace (Qlt_bool 0 (inc - exp + sales)) with false
      by (symmetry; apply Qlt_bool_false; lra).
    unfold total_balance, dict_values. cbn [map snd balance set_balance].
    rewrite pysum_cons, pysum_nil. lra.
Qed.

(** One account of 100000 at 8 percent (volatility 16 percent), no
    cashflow, and a draw of seven standard deviations below the mean. *)
Lemma trial_balance_can_turn_negative_witness :
  let s :=
    {| s_current_age := 40; max_projection_age := 40; s_current_year := 2025;
       people := []; accounts := None; account_details := [example_account];
       income_sources := []; retirement_income := [];
       recurring_expenses := []; planned_expenses := []; real_estate := [] |} in
  exists r st',
    simulate_year
      (fun account_data det_rate => get_account_volatility account_data (Some det_rate))
      (fun _ _ => -7) s (mc_initial_state s) 40
    = Ok (r, st') /\
    portfolio_balance r < 0.
Proof.
  intros s.
  eapply (trial_balance_can_turn_negative _ _ s (mc_initial_state s) 40
            "401k_Joint" (detailed_account example_account) 0 0 0 0 cache_clear).
  - reflexivity.
  - reflexivity.
  - reflexivity.
  - vm_compute. discriminate.
  - vm_compute. discriminate.
  - vm_compute. reflexivity.
Defined.

(** X25.  The clipped return reads the stored aggressive rate (7 when
    absent) as a decimal: when that rate is at least 0.08 the volatility
    is the rate plus 0.08, no exception is raised, the result lies
    between -0.5 and 1, and it is the unclipped draw when that lies
    between -0.5 and 1. *)
Theorem stochastic_return_volatility_and_clip
    (z : Q) (account : AccountData) (owner_age : Z) (people_data : list Person)
    (deterministic_rate : Q) :
  (8 # 100) <= get_default (aggressive_rate account) 7 ->
  get_account_volatility account None
  == get_default (aggressive_rate account) 7 + (8 # 100) /\
  exists x,
    calculate_stochastic_return z account owner_age people_data deterministic_rate
    = Some x /\
    - (1 # 2) <= x <= 1 /\
    (- (1 # 2)
     <= deterministic_rate + get_account_volatility account None * z <= 1 ->
     x == deterministic_rate + get_account_volatility account None * z).
Proof.
  intros Ha.
  assert (Hv : get_account_volatility account None
               == get_default (aggressive_rate account) 7 + (8 # 100)).
  { unfold get_account_volatility, get_current_account_return_rate,
      calculate_volatility_from_return. cbv zeta.
    replace (Qle_bool 8 (get_default (aggressive_rate account) 7 * 100))
      with true by (symmetry; apply Qle_bool_iff; lra).
    lra. }
  split; [exact Hv|].
  unfold calculate_stochastic_return, np_random_normal. cbv zeta.
  set (v := get_account_volatility account None) in *. clearbody v.
  replace (Qlt_bool v 0) with false by (symmetry; apply Qlt_bool_false; lra).
  eexists. split; [reflexivity|].
  unfold np_clip. cbv zeta.
  destruct (Qlt_bool (deterministic_rate + v * z) (- (1 # 2))) eqn:E1;
    qbool.
  - replace (Qlt_bool 1 (- (1 # 2))) with false by reflexivity.
    split; [split; lra | intros H; lra].
  - destruct (Qlt_bool 1 (deterministic_rate + v * z)) eqn:E2; qbool;
      (split; [split; lra | intros H; lra]).
Qed.

(** The example account (aggressive rate 8) with a draw of 0. *)
Lemma stochastic_return_volatility_and_clip_witness :
  (8 # 100) <= get_default (aggressive_rate (detailed_account example_account)) 7 /\
  get_account_volatility (detailed_account example_account) None == (808 # 100).
Proof.
  assert (H : (8 # 100)
              <= get_default (aggressive_rate (detailed_account example_account)) 7)
    by (vm_compute; discriminate).
  split; [exact H|].
  rewrite (proj1 (stochastic_return_volatility_and_clip
                    0 (detailed_account example_account) 40 [] (7 # 100) H)).
  vm_compute. reflexivity.
Defined.

(** ** The amortization functions on floats *)

(** C8, at an input where the code departs from it.  A loan of 432767.64
    at a rate of 0 over one year, after its twelve payments: in binary64
    [432767.64 * 12 / 12] is not [432767.64], and the zero-rate branch has
    no test for the end of the term, so what is returned is [2 ** -34]
    (about 5.8e-11) and not 0.  The branch for the other rates tests
    [payments_made >= total_payments] and returns 0.  No power is
    computed on this path: the statement holds for every [pow].  On exact
    rationals the same branch returns 0
    ([mortgage_balance_amortizes_exact]). *)
Theorem zero_rate_balance_at_term_end_not_zero
    (pow : PrimFloat.float -> Z -> res PrimFloat.float) :
  Binary64.calculate_mortgage_balance pow
    Binary64.principal_432767_64 PrimFloat.zero 1 (1 * 12)
  = Ok Binary64.two_to_the_minus_34 /\
  PrimFloat.eqb Binary64.two_to_the_minus_34 PrimFloat.zero = false /\
  PrimFloat.ltb PrimFloat.zero Binary64.two_to_the_minus_34 = true.
Proof.
  repeat split; vm_compute; reflexivity.
Qed.

(** X8.  A rate that is not 0 and so small that [1 + rate / 12] rounds to
    1 makes both amortization functions divide by zero: with a power
    function that returns 1 at base 1 (for the exponents below 2^63, as
    Python's does), the payment function raises [ZeroDivisionError], and
    so does the balance function before the end of the term.  The test
    [annual_rate == 0] does not cover such a rate. *)
Theorem tiny_rate_divides_by_zero
    (pow : PrimFloat.float -> Z -> res PrimFloat.float)
    (principal annual_rate : PrimFloat.float) (years payments_made : Z) :
  PrimFloat.eqb annual_rate PrimFloat.zero = false ->
  PrimFloat.eqb
    (PrimFloat.add PrimFloat.one (PrimFloat.div annual_rate (Binary64.of_int 12)))
    PrimFloat.one = true ->
  (forall x n, (Z.abs n < 2 ^ 63)%Z -> PrimFloat.eqb x PrimFloat.one = true ->
               pow x n = Ok PrimFloat.one) ->
  (Z.abs (years * 12) < 2 ^ 63)%Z ->
  Binary64.calculate_monthly_mortgage_payment pow principal annual_rate years
  = Raise ZeroDivisionError /\
  ((Z.abs payments_made < 2 ^ 63)%Z -> (payments_made < years * 12)%Z ->
   Binary64.calculate_mortgage_balance pow principal annual_rate years payments_made
   = Raise ZeroDivisionError).
Proof.
  intros Hr H1 Hpow Hy.
  let v := eval vm_compute in (Binary64.of_int 12) in
  change (Binary64.of_int 12) with v in H1.
  unfold PrimFloat.zero, PrimFloat.one in *.
  unfold Binary64.calculate_monthly_mortgage_payment,
    Binary64.calculate_mortgage_balance.
  rewrite Hr. cbv zeta. rewrite !(Hpow _ _ Hy H1). cbn [rbind].
  split; [reflexivity|].
  intros Hp Hk.
  replace (payments_made >=? years * 12)%Z with false
    by (symmetry; rewrite Z.geb_leb; apply Z.leb_gt; lia).
  rewrite (Hpow _ _ Hp H1). cbn [rbind].
  reflexivity.
Qed.

(** 200000 at a rate of 1e-17 over 30 years, after 12 payments. *)
Lemma tiny_rate_divides_by_zero_witness :
  Binary64.calculate_monthly_mortgage_payment Binary64.pow_of_products
    Binary64.principal_200000 Binary64.rate_1e_17 30
  = Raise ZeroDivisionError /\
  Binary64.calculate_mortgage_balance Binary64.pow_of_products
    Binary64.principal_200000 Binary64.rate_1e_17 30 12
  = Raise ZeroDivisionError.
Proof.
  assert (Hr : PrimFloat.eqb Binary64.rate_1e_17 PrimFloat.zero = false)
    by (vm_compute; reflexivity).
  assert (H1 : PrimFloat.eqb
                 (PrimFloat.add PrimFloat.one
                    (PrimFloat.div Binary64.rate_1e_17 (Binary64.of_int 12)))
                 PrimFloat.one = true)
    by (vm_compute; reflexivity).
  assert (Hpow : forall x n, (Z.abs n < 2 ^ 63)%Z ->
                             PrimFloat.eqb x PrimFloat.one = true ->
                             Binary64.pow_of_products x n = Ok PrimFloat.one).
  { intros x n _ Hx. unfold Binary64.pow_of_products.
    unfold PrimFloat.one in Hx. now rewrite Hx. }
  assert (Hy : (Z.abs (30 * 12) < 2 ^ 63)%Z) by (vm_compute; reflexivity).
  assert (Hp : (Z.abs 12 < 2 ^ 63)%Z) by (vm_compute; reflexivity).
  destruct (tiny_rate_divides_by_zero Binary64.pow_of_products
              Binary64.principal_200000 Binary64.rate_1e_17 30 12 Hr H1 Hpow Hy)
    as [Hpay Hbal].
  split; [exact Hpay | apply Hbal; [exact Hp | lia]].
Defined.

(** ** Loans within ordinary bounds

    The statements below keep to rates and terms at which the source's
    floats neither cancel in [(1 + m) ** n - 1] nor overflow, or ask that
    the calls return. *)

(** X1.  For a principal that is not negative, a rate between 0.1 and 50
    percent and a term of 1 to 40 years the monthly payment is defined
    and not negative; it covers at least the first month's interest, and
    the payments of the whole term add up to at least the principal. *)
Theorem monthly_payment_repays (principal annual_rate : Q) (years : Z) :
  0 <= principal -> (1 # 1000) <= annual_rate <= (1 # 2) ->
  (0 < years <= 40)%Z ->
  exists payment,
    calculate_monthly_mortgage_payment principal annual_rate years = Ok payment /\
    0 <= payment /\
    principal * (annual_rate / 12) <= payment /\
    principal <= payment * Zq (years * 12).
Proof.
  intros HP [Hlo Hhi] Hy.
  destruct (monthly_payment_exact principal annual_rate years HP
              ltac:(lra) ltac:(lia)) as (payment & E & H1 & H2 & H3 & _).
  exists payment. repeat split; assumption.
Qed.

(** 200000 over 30 years at 4%. *)
Lemma monthly_payment_repays_witness :
  0 <= 200000 /\ (1 # 1000) <= (4 # 100) <= (1 # 2) /\ (0 < 30 <= 40)%Z /\
  exists payment,
    calculate_monthly_mortgage_payment 200000 (4 # 100) 30 = Ok payment /\
    0 <= payment /\
    200000 * ((4 # 100) / 12) <= payment /\
    200000 <= payment * Zq (30 * 12).
Proof.
  assert (H1 : 0 <= 200000) by (vm_compute; discriminate).
  assert (H2 : (1 # 1000) <= (4 # 100) <= (1 # 2))
    by (split; vm_compute; discriminate).
  assert (H3 : (0 < 30 <= 40)%Z) by lia.
  split; [exact H1|]. split; [exact H2|]. split; [exact H3|].
  exact (monthly_payment_repays 200000 (4 # 100) 30 H1 H2 H3).
Defined.

(** X2.  The balance function follows the schedule of the payment
    function.  For a principal that is not negative, a rate that is 0 or
    between 0.1 and 50 percent and a term of 1 to 40 years, before the
    end of the term: the balance after one more payment is the balance
    before it, plus one month of interest, minus the monthly payment. *)
Theorem balance_follows_payment_schedule
    (principal annual_rate : Q) (term_years k : Z) :
  0 <= principal ->
  annual_rate == 0 \/ (1 # 1000) <= annual_rate <= (1 # 2) ->
  (0 < term_years <= 40)%Z ->
  (0 <= k < term_years * 12)%Z ->
  exists payment before after,
    calculate_monthly_mortgage_payment principal annual_rate term_years = Ok payment /\
    calculate_mortgage_balance principal annual_rate term_years k = Ok before /\
    calculate_mortgage_balance principal annual_rate term_years (k + 1) = Ok after /\
    after == before * (1 + annual_rate / 12) - payment.
Proof.
  intros HP Hr HT Hk.
  apply payment_schedule_exact; [exact HP | | lia | exact Hk].
  destruct Hr as [Hr|[Hr _]]; lra.
Qed.

(** 200000 over 30 years at 4%, the thirteenth payment. *)
Lemma balance_follows_payment_schedule_witness :
  0 <= 200000 /\ (0 < 30 <= 40)%Z /\ (0 <= 12 < 30 * 12)%Z /\
  exists payment before after,
    calculate_monthly_mortgage_payment 200000 (4 # 100) 30 = Ok payment /\
    calculate_mortgage_balance 200000 (4 # 100) 30 12 = Ok before /\
    calculate_mortgage_balance 200000 (4 # 100) 30 (12 + 1) = Ok after /\
    after == before * (1 + (4 # 100) / 12) - payment.
Proof.
  assert (H1 : 0 <= 200000) by (vm_compute; discriminate).
  assert (H2 : (4 # 100) == 0 \/ (1 # 1000) <= (4 # 100) <= (1 # 2))
    by (right; split; vm_compute; discriminate).
  assert (H3 : (0 < 30 <= 40)%Z) by lia.
  assert (H4 : (0 <= 12 < 30 * 12)%Z) by lia.
  split; [exact H1|]. split; [exact H3|]. split; [exact H4|].
  exact (balance_follows_payment_schedule 200000 (4 # 100) 30 12 H1 H2 H3 H4).
Defined.

(** X3.  The balance never rises with the number of payments made and is
    never negative: of two calls for one loan that return, the one with
    at least as many payments returns the smaller balance. *)
Theorem balance_never_rises
    (principal annual_rate : Q) (term_years k1 k2 : Z) (b1 b2 : Q) :
  0 <= principal -> 0 <= annual_rate -> (0 < term_years)%Z -> (k1 <= k2)%Z ->
  calculate_mortgage_balance principal annual_rate term_years k1 = Ok b1 ->
  calculate_mortgage_balance principal annual_rate term_years k2 = Ok b2 ->
  0 <= b2 /\ b2 <= b1.
Proof.
  intros HP Hr HT Hk E1 E2.
  destruct (balance_starts_and_falls_exact principal annual_rate term_years k1 k2
              HP Hr HT Hk) as (b0 & b1' & b2' & _ & E1' & E2' & _ & Hle).
  rewrite E1 in E1'. rewrite E2 in E2'.
  injection E1' as <-. injection E2' as <-.
  split; [|exact Hle].
  destruct (calculate_mortgage_balance_returns principal annual_rate term_years k2
              Hr HT) as (b & Eb & Hb).
  rewrite E2 in Eb. injection Eb as <-. exact Hb.
Qed.

(** 200000 over 30 years at 4%, after one and after two years. *)
Lemma balance_never_rises_witness :
  exists b1 b2,
    calculate_mortgage_balance 200000 (4 # 100) 30 12 = Ok b1 /\
    calculate_mortgage_balance 200000 (4 # 100) 30 24 = Ok b2 /\
    0 <= b2 /\ b2 <= b1.
Proof.
  assert (H1 : 0 <= 200000) by (vm_compute; discriminate).
  assert (H2 : 0 <= (4 # 100)) by (vm_compute; discriminate).
  assert (H3 : (0 < 30)%Z) by reflexivity.
  assert (H4 : (12 <= 24)%Z) by lia.
  destruct (calculate_mortgage_balance 200000 (4 # 100) 30 12) as [b1|e1] eqn:E1.
  - destruct (calculate_mortgage_balance 200000 (4 # 100) 30 24) as [b2|e2] eqn:E2.
    + exists b1, b2. split; [reflexivity|]. split; [reflexivity|].
      exact (balance_never_rises 200000 (4 # 100) 30 12 24 b1 b2 H1 H2 H3 H4 E1 E2).
    + exfalso. revert E2. vm_compute. discriminate.
  - exfalso. revert E1. vm_compute. discriminate.
Defined.

(** X5.  With a mortgage rate and a loan principal that are not negative,
    the mortgage balance of a property never rises from one year to a
    later one and is never negative (for a future property: from its
    purchase year on), whenever it is computed for both years. *)
Theorem property_mortgage_never_rises (p : Property) (y1 y2 cy : Z) (b1 b2 : Q) :
  0 <= mortgage_rate p ->
  match kind p with
  | ExistingProperty _ _ => True
  | FutureProperty =>
      0 <= purchase_price p * (1 - down_payment_percent p) /\
      (purchase_year p <= y1)%Z
  end ->
  (y1 <= y2)%Z ->
  calculate_mortgage_balance_at_year p y1 cy = Ok b1 ->
  calculate_mortgage_balance_at_year p y2 cy = Ok b2 ->
  0 <= b2 /\ b2 <= b1.
Proof.
  intros Hr Hk Hy E1 E2.
  destruct (property_mortgage_exact p y1 y2 cy Hr Hk Hy)
    as (b1' & b2' & E1' & E2' & H0 & Hle).
  rewrite E1 in E1'. rewrite E2 in E2'.
  injection E1' as <-. injection E2' as <-.
  split; assumption.
Qed.

(** An owned house with 100000 left on its mortgage at 4 percent, fifteen
    years into a term of thirty: 2026 against 2029. *)
Lemma property_mortgage_never_rises_witness :
  let house :=
    {| property_name := "House";
       mortgage_rate := 4 / 100;
       mortgage_term_years := 30;
       appreciation_rate := 3 / 100;
       sale_year := None;
       purchase_year := 2010;
       purchase_price := 300000;
       down_payment_percent := 20 / 100;
       kind := ExistingProperty 400000 100000 |} in
  exists b1 b2,
    calculate_mortgage_balance_at_year house 2026 2025 = Ok b1 /\
    calculate_mortgage_balance_at_year house 2029 2025 = Ok b2 /\
    0 <= b2 /\ b2 <= b1.
Proof.
  intros house.
  assert (H1 : 0 <= mortgage_rate house) by (vm_compute; discriminate).
  assert (H3 : (2026 <= 2029)%Z) by lia.
  destruct (calculate_mortgage_balance_at_year house 2026 2025)
    as [b1|e1] eqn:E1.
  - destruct (calculate_mortgage_balance_at_year house 2029 2025)
      as [b2|e2] eqn:E2.
    + exists b1, b2. split; [reflexivity|]. split; [reflexivity|].
      exact (property_mortgage_never_rises house 2026 2029 2025 b1 b2
               H1 I H3 E1 E2).
    + exfalso. revert E2. vm_compute. discriminate.
  - exfalso. revert E1. vm_compute. discriminate.
Defined.

(** ** Income items within bounds *)

Lemma income_item_bounded_ok (item : Item) :
  income_item_bounded item -> income_item_ok item.
Proof.
  intros (sa & ea & amt & gr & Hs & He & Ha & Hg & Hamt & [Hlo _] & _).
  exists sa, ea, amt, gr. repeat split; assumption.
Qed.

(** X12.  Without real estate and with income items whose fields are all
    present, amounts not negative, growth rates between -100 and 100
    percent and windows of at most 200 years, the total income is
    computed without an exception, is not negative, and the cache is left
    as it was. *)
Theorem total_income_of_complete_items
    (s : Scenario) (age year : Z) (cache : ProjectionCache) :
  real_estate s = [] ->
  Forall income_item_bounded (income_sources s) ->
  Forall income_item_bounded (retirement_income s) ->
  exists total,
    calculate_total_income s age year cache = Ok (total, cache) /\ 0 <= total.
Proof.
  intros Hre H1 H2. unfold calculate_total_income.
  assert (H1' : Forall income_item_ok (income_sources s))
    by (eapply Forall_impl; [exact H1 | exact income_item_bounded_ok]).
  assert (H2' : Forall income_item_ok (retirement_income s))
    by (eapply Forall_impl; [exact H2 | exact income_item_bounded_ok]).
  destruct (income_loop_ok s age year _ 0 H1' ltac:(lra)) as (t1 & -> & Ht1).
  cbn [rbind].
  destruct (income_loop_ok s age year _ t1 H2' Ht1) as (t2 & -> & Ht2).
  cbn [rbind]. rewrite Hre. eauto.
Qed.

(** The example household at 60. *)
Lemma total_income_of_complete_items_witness :
  real_estate example_scenario = [] /\
  Forall income_item_bounded (income_sources example_scenario) /\
  Forall income_item_bounded (retirement_income example_scenario) /\
  exists total,
    calculate_total_income example_scenario 60 2025 cache_clear
    = Ok (total, cache_clear) /\ 0 <= total.
Proof.
  assert (H0 : real_estate example_scenario = []) by reflexivity.
  assert (H1 : Forall income_item_bounded (income_sources example_scenario)).
  { constructor; [|constructor].
    exists 25%Z, 62%Z, 50000, 0.
    repeat split; try discriminate; reflexivity. }
  assert (H2 : Forall income_item_bounded (retirement_income example_scenario))
    by constructor.
  split; [exact H0|]. split; [exact H1|]. split; [exact H2|].
  exact (total_income_of_complete_items example_scenario 60 2025 cache_clear
           H0 H1 H2).
Defined.

(** ** Equity in and after the sale year *)

(** The iteration of the aggregator for a property that is sold in the
    year records the equity 0 under the property's name. *)
Lemma sold_in_year_records_zero
    (p : Property) (prop_data : PropertyData) (cy year : Z)
    (result result' : Impact) :
  create_property prop_data = Ok p ->
  is_sold_in_year p year = true ->
  impact_of_property cy year result prop_data = Ok result' ->
  dict_get (property_name p) (equity_values result') = Some 0.
Proof.
  intros Hp Hsold. unfold impact_of_property.
  destruct (pd_property_name prop_data) as [nm|] eqn:En.
  2:{ unfold create_property in Hp. rewrite En in Hp. discriminate. }
  rewrite Hp. cbn [rbind]. rewrite Hsold.
  destruct (is_sold_before_year p year) eqn:Eb.
  { exfalso. unfold is_sold_in_year, is_sold_before_year in *.
    destruct (sale_year p); [|discriminate]. lia. }
  destruct (calculate_equity_at_year p year cy) as [ev|]; cbn [rbind];
    [|discriminate].
  destruct (calculate_mortgage_balance_at_year p year cy) as [mb|];
    cbn [rbind]; [|discriminate].
  rewrite andb_false_r. cbn [rbind].
  destruct (calculate_sale_proceeds p year cy) as [sp|]; cbn [rbind];
    [|discriminate].
  intros [= <-]. cbn [equity_values]. apply dict_get_set_eq.
Qed.

(** An iteration for an entry of another name leaves the equity recorded
    under a name as it is. *)
Lemma impact_of_property_keeps_equity
    (cy year : Z) (result result' : Impact) (prop_data : PropertyData)
    (nm : string) :
  pd_property_name prop_data <> Some nm ->
  impact_of_property cy year result prop_data = Ok result' ->
  dict_get nm (equity_values result') = dict_get nm (equity_values result).
Proof.
  intros Hne. unfold impact_of_property.
  destruct (pd_property_name prop_data) as [nm'|] eqn:En;
    [|intros [= <-]; reflexivity].
  destruct (create_property prop_data) as [p|] eqn:Ep; cbn [rbind];
    [|discriminate].
  assert (Hnm : String.eqb nm (property_name p) = false).
  { unfold create_property in Ep. rewrite En in Ep. cbn [getitem rbind] in Ep.
    injection Ep as <-. cbn [property_name].
    apply String.eqb_neq. intros ->. now apply Hne. }
  destruct (is_sold_before_year p year); [intros [= <-]; reflexivity|].
  destruct (calculate_equity_at_year p year cy) as [ev|]; cbn [rbind];
    [|discriminate].
  destruct (calculate_mortgage_balance_at_year p year cy) as [mb|];
    cbn [rbind]; [|discriminate].
  cbv zeta.
  match goal with
  | |- rbind ?m _ = _ -> _ => destruct m as [ae|]
  end; cbn [rbind]; [|discriminate].
  destruct (is_sold_in_year p year).
  - destruct (calculate_sale_proceeds p year cy) as [sp|]; cbn [rbind];
      [|discriminate].
    intros [= <-]. cbn [equity_values].
    now rewrite !dict_get_set_ne by exact Hnm.
  - intros [= <-]. cbn [equity_values].
    now rewrite dict_get_set_ne by exact Hnm.
Qed.

Lemma impact_loop_keeps_equity
    (cy year : Z) (nm : string) (l : list PropertyData) :
  Forall (fun pd => pd_property_name pd <> Some nm) l ->
  forall result result',
    impact_loop cy year l result = Ok result' ->
    dict_get nm (equity_values result') = dict_get nm (equity_values result).
Proof.
  induction 1 as [|pd l Hpd _ IH]; intros result result'; cbn [impact_loop].
  - now intros [= <-].
  - destruct (impact_of_property cy year result pd) as [r1|] eqn:E1;
      cbn [rbind]; [|discriminate].
    intros Hl. rewrite (IH _ _ Hl).
    exact (impact_of_property_keeps_equity cy year result r1 pd nm Hpd E1).
Qed.

(** C2, as the code has it.  For every property, owned or future, and
    every year: the equity that [calculate_equity_at_year] returns is never
    negative, and it is 0 in every year after the sale year.  In the sale
    year itself the function returns the equity before the sale,
    [max(0, value - mortgage balance)], and the sale proceeds are that
    equity less the closing costs.  The 0 of the sale year is the
    aggregator's: [calculate_real_estate_impact_v2] returns an aggregate
    with the equity 0 under the property's name, when no later entry of
    the list carries that name. *)
Theorem equity_nonneg_zero_after_sale (p : Property) (year cy : Z) :
  (forall e, calculate_equity_at_year p year cy = Ok e -> 0 <= e) /\
  (forall sy, sale_year p = Some sy -> (sy < year)%Z ->
     calculate_equity_at_year p year cy = Ok 0) /\
  (forall e, sale_year p = Some year ->
     calculate_equity_at_year p year cy = Ok e ->
     (exists balance,
        calculate_mortgage_balance_at_year p year cy = Ok balance /\
        e = max0 (calculate_value_at_year p year cy - balance)) /\
     calculate_sale_proceeds p year cy = Ok (e * (1 - closing_cost_rate))) /\
  (forall l1 prop_data l2 age impact,
     create_property prop_data = Ok p ->
     sale_year p = Some year ->
     Forall (fun pd => pd_property_name pd <> Some (property_name p)) l2 ->
     calculate_real_estate_impact_v2 (l1 ++ prop_data :: l2) cy age year
     = Ok impact ->
     dict_get (property_name p) (equity_values impact) = Some 0).
Proof.
  split; [|split; [|split]].
  - intros e. apply equity_at_year_nonneg.
  - intros sy Hsy Hlt. unfold calculate_equity_at_year, is_sold_before_year.
    rewrite Hsy. replace (year >? sy)%Z with true; [reflexivity|].
    symmetry. apply Z.gtb_lt. lia.
  - intros e Hsy.
    assert (Hb : is_sold_before_year p year = false).
    { unfold is_sold_before_year. rewrite Hsy.
      rewrite Z.gtb_ltb. apply Z.ltb_irrefl. }
    assert (Hs : is_sold_in_year p year = true).
    { unfold is_sold_in_year. rewrite Hsy. apply Z.eqb_refl. }
    unfold calculate_sale_proceeds. rewrite Hs. cbn [negb].
    unfold calculate_equity_at_year. rewrite Hb. cbv zeta.
    destruct (calculate_mortgage_balance_at_year p year cy) as [balance|];
      cbn [rbind]; [|discriminate].
    intros [= <-]. split; [|reflexivity].
    exists balance. split; reflexivity.
  - intros l1 prop_data l2 age impact Hp Hsy Hl2.
    assert (Hs : is_sold_in_year p year = true).
    { unfold is_sold_in_year. rewrite Hsy. apply Z.eqb_refl. }
    unfold calculate_real_estate_impact_v2. rewrite impact_loop_app.
    destruct (impact_loop cy year l1 empty_impact) as [r1|]; cbn [rbind];
      [|discriminate].
    cbn [impact_loop].
    destruct (impact_of_property cy year r1 prop_data) as [r2|] eqn:E2;
      cbn [rbind]; [|discriminate].
    intros Hrest.
    rewrite (impact_loop_keeps_equity cy year _ l2 Hl2 _ _ Hrest).
    exact (sold_in_year_records_zero p prop_data cy year r1 r2 Hp Hs E2).
Qed.

(** The cabin one year after its sale. *)
Lemma equity_nonneg_zero_after_sale_witness :
  sale_year example_cabin = Some 2030%Z /\ (2030 < 2031)%Z /\
  calculate_equity_at_year example_cabin 2031 2025 = Ok 0.
Proof.
  assert (H1 : sale_year example_cabin = Some 2030%Z) by reflexivity.
  assert (H2 : (2030 < 2031)%Z) by reflexivity.
  split; [exact H1|]. split; [exact H2|].
  destruct (equity_nonneg_zero_after_sale example_cabin 2031 2025)
    as (_ & Hafter & _).
  exact (Hafter 2030%Z H1 H2).
Defined.

(** C2 as stated fails in the sale year: in 2030, the year of its sale,
    the cabin has the equity 400000 * 1.03^5, which is not 0. *)
Lemma equity_in_sale_year_not_zero :
  sale_year example_cabin = Some 2030%Z /\ (2030 <= 2030)%Z /\
  exists e, calculate_equity_at_year example_cabin 2030 2025 = Ok e /\
            460000 < e /\ ~ e == 0.
Proof.
  split; [reflexivity|]. split; [lia|].
  eexists. split; [vm_compute; reflexivity|].
  split; [reflexivity | discriminate].
Qed.
